(** * bench: a command-line HTTP load generator (bench.go, main.go)

    Shallow embedding of the dispatch engine and of its statistics.

    - Go's [uint] is taken at its 64-bit width (amd64/arm64), [uint32] and
      [int64] ([time.Duration], nanoseconds) are [Z] with the wrap-around
      written out.
    - The goroutines started by [Run] are a pool of small state machines,
      one program point per statement of [LaunchTask], each touching shared
      memory at most once; a schedule (a list of worker indices) picks who
      moves next.
      [atomic.AddUint32] is one indivisible step; the plain reads and writes
      of [DelayMin]/[DelayMax] are separate steps, as in the source.
    - The collaborators outside the repository (net/url, net/http,
      encoding/json, the clock) are fields of an [environ] record;
      [strconv.ParseUint] is a parameter of [flag_Parse].
    - The goroutine of [main] that waits for an interrupt is left out.
    - A call of [client.Do] returns in [step]; [step_or_wait] adds the calls
      that never return, for the question whether [Run] returns. *)

From Stdlib Require Import ZArith Lia List Bool Ascii String Floats Uint63.
From stdpp Require Import base list strings.

Local Open Scope Z_scope.

(** ** Machine integers *)

Module MachineInt.

Definition wrap32 (x : Z) : Z := x mod 2 ^ 32.

Definition wrap_int64 (x : Z) : Z := (x + 2 ^ 63) mod 2 ^ 64 - 2 ^ 63.

(** [atomic.AddUint32(&x, delta)]: the new value of the cell. *)
Definition AddUint32 (x delta : Z) : Z := wrap32 (x + delta).

(** Go's [/] on signed integers truncates toward zero. *)
Definition int64_div (x y : Z) : Z := wrap_int64 (Z.quot x y).

Definition int64_sub (x y : Z) : Z := wrap_int64 (x - y).

Definition int64_mul (x y : Z) : Z := wrap_int64 (x * y).

End MachineInt.
Export MachineInt.

(** ** Errors, requests, responses *)

(** Go [error] values as the program can tell them apart: [==] on errors is
    identity of the dynamic value. [http.ErrHandlerTimeout] is one
    package-level sentinel; [*url.Error] is what [http.Client.Do] wraps every
    failure in (its [Timeout()] method is the flag); [errors.New] allocates a
    fresh value. *)
Inductive error : Type :=
| ErrHandlerTimeout
| UrlError (is_timeout : bool) (msg : string)
| ErrorsNew (msg : string).

Definition error_eqb (a b : error) : bool :=
  match a, b with
  | ErrHandlerTimeout, ErrHandlerTimeout => true
  | UrlError t1 m1, UrlError t2 m2 => Bool.eqb t1 t2 && String.eqb m1 m2
  | ErrorsNew m1, ErrorsNew m2 => String.eqb m1 m2
  | _, _ => false
  end.

(** [err.Timeout()] of net/url: does this error report a timeout? *)
Definition indicates_timeout (e : error) : bool :=
  match e with
  | UrlError t _ => t
  | _ => false
  end.

(** What [http.NewRequest(method, url, body)] returns on success: the method
    is defaulted to GET when empty. *)
Record request : Type := {
  req_method : string;
  req_url : string;
  req_body : option string
}.

(** [(resp, err)] of [client.Do]: a response with its status code, or an
    error. *)
Inductive outcome : Type :=
| Resp (status : Z)
| Fail (e : error).

Definition StatusOK : Z := 200.

(** [url.Values] is [map[string][]string]; the zero value [nil] is empty. *)
Definition Values : Type := list (string * list string).

(** ** Collaborators *)

Record environ : Type := {
  (** [url.ParseRequestURI(s)]: on success the [u.String()] of the result. *)
  url_ParseRequestURI : string -> option string;
  (** [url.ParseQuery(s)]: the values decoded so far and the first error. *)
  url_ParseQuery : string -> Values * option error;
  (** [v.Encode()] *)
  Values_Encode : Values -> string;
  (** [json.Marshal] of the body map *)
  json_Marshal : list (string * string) -> string;
  (** does [http.NewRequest] accept this method and URL? *)
  request_ok : string -> string -> bool;
  (** the transport: outcome of the [k]-th [client.Do] of worker [w] *)
  client_Do : nat -> Z -> request -> outcome;
  (** [time.Since(start)] for the [k]-th iteration of worker [w] *)
  time_Since : nat -> Z -> Z;
  (** [time.Now()] when [Run] starts, on the monotonic clock *)
  time_Now : Z
}.

Definition http_NewRequest (E : environ) (method url : string)
    (body : option string) : option request :=
  if request_ok E method url then
    Some {| req_method := if String.eqb method "" then "GET"%string else method;
            req_url := url;
            req_body := body |}
  else None.

(** ** The data model of bench.go *)

Record stats : Type := {
  LaunchTime : Z;
  Runtime : Z;
  RequestsPerSecond : Z;
  RequestsTotal : Z;
  RequestsSuccess : Z;
  RequestsFail : Z;
  RequestsTimeout : Z;
  DelayMin : Z;
  DelayAvg : Z;
  DelayMax : Z
}.

Definition zero_stats : stats :=
  {| LaunchTime := 0; Runtime := 0; RequestsPerSecond := 0;
     RequestsTotal := 0; RequestsSuccess := 0; RequestsFail := 0;
     RequestsTimeout := 0; DelayMin := 0; DelayAvg := 0; DelayMax := 0 |}.

Definition set_LaunchTime (v : Z) (s : stats) : stats :=
  {| LaunchTime := v; Runtime := Runtime s;
     RequestsPerSecond := RequestsPerSecond s;
     RequestsTotal := RequestsTotal s; RequestsSuccess := RequestsSuccess s;
     RequestsFail := RequestsFail s; RequestsTimeout := RequestsTimeout s;
     DelayMin := DelayMin s; DelayAvg := DelayAvg s; DelayMax := DelayMax s |}.

Definition set_Runtime (v : Z) (s : stats) : stats :=
  {| LaunchTime := LaunchTime s; Runtime := v;
     RequestsPerSecond := RequestsPerSecond s;
     RequestsTotal := RequestsTotal s; RequestsSuccess := RequestsSuccess s;
     RequestsFail := RequestsFail s; RequestsTimeout := RequestsTimeout s;
     DelayMin := DelayMin s; DelayAvg := DelayAvg s; DelayMax := DelayMax s |}.

Definition set_RequestsTotal (v : Z) (s : stats) : stats :=
  {| LaunchTime := LaunchTime s; Runtime := Runtime s;
     RequestsPerSecond := RequestsPerSecond s;
     RequestsTotal := v; RequestsSuccess := RequestsSuccess s;
     RequestsFail := RequestsFail s; RequestsTimeout := RequestsTimeout s;
     DelayMin := DelayMin s; DelayAvg := DelayAvg s; DelayMax := DelayMax s |}.

Definition set_RequestsSuccess (v : Z) (s : stats) : stats :=
  {| LaunchTime := LaunchTime s; Runtime := Runtime s;
     RequestsPerSecond := RequestsPerSecond s;
     RequestsTotal := RequestsTotal s; RequestsSuccess := v;
     RequestsFail := RequestsFail s; RequestsTimeout := RequestsTimeout s;
     DelayMin := DelayMin s; DelayAvg := DelayAvg s; DelayMax := DelayMax s |}.

Definition set_RequestsFail (v : Z) (s : stats) : stats :=
  {| LaunchTime := LaunchTime s; Runtime := Runtime s;
     RequestsPerSecond := RequestsPerSecond s;
     RequestsTotal := RequestsTotal s; RequestsSuccess := RequestsSuccess s;
     RequestsFail := v; RequestsTimeout := RequestsTimeout s;
     DelayMin := DelayMin s; DelayAvg := DelayAvg s; DelayMax := DelayMax s |}.

Definition set_RequestsTimeout (v : Z) (s : stats) : stats :=
  {| LaunchTime := LaunchTime s; Runtime := Runtime s;
     RequestsPerSecond := RequestsPerSecond s;
     RequestsTotal := RequestsTotal s; RequestsSuccess := RequestsSuccess s;
     RequestsFail := RequestsFail s; RequestsTimeout := v;
     DelayMin := DelayMin s; DelayAvg := DelayAvg s; DelayMax := DelayMax s |}.

Definition set_DelayMin (v : Z) (s : stats) : stats :=
  {| LaunchTime := LaunchTime s; Runtime := Runtime s;
     RequestsPerSecond := RequestsPerSecond s;
     RequestsTotal := RequestsTotal s; RequestsSuccess := RequestsSuccess s;
     RequestsFail := RequestsFail s; RequestsTimeout := RequestsTimeout s;
     DelayMin := v; DelayAvg := DelayAvg s; DelayMax := DelayMax s |}.

Definition set_DelayAvg (v : Z) (s : stats) : stats :=
  {| LaunchTime := LaunchTime s; Runtime := Runtime s;
     RequestsPerSecond := RequestsPerSecond s;
     RequestsTotal := RequestsTotal s; RequestsSuccess := RequestsSuccess s;
     RequestsFail := RequestsFail s; RequestsTimeout := RequestsTimeout s;
     DelayMin := DelayMin s; DelayAvg := v; DelayMax := DelayMax s |}.

Definition set_DelayMax (v : Z) (s : stats) : stats :=
  {| LaunchTime := LaunchTime s; Runtime := Runtime s;
     RequestsPerSecond := RequestsPerSecond s;
     RequestsTotal := RequestsTotal s; RequestsSuccess := RequestsSuccess s;
     RequestsFail := RequestsFail s; RequestsTimeout := RequestsTimeout s;
     DelayMin := DelayMin s; DelayAvg := DelayAvg s; DelayMax := v |}.

(** [http.Client] as far as the program configures it. *)
Record client : Type := { Timeout : Z }.

Record bench : Type := {
  requests : Z;
  concurrency : Z;
  timeout : Z;
  host : string;
  method : string;
  params : Values;
  data : option (list (string * string));
  bstats : stats;
  bclient : client
}.

Record task : Type := {
  t_url : string;
  t_method : string;
  t_data : option string
}.

(** [NewBench]: the zero value of every field. *)
Definition NewBench : bench :=
  {| requests := 0; concurrency := 0; timeout := 0;
     host := ""; method := ""; params := []; data := None;
     bstats := zero_stats; bclient := {| Timeout := 0 |} |}.

Definition with_stats (s : stats) (b : bench) : bench :=
  {| requests := requests b; concurrency := concurrency b;
     timeout := timeout b; host := host b; method := method b;
     params := params b; data := data b; bstats := s;
     bclient := bclient b |}.

(** ** ParseArgs (bench.go, lines 56-88)

    The body from line 64 on, which starts from the typed values that
    [flag.Parse] leaves in the flag variables; the flag declarations and
    [flag.Parse] itself (lines 57-63) are [flag_Parse] below. *)

Record flags : Type := {
  flag_n : Z;        (* -n, uint, default 1000 *)
  flag_c : Z;        (* -c, uint, default 1 *)
  flag_t : Z;        (* -t, uint, default 100 *)
  flag_h : string;   (* -h, default "" *)
  flag_m : string;   (* -m, default "GET" *)
  flag_p : string    (* -p, default "" *)
}.

Definition default_flags : flags :=
  {| flag_n := 1000; flag_c := 1; flag_t := 100;
     flag_h := ""; flag_m := "GET"; flag_p := "" |}.

(** The [case] list of the [switch *method]. *)
Definition method_allowed (m : string) : bool :=
  String.eqb m "GET" || String.eqb m "POST" || String.eqb m "PUT"
  || String.eqb m "PATCH" || String.eqb m "DELETE".

Definition Millisecond : Z := 1000000.

(** The receiver is updated in place; the result pairs the receiver after
    the call with the returned error ([None] is [nil]). *)
Definition ParseArgs (E : environ) (f : flags) (b : bench)
    : bench * option error :=
  let b1 :=
    {| requests := flag_n f; concurrency := flag_c f; timeout := flag_t f;
       host := host b; method := method b; params := params b;
       data := data b; bstats := bstats b; bclient := bclient b |} in
  if method_allowed (flag_m f) then
    let b2 :=
      {| requests := requests b1; concurrency := concurrency b1;
         timeout := timeout b1; host := host b1; method := flag_m f;
         params := params b1; data := data b1; bstats := bstats b1;
         bclient := bclient b1 |} in
    match url_ParseRequestURI E (flag_h f) with
    | None => (b2, Some (ErrorsNew "invalid URL"))
    | Some u =>
        let ps :=
          match url_ParseQuery E (flag_p f) with
          | (p, None) => p
          | (_, Some _) => params b2
          end in
        ({| requests := requests b2; concurrency := concurrency b2;
            timeout := timeout b2; host := u; method := method b2;
            params := ps; data := data b2; bstats := bstats b2;
            bclient :=
              {| Timeout :=
                   int64_mul Millisecond (wrap_int64 (timeout b2)) |} |},
         None)
    end
  else (b1, Some (ErrorsNew "unsupported HTTP method")).

(** ** The task descriptor built by Run (lines 94-101)

    The composite literal names [url] only: [method] keeps its zero value. *)
Definition mk_task (E : environ) (b : bench) : task :=
  {| t_url := (host b ++ "?" ++ Values_Encode E (params b))%string;
     t_method := "";
     t_data := match data b with
               | Some d => Some (json_Marshal E d)
               | None => None
               end |}.

(** ** LaunchTask as a state machine (lines 113-143) *)

Inductive label : Type :=
| AtNewRequest   (* 114  req, err := http.NewRequest(t.method, t.url, nil) *)
| AtLoopTest     (* 119  i < numRequest *)
| AtAddTotal     (* 121  atomic.AddUint32(&b.stats.RequestsTotal, 1) *)
| AtDo           (* 122  resp, err := b.client.Do(req) *)
| AtAddFail      (* 125  atomic.AddUint32(&b.stats.RequestsFail, 1) *)
| AtAddTimeout   (* 128  atomic.AddUint32(&b.stats.RequestsTimeout, 1) *)
| AtAddSuccess   (* 131  atomic.AddUint32(&b.stats.RequestsSuccess, 1) *)
| AtSince        (* 133  delay := time.Since(start) *)
| AtMinZero      (* 135  b.stats.DelayMin == 0 *)
| AtMinLess      (* 135  delay < b.stats.DelayMin *)
| AtMinStore     (* 136  b.stats.DelayMin = delay *)
| AtMaxTest      (* 138  delay > b.stats.DelayMax *)
| AtMaxStore     (* 139  b.stats.DelayMax = delay *)
| AtExit.        (* 117, 143  return *)

Definition label_eqb (a b : label) : bool :=
  match a, b with
  | AtNewRequest, AtNewRequest | AtLoopTest, AtLoopTest
  | AtAddTotal, AtAddTotal | AtDo, AtDo | AtAddFail, AtAddFail
  | AtAddTimeout, AtAddTimeout | AtAddSuccess, AtAddSuccess
  | AtSince, AtSince | AtMinZero, AtMinZero | AtMinLess, AtMinLess
  | AtMinStore, AtMinStore | AtMaxTest, AtMaxTest
  | AtMaxStore, AtMaxStore | AtExit, AtExit => true
  | _, _ => false
  end.

(** The locals of one goroutine. *)
Record worker : Type := {
  pc : label;
  iter : Z;                 (* i *)
  req : option request;     (* req *)
  err : option error;       (* err of the last client.Do *)
  delay : Z                 (* delay *)
}.

Definition spawn : worker :=
  {| pc := AtNewRequest; iter := 0; req := None; err := None; delay := 0 |}.

Definition goto (l : label) (k : worker) : worker :=
  {| pc := l; iter := iter k; req := req k; err := err k; delay := delay k |}.

(** End of the loop body: [i++], back to the test. *)
Definition next_iter (k : worker) : worker :=
  {| pc := AtLoopTest; iter := iter k + 1; req := req k; err := err k;
     delay := delay k |}.

(** Shared memory and the requests put on the wire so far (newest last). *)
Record state : Type := {
  shared : stats;
  pool : list worker;
  wire : list request
}.

(** One step of worker [w], whose locals are [k], on shared statistics [s]
    and wire log [q]. The call of [client.Do] at line 122 is one step that
    returns what the transport gives; calls that do not return are the
    subject of [step_or_wait]. *)
Definition step_worker (E : environ) (numRequest : Z) (t : task) (w : nat)
    (s : stats) (q : list request) (k : worker)
    : stats * list request * worker :=
  match pc k with
  | AtNewRequest =>
      match http_NewRequest E (t_method t) (t_url t) None with
      | Some r =>
          (s, q, {| pc := AtLoopTest; iter := 0; req := Some r;
                    err := None; delay := delay k |})
      | None => (s, q, goto AtExit k)
      end
  | AtLoopTest =>
      if iter k <? numRequest then (s, q, goto AtAddTotal k)
      else (s, q, goto AtExit k)
  | AtAddTotal =>
      (set_RequestsTotal (AddUint32 (RequestsTotal s) 1) s, q, goto AtDo k)
  | AtDo =>
      match req k with
      | Some r =>
          match client_Do E w (iter k) r with
          | Fail e =>
              (s, q ++ [r],
               {| pc := AtAddFail; iter := iter k; req := req k;
                  err := Some e; delay := delay k |})
          | Resp code =>
              (s, q ++ [r],
               {| pc := if code =? StatusOK then AtAddSuccess else AtSince;
                  iter := iter k; req := req k; err := None;
                  delay := delay k |})
          end
      | None => (s, q, goto AtExit k)
      end
  | AtAddFail =>
      (set_RequestsFail (AddUint32 (RequestsFail s) 1) s, q,
       match err k with
       | Some e =>
           if error_eqb e ErrHandlerTimeout then goto AtAddTimeout k
           else goto AtSince k
       | None => goto AtSince k
       end)
  | AtAddTimeout =>
      (set_RequestsTimeout (AddUint32 (RequestsTimeout s) 1) s, q,
       goto AtSince k)
  | AtAddSuccess =>
      (set_RequestsSuccess (AddUint32 (RequestsSuccess s) 1) s, q,
       goto AtSince k)
  | AtSince =>
      (s, q, {| pc := AtMinZero; iter := iter k; req := req k;
                err := err k; delay := time_Since E w (iter k) |})
  | AtMinZero =>
      if DelayMin s =? 0 then (s, q, goto AtMinStore k)
      else (s, q, goto AtMinLess k)
  | AtMinLess =>
      if delay k <? DelayMin s then (s, q, goto AtMinStore k)
      else (s, q, goto AtMaxTest k)
  | AtMinStore => (set_DelayMin (delay k) s, q, goto AtMaxTest k)
  | AtMaxTest =>
      if DelayMax s <? delay k then (s, q, goto AtMaxStore k)
      else (s, q, next_iter k)
  | AtMaxStore => (set_DelayMax (delay k) s, q, next_iter k)
  | AtExit => (s, q, k)
  end.

(** The scheduler lets worker [w] move; an index outside the pool, or a
    worker that has returned, leaves the state as it is. *)
Definition step (E : environ) (numRequest : Z) (t : task) (w : nat)
    (σ : state) : state :=
  match pool σ !! w with
  | Some k =>
      let '(s, q, k') := step_worker E numRequest t w (shared σ) (wire σ) k in
      {| shared := s; pool := <[w := k']> (pool σ); wire := q |}
  | None => σ
  end.

Fixpoint exec (E : environ) (numRequest : Z) (t : task) (sched : list nat)
    (σ : state) : state :=
  match sched with
  | [] => σ
  | w :: sched' => exec E numRequest t sched' (step E numRequest t w σ)
  end.

Definition all_done (σ : state) : bool :=
  forallb (fun k => label_eqb (pc k) AtExit) (pool σ).

(** ** Run (lines 90-111) *)

Inductive run_result : Type :=
| Panic               (* runtime error: integer divide by zero *)
| Blocked (σ : state) (* wg.Wait() has not returned yet *)
| Returned (σ : state).

(** The state in which the [go] statements leave the pool: [concurrency]
    goroutines, none of which has run yet. *)
Definition launch (E : environ) (b : bench) : state :=
  {| shared := set_LaunchTime (time_Now E) (bstats b);
     pool := replicate (Z.to_nat (concurrency b)) spawn;
     wire := [] |}.

Definition Run (E : environ) (b : bench) (sched : list nat) : run_result :=
  if concurrency b =? 0 then Panic
  else
    let numRequests := requests b / concurrency b in
    let σ := exec E numRequests (mk_task E b) sched (launch E b) in
    if all_done σ then Returned σ else Blocked σ.

(** ** PrintResult (lines 145-175) *)

(** [float64(x)] for an integer below 2^63 in absolute value. *)
Definition float64_of_Z (z : Z) : float :=
  if z <? 0 then PrimFloat.opp (PrimFloat.of_uint63 (Uint63.of_Z (- z)))
  else PrimFloat.of_uint63 (Uint63.of_Z z).

Definition Second : Z := 1000000000.

(** [time.Duration.Seconds]:
    [sec := d / Second; nsec := d % Second;
     return float64(sec) + float64(nsec)/1e9]. *)
Definition Seconds (d : Z) : float :=
  PrimFloat.add (float64_of_Z (Z.quot d Second))
    (PrimFloat.div (float64_of_Z (Z.rem d Second)) (float64_of_Z Second)).

(** [rps := float64(b.stats.RequestsTotal) / b.stats.Runtime.Seconds()] *)
Definition requests_per_second (total runtime : Z) : float :=
  PrimFloat.div (float64_of_Z total) (Seconds runtime).

(** The ten values handed to [fmt.Sprintf], in the order of the format. *)
Record report : Type := {
  rep_Runtime : Z;
  rep_Concurrency : Z;
  rep_rps : float;
  rep_Total : Z;
  rep_Success : Z;
  rep_Fail : Z;
  rep_Timeout : Z;
  rep_DelayMin : Z;
  rep_DelayAvg : Z;
  rep_DelayMax : Z
}.

(** [now] is the clock reading of [time.Since(b.stats.LaunchTime)]; the
    difference is taken with the wrap-around of [int64], which is what
    [time.Since] returns while the two readings are less than 2^63 ns apart
    (beyond that the library saturates). The counters are read from one
    value of the statistics: the function is called here when no worker
    runs any more. *)
Definition PrintResult (now : Z) (b : bench) : bench * report :=
  let s1 := set_Runtime (int64_sub now (LaunchTime (bstats b))) (bstats b) in
  let rps := requests_per_second (RequestsTotal s1) (Runtime s1) in
  let s2 :=
    set_DelayAvg (int64_div (int64_sub (DelayMax s1) (DelayMin s1)) 2) s1 in
  (with_stats s2 b,
   {| rep_Runtime := Runtime s2; rep_Concurrency := concurrency b;
      rep_rps := rps; rep_Total := RequestsTotal s2;
      rep_Success := RequestsSuccess s2; rep_Fail := RequestsFail s2;
      rep_Timeout := RequestsTimeout s2; rep_DelayMin := DelayMin s2;
      rep_DelayAvg := DelayAvg s2; rep_DelayMax := DelayMax s2 |}).

(** ** main (main.go), without the interrupt watcher

    The main goroutine: lines 14-17 and 25-26. The deferred [cancel] and the
    goroutine of lines 19-23, which prints a report and exits with status 1
    once the context is done, are not modelled; [status] is where the main
    goroutine ends. *)

Inductive exit : Type :=
| Fatal (e : error)     (* log.Fatalln(err) *)
| Crashed               (* panic inside Run *)
| Waiting               (* Run has not returned under this schedule *)
| Finished (r : report).

Record process : Type := {
  status : exit;
  final : bench;
  sent : list request
}.

Definition main (E : environ) (f : flags) (sched : list nat) (now : Z)
    : process :=
  match ParseArgs E f NewBench with
  | (b, Some e) => {| status := Fatal e; final := b; sent := [] |}
  | (b, None) =>
      match Run E b sched with
      | Panic => {| status := Crashed; final := b; sent := [] |}
      | Blocked σ =>
          {| status := Waiting; final := with_stats (shared σ) b;
             sent := wire σ |}
      | Returned σ =>
          let '(b', r) := PrintResult now (with_stats (shared σ) b) in
          {| status := Finished r; final := b'; sent := wire σ |}
      end
  end.

(** ** The command line (bench.go, lines 57-63)

    [flag.Uint] and [flag.String] declare the six flags on the default flag
    set, which is created with [flag.ExitOnError]; [flag.Parse] then walks
    [os.Args[1:]]: [FlagSet.Parse] calls [parseOne] until it sees no further
    flag, and ends the process itself when [parseOne] reports an error.
    [strconv.ParseUint], which [uintValue.Set] calls with base 0 and the
    width of [uint], is a parameter. *)

(** What [parseOne] makes of one argument. *)
Inductive flag_syntax : Type :=
| NotAFlag                 (* len(s) < 2 || s[0] != '-' *)
| Terminator               (* "--" terminates the flags *)
| BadSyntax                (* bad flag syntax: %s *)
| Named (name : string) (value : option string).

(** The loop that looks for [=] from the second byte of the name on:
    [s] is [name[1:]]; the result is the rest of the name and the value. *)
Fixpoint cut_equal (s : string) : string * option string :=
  match s with
  | EmptyString => (EmptyString, None)
  | String c r =>
      if Ascii.eqb c "="%char then (EmptyString, Some r)
      else let '(n, v) := cut_equal r in (String c n, v)
  end.

Definition flag_syntax_of (s : string) : flag_syntax :=
  match s with
  | String c1 (String c2 r) =>
      if negb (Ascii.eqb c1 "-"%char) then NotAFlag
      else if Ascii.eqb c2 "-"%char && String.eqb r "" then Terminator
      else
        let name := if Ascii.eqb c2 "-"%char then r else String c2 r in
        match name with
        | EmptyString => BadSyntax
        | String c r' =>
            if Ascii.eqb c "-"%char || Ascii.eqb c "="%char then BadSyntax
            else let '(n, v) := cut_equal r' in Named (String c n) v
        end
  | _ => NotAFlag
  end.

(** The names in [f.formal]. *)
Definition declared (name : string) : bool :=
  String.eqb name "n" || String.eqb name "c" || String.eqb name "t"
  || String.eqb name "h" || String.eqb name "m" || String.eqb name "p".

(** [flag.Value.Set(value)] on the variable behind [-name]: the three
    [uint] flags go through [strconv.ParseUint], whose error is the error
    of [Set]; a string flag takes any value. *)
Definition Set_flag (ParseUint : string -> option Z) (name value : string)
    (f : flags) : option flags :=
  if String.eqb name "n" then
    match ParseUint value with
    | Some z =>
        Some {| flag_n := z; flag_c := flag_c f; flag_t := flag_t f;
                flag_h := flag_h f; flag_m := flag_m f; flag_p := flag_p f |}
    | None => None
    end
  else if String.eqb name "c" then
    match ParseUint value with
    | Some z =>
        Some {| flag_n := flag_n f; flag_c := z; flag_t := flag_t f;
                flag_h := flag_h f; flag_m := flag_m f; flag_p := flag_p f |}
    | None => None
    end
  else if String.eqb name "t" then
    match ParseUint value with
    | Some z =>
        Some {| flag_n := flag_n f; flag_c := flag_c f; flag_t := z;
                flag_h := flag_h f; flag_m := flag_m f; flag_p := flag_p f |}
    | None => None
    end
  else if String.eqb name "h" then
    Some {| flag_n := flag_n f; flag_c := flag_c f; flag_t := flag_t f;
            flag_h := value; flag_m := flag_m f; flag_p := flag_p f |}
  else if String.eqb name "m" then
    Some {| flag_n := flag_n f; flag_c := flag_c f; flag_t := flag_t f;
            flag_h := flag_h f; flag_m := value; flag_p := flag_p f |}
  else
    Some {| flag_n := flag_n f; flag_c := flag_c f; flag_t := flag_t f;
            flag_h := flag_h f; flag_m := flag_m f; flag_p := value |}.

Inductive flag_outcome : Type :=
| FlagsParsed (f : flags)  (* flag.Parse returns *)
| FlagHelp                 (* -help: the usage is printed, the process ends *)
| FlagError.               (* the error and the usage are printed, os.Exit(2) *)

(** [flag.Parse] from the values [f] the flags hold so far. An argument that
    is no flag, or [--], ends the walk; what follows is left to
    [flag.Args], which the program never reads. None of the six flags is
    boolean, so each needs a value: after [=], or else the next argument. *)
Fixpoint flag_Parse (ParseUint : string -> option Z) (f : flags)
    (args : list string) : flag_outcome :=
  match args with
  | [] => FlagsParsed f
  | s :: rest =>
      match flag_syntax_of s with
      | NotAFlag => FlagsParsed f
      | Terminator => FlagsParsed f
      | BadSyntax => FlagError
      | Named name value =>
          if negb (declared name) then
            if String.eqb name "help" || String.eqb name "h" then FlagHelp
            else FlagError           (* flag provided but not defined *)
          else
            match value with
            | Some v =>
                match Set_flag ParseUint name v f with
                | Some f' => flag_Parse ParseUint f' rest
                | None => FlagError  (* invalid value %q for flag -%s *)
                end
            | None =>
                match rest with
                | v :: rest' =>
                    match Set_flag ParseUint name v f with
                    | Some f' => flag_Parse ParseUint f' rest'
                    | None => FlagError
                    end
                | [] => FlagError    (* flag needs an argument *)
                end
            end
      end
  end.

(** ** main from the command line

    [main] calls [ParseArgs], whose first statements are the flag
    declarations and [flag.Parse]: the process either ends there or goes on
    as [main] does from the typed values. *)
Inductive started : Type :=
| EndedInFlagParse (help : bool)
| Started (p : process).

Definition main_argv (ParseUint : string -> option Z) (E : environ)
    (args : list string) (sched : list nat) (now : Z) : started :=
  match flag_Parse ParseUint default_flags args with
  | FlagsParsed f => Started (main E f sched now)
  | FlagHelp => EndedInFlagParse true
  | FlagError => EndedInFlagParse false
  end.

(** The process ended while the arguments were parsed: inside [flag.Parse],
    or through [log.Fatalln] on the error [ParseArgs] returned. *)
Definition ended_in_argument_parsing (r : started) : Prop :=
  match r with
  | EndedInFlagParse _ => True
  | Started p => exists e, status p = Fatal e
  end.

Definition requests_sent (r : started) : list request :=
  match r with
  | EndedInFlagParse _ => []
  | Started p => sent p
  end.

(** ** Test doubles for the collaborators *)

(** A mock environment: every non-empty host is a valid URI, every query
    string decodes to no values, request construction succeeds, and the
    transport and the clock are the given scripts. *)
Definition mock (transport : nat -> Z -> outcome) (latency : nat -> Z -> Z)
    : environ :=
  {| url_ParseRequestURI := fun s => if String.eqb s "" then None else Some s;
     url_ParseQuery := fun _ => ([], None);
     Values_Encode := fun _ => ""%string;
     json_Marshal := fun _ => "{}"%string;
     request_ok := fun _ _ => true;
     client_Do := fun w k _ => transport w k;
     time_Since := latency;
     time_Now := 0 |}.

(** A bench value as [ParseArgs] leaves it for [-n n -c c -h http://t]. *)
Definition bench_of (n c : Z) (m : string) : bench :=
  {| requests := n; concurrency := c; timeout := 100;
     host := "http://t"; method := m; params := []; data := None;
     bstats := zero_stats; bclient := {| Timeout := 100 * Millisecond |} |}.

(** The allow-list of HTTP methods. *)
Definition allow_list : list string :=
  ["GET"; "POST"; "PUT"; "PATCH"; "DELETE"]%string.

(** Every call answers 200 after 5 ns. *)
Definition always_ok : environ := mock (fun _ _ => Resp 200) (fun _ _ => 5).

(** Every call answers 500 after 7 ns, without a transport error. *)
Definition always_500 : environ := mock (fun _ _ => Resp 500) (fun _ _ => 7).

(** Every call runs into the client timeout: [client.Do] returns the
    [*url.Error] whose [Timeout()] is true. *)
Definition always_timeout : environ :=
  mock (fun _ _ => Fail (UrlError true "context deadline exceeded"))
       (fun _ _ => 100 * Millisecond).

(** Worker 0 measures 5 ns, every other worker 3 ns. *)
Definition two_latencies : environ :=
  mock (fun _ _ => Resp 200) (fun w _ => if Nat.eqb w 0 then 5 else 3).

(** Both workers reach line 135 and test [DelayMin == 0] before either
    stores; worker 1 stores its minimum and reads the maximum, worker 0
    then does both its stores, and worker 1 stores its maximum last. *)
Definition racy_schedule : list nat :=
  [0; 0; 0; 0; 0; 0; 1; 1; 1; 1; 1; 1;
   1; 0; 1; 1; 0; 0; 0; 1; 0; 1]%nat.

(** Both workers test [DelayMin == 0] before either stores; worker 0 stores
    last. *)
Definition lost_min_schedule : list nat :=
  [0; 0; 0; 0; 0; 0; 1; 1; 1; 1; 1; 1;
   1; 0; 1; 0; 1; 1; 0; 0; 0; 1]%nat.

(** The request line 114 builds from task [t], when it builds one: the
    body argument is the literal [nil]. *)
Definition built_request (t : task) : request :=
  {| req_method :=
       if String.eqb (t_method t) "" then "GET"%string else t_method t;
     req_url := t_url t;
     req_body := None |}.

(** The command line [-c 0 -h http://t]. *)
Definition zero_concurrency_flags : flags :=
  {| flag_n := 1000; flag_c := 0; flag_t := 100;
     flag_h := "http://t"; flag_m := "GET"; flag_p := "" |}.

(** Statistics with a minimum of 4 ns and a maximum of 10 ns. *)
Definition stats_4_10 : stats := set_DelayMax 10 (set_DelayMin 4 zero_stats).

(** A bench configured for [POST] with a JSON body. *)
Definition post_with_body : bench :=
  {| requests := 2; concurrency := 1; timeout := 100;
     host := "http://t"; method := "POST"; params := [];
     data := Some [("k", "v")]%string;
     bstats := zero_stats; bclient := {| Timeout := 100 * Millisecond |} |}.

(** Worker [w] alone takes [m] steps. *)
Fixpoint alone (E : environ) (numRequest : Z) (t : task) (w : nat)
    (m : nat) (x : stats * list request * worker)
    : stats * list request * worker :=
  match m with
  | O => x
  | S m' =>
      alone E numRequest t w m' (step_worker E numRequest t w x.1.1 x.1.2 x.2)
  end.

(** A double for [strconv.ParseUint(s, 0, 64)] on plain decimal numerals:
    a string of decimal digits without a leading zero is its value when
    that is below 2^64 and an error otherwise; a string with any other byte
    in it is an error. (The library also reads the prefixes 0x, 0o, 0b and
    0, and underscores; the double answers with an error there.) *)
Definition digit_of (c : ascii) : option Z :=
  let n := Z.of_nat (nat_of_ascii c) in
  if (48 <=? n) && (n <=? 57) then Some (n - 48) else None.

Fixpoint decimal_value (acc : Z) (s : string) : option Z :=
  match s with
  | EmptyString => Some acc
  | String c r =>
      match digit_of c with
      | Some d => decimal_value (10 * acc + d) r
      | None => None
      end
  end.

Definition decimal_uint (s : string) : option Z :=
  match s with
  | EmptyString => None
  | String c r =>
      if Ascii.eqb c "0"%char && negb (String.eqb r "") then None
      else
        match decimal_value 0 s with
        | Some z => if z <? 2 ^ 64 then Some z else None
        | None => None
        end
  end.

(** The spec's words for the host, "an absolute URL": a URL that starts
    with a scheme, a letter followed by letters, digits, [+], [-] or [.],
    and a colon (RFC 3986, 3.1 and 4.3). *)
Definition is_alpha (c : ascii) : bool :=
  let n := Z.of_nat (nat_of_ascii c) in
  ((65 <=? n) && (n <=? 90)) || ((97 <=? n) && (n <=? 122)).

Definition is_digit (c : ascii) : bool :=
  let n := Z.of_nat (nat_of_ascii c) in (48 <=? n) && (n <=? 57).

Fixpoint scheme_then_colon (s : string) : bool :=
  match s with
  | EmptyString => false
  | String c r =>
      if Ascii.eqb c ":"%char then true
      else if is_alpha c || is_digit c || Ascii.eqb c "+"%char
              || Ascii.eqb c "-"%char || Ascii.eqb c "."%char
           then scheme_then_colon r
           else false
  end.

Definition spec_absolute_URL (s : string) : bool :=
  match s with
  | EmptyString => false
  | String c r => is_alpha c && scheme_then_colon r
  end.

(** A double for net/url on hosts without a scheme. [url.ParseRequestURI]
    takes "an absolute URI or an absolute path": the double accepts a
    slash followed by letters, digits and slashes, which the library
    parses as a path and prints back unchanged, and rejects the empty
    string, as the library does ("empty url"); it answers for no other
    host and returns an error there. The transport fails every call, as
    net/http does for a URL without a scheme. *)
Fixpoint plain_segments (s : string) : bool :=
  match s with
  | EmptyString => true
  | String c r =>
      (is_alpha c || is_digit c || Ascii.eqb c "/"%char) && plain_segments r
  end.

Definition plain_absolute_path (s : string) : bool :=
  match s with
  | EmptyString => false
  | String c r => Ascii.eqb c "/"%char && plain_segments r
  end.

Definition absolute_paths : environ :=
  {| url_ParseRequestURI :=
       fun s => if plain_absolute_path s then Some s else None;
     url_ParseQuery := fun _ => ([], None);
     Values_Encode := fun _ => ""%string;
     json_Marshal := fun _ => "{}"%string;
     request_ok := fun _ _ => true;
     client_Do :=
       fun _ _ _ => Fail (UrlError false "unsupported protocol scheme");
     time_Since := fun _ _ => 5;
     time_Now := 0 |}.

(** The typed values of the command line [-h /foo]. *)
Definition path_host_flags : flags :=
  {| flag_n := 1000; flag_c := 1; flag_t := 100;
     flag_h := "/foo"; flag_m := "GET"; flag_p := "" |}.

(** ** Bookkeeping used in the proofs *)

(** Between the increment of [RequestsTotal] and the end of the loop body. *)
Definition in_flight (l : label) : bool :=
  match l with
  | AtNewRequest | AtLoopTest | AtAddTotal | AtExit => false
  | _ => true
  end.

(** How many times worker [k] has executed line 121. *)
Definition attempted (k : worker) : Z :=
  iter k + (if in_flight (pc k) then 1 else 0).

Definition sum_over (f : worker -> Z) (l : list worker) : Z :=
  foldr (fun k acc => f k + acc) 0 l.

(** The locals of a worker that runs [numRequest] iterations; [built] tells
    whether [http.NewRequest] succeeds for the task. *)
Definition worker_ok (built : bool) (numRequest : Z) (k : worker) : Prop :=
  match pc k with
  | AtNewRequest => iter k = 0
  | AtLoopTest =>
      built = true /\ 0 <= iter k <= numRequest /\ is_Some (req k)
  | AtExit => iter k = if built then numRequest else 0
  | _ => built = true /\ 0 <= iter k < numRequest /\ is_Some (req k)
  end.

(** An upper bound on the steps worker [k] still takes. *)
Definition fuel (numRequest : Z) (k : worker) : nat :=
  match pc k with
  | AtExit => 0
  | AtNewRequest => 12 * Z.to_nat numRequest + 2
  | AtLoopTest => 12 * Z.to_nat (numRequest - iter k) + 1
  | AtAddTotal => 12 * Z.to_nat (numRequest - iter k - 1) + 12
  | AtDo => 12 * Z.to_nat (numRequest - iter k - 1) + 11
  | AtAddFail => 12 * Z.to_nat (numRequest - iter k - 1) + 10
  | AtAddTimeout => 12 * Z.to_nat (numRequest - iter k - 1) + 9
  | AtAddSuccess => 12 * Z.to_nat (numRequest - iter k - 1) + 9
  | AtSince => 12 * Z.to_nat (numRequest - iter k - 1) + 8
  | AtMinZero => 12 * Z.to_nat (numRequest - iter k - 1) + 7
  | AtMinLess => 12 * Z.to_nat (numRequest - iter k - 1) + 6
  | AtMinStore => 12 * Z.to_nat (numRequest - iter k - 1) + 5
  | AtMaxTest => 12 * Z.to_nat (numRequest - iter k - 1) + 4
  | AtMaxStore => 12 * Z.to_nat (numRequest - iter k - 1) + 3
  end%nat.

(** The schedule that lets the workers [0 .. c-1] run one after the other,
    each for [m] steps. *)
Fixpoint one_by_one (m : nat) (c : nat) : list nat :=
  match c with
  | O => []
  | S c' => one_by_one m c' ++ repeat c' m
  end.

(** The update of both extrema performed without interruption (lines
    135-140 run by one worker while no other worker moves). *)
Definition update_extrema (d : Z) (s : stats) : stats :=
  let s1 :=
    if (DelayMin s =? 0) || (d <? DelayMin s) then set_DelayMin d s else s in
  if DelayMax s1 <? d then set_DelayMax d s1 else s1.

(** Invariant: the counter is the number of executions of line 121 so far,
    modulo 2^32, starting from [T0]. *)
Definition total_accounted (E : environ) (numRequest : Z) (t : task)
    (T0 : Z) (σ : state) : Prop :=
  RequestsTotal (shared σ) = wrap32 (T0 + sum_over attempted (pool σ))
  /\ Forall (worker_ok (request_ok E (t_method t) (t_url t)) numRequest)
       (pool σ).

(** Invariant: every request on the wire, and every request a worker
    holds, is the one line 114 builds. *)
Definition wire_uniform (t : task) (σ : state) : Prop :=
  Forall (fun r => r = built_request t) (wire σ)
  /\ Forall (fun k => req k = None \/ req k = Some (built_request t))
       (pool σ).

(** Invariant: no worker is at line 128 or holds an error other than a
    [*url.Error], and the timeout counter still has its initial value. *)
Definition timeout_untouched (T0 : Z) (σ : state) : Prop :=
  RequestsTimeout (shared σ) = T0
  /\ Forall (fun k => pc k <> AtAddTimeout
                      /\ forall e, err k = Some e ->
                                   exists tmo msg, e = UrlError tmo msg)
       (pool σ).

(** The program points other than the three classification increments. *)
Definition outside_classification (l : label) : bool :=
  match l with
  | AtAddFail | AtAddTimeout | AtAddSuccess => false
  | _ => true
  end.

(** Invariant: no worker is at a classification increment, and the success
    and failure counters still have their initial values. *)
Definition unclassified (S0 F0 : Z) (σ : state) : Prop :=
  RequestsSuccess (shared σ) = S0
  /\ RequestsFail (shared σ) = F0
  /\ Forall (fun k => outside_classification (pc k) = true) (pool σ).

(** What a single worker knows about the extrema at each program point:
    they are ordered, except between its own two stores. *)
Definition extrema_ok (s : stats) (k : worker) : Prop :=
  match pc k with
  | AtMaxTest => DelayMin s <= DelayMax s \/ DelayMin s = delay k
  | AtMaxStore =>
      DelayMax s < delay k
      /\ (DelayMin s <= DelayMax s \/ DelayMin s = delay k)
  | _ => DelayMin s <= DelayMax s
  end.

(** ** Bookkeeping for the further properties *)

(** Request construction always fails. *)
Definition unbuildable : environ :=
  {| url_ParseRequestURI := fun s => if String.eqb s "" then None else Some s;
     url_ParseQuery := fun _ => ([], None);
     Values_Encode := fun _ => ""%string;
     json_Marshal := fun _ => "{}"%string;
     request_ok := fun _ _ => false;
     client_Do := fun _ _ _ => Resp 200;
     time_Since := fun _ _ => 5;
     time_Now := 0 |}.

(** The program points a worker visits when it performs no iteration. *)
Definition idle_ok (built : bool) (k : worker) : Prop :=
  match pc k with
  | AtNewRequest | AtExit => True
  | AtLoopTest => built = true /\ iter k = 0
  | _ => False
  end.

(** Invariant: nothing has happened yet but loop tests. *)
Definition nothing_done (E : environ) (t : task) (s0 : stats) (σ : state)
    : Prop :=
  shared σ = s0 /\ wire σ = []
  /\ Forall (idle_ok (request_ok E (t_method t) (t_url t))) (pool σ).

(** The four fields of the statistics that no worker writes. *)
Definition report_fields (s : stats) : Z * Z * Z * Z :=
  (LaunchTime s, Runtime s, RequestsPerSecond s, DelayAvg s).

(** After line 122 of the current iteration. *)
Definition past_do (l : label) : bool :=
  match l with
  | AtNewRequest | AtLoopTest | AtAddTotal | AtDo | AtExit => false
  | _ => true
  end.

(** How many requests worker [k] has handed to [client.Do]. *)
Definition sent_by (k : worker) : Z :=
  iter k + (if past_do (pc k) then 1 else 0).

(** Invariant: the wire holds one request per executed line 122. *)
Definition wire_counted (E : environ) (numRequest : Z) (t : task)
    (σ : state) : Prop :=
  Z.of_nat (length (wire σ)) = sum_over sent_by (pool σ)
  /\ Forall (worker_ok (request_ok E (t_method t) (t_url t)) numRequest)
       (pool σ).

(** How many of the iterations [0 .. n-1] satisfy [p]. *)
Fixpoint count_below (p : Z -> bool) (n : nat) : Z :=
  match n with
  | O => 0
  | S n' => count_below p n' + (if p (Z.of_nat n') then 1 else 0)
  end.

(** [g base + g (base + 1) + ... + g (base + m - 1)] *)
Fixpoint sum_from (g : nat -> Z) (base m : nat) : Z :=
  match m with
  | O => 0
  | S m' => g base + sum_from g (S base) m'
  end.

(** A sum over the pool in which each worker is weighed with its index. *)
Fixpoint isum (f : nat -> worker -> Z) (base : nat) (l : list worker) : Z :=
  match l with
  | [] => 0
  | k :: l' => f base k + isum f (S base) l'
  end.

(** The three ways line 124-132 looks at an outcome. *)
Definition is_fail (o : outcome) : bool :=
  match o with Fail _ => true | Resp _ => false end.

Definition is_ok (o : outcome) : bool :=
  match o with Resp code => code =? StatusOK | Fail _ => false end.

Definition is_sentinel (o : outcome) : bool :=
  match o with Fail e => error_eqb e ErrHandlerTimeout | Resp _ => false end.

(** What the transport answers to iteration [j] of worker [w]. *)
Definition outcome_of (E : environ) (t : task) (w : nat) (j : Z) : outcome :=
  client_Do E w j (built_request t).

(** After line 125 of the current iteration, if it applies. *)
Definition past_fail (l : label) : bool :=
  match l with
  | AtNewRequest | AtLoopTest | AtAddTotal | AtDo | AtAddFail
  | AtAddSuccess | AtExit => false
  | _ => true
  end.

(** After the whole classification of the current iteration. *)
Definition past_class (l : label) : bool :=
  match l with
  | AtNewRequest | AtLoopTest | AtAddTotal | AtDo | AtAddFail
  | AtAddTimeout | AtAddSuccess | AtExit => false
  | _ => true
  end.

(** How many increments worker [w] in state [k] has made for the outcomes
    satisfying [p], the increment of the current iteration being behind it
    from the program points [past] on. *)
Definition counted (p : outcome -> bool) (past : label -> bool)
    (E : environ) (t : task) (w : nat) (k : worker) : Z :=
  count_below (fun j => p (outcome_of E t w j)) (Z.to_nat (iter k))
  + (if past (pc k) && p (outcome_of E t w (iter k)) then 1 else 0).

(** What the locals of worker [w] say about the transport. *)
Definition worker_sound (E : environ) (t : task) (w : nat) (k : worker)
    : Prop :=
  match pc k with
  | AtNewRequest | AtExit => True
  | AtAddFail =>
      req k = Some (built_request t)
      /\ exists e, err k = Some e /\ outcome_of E t w (iter k) = Fail e
  | AtAddTimeout =>
      req k = Some (built_request t)
      /\ is_sentinel (outcome_of E t w (iter k)) = true
  | AtAddSuccess =>
      req k = Some (built_request t)
      /\ is_ok (outcome_of E t w (iter k)) = true
  | _ => req k = Some (built_request t)
  end.

(** A step leaves a counter and its bookkeeping alone, or moves both by
    one. *)
Definition bump (get : stats -> Z) (cnt : worker -> Z) (s s' : stats)
    (k k' : worker) : Prop :=
  (get s' = get s /\ cnt k' = cnt k)
  \/ (get s' = AddUint32 (get s) 1 /\ cnt k' = cnt k + 1).

(** Invariant: each classification counter is the number of increments the
    workers have made for it, modulo 2^32. *)
Definition counters_accounted (E : environ) (numRequest : Z) (t : task)
    (S0 F0 T0 : Z) (σ : state) : Prop :=
  RequestsSuccess (shared σ)
  = wrap32 (S0 + isum (counted is_ok past_class E t) 0 (pool σ))
  /\ RequestsFail (shared σ)
     = wrap32 (F0 + isum (counted is_fail past_fail E t) 0 (pool σ))
  /\ RequestsTimeout (shared σ)
     = wrap32 (T0 + isum (counted is_sentinel past_class E t) 0 (pool σ))
  /\ forall w k, pool σ !! w = Some k ->
       worker_ok (request_ok E (t_method t) (t_url t)) numRequest k
       /\ worker_sound E t w k.

(** Among the first [n] requests of each of the workers [0 .. c-1], how
    many have an outcome satisfying [p]. *)
Definition answered (p : outcome -> bool) (E : environ) (t : task)
    (c n : nat) : Z :=
  sum_from (fun w => count_below (fun j => p (outcome_of E t w j)) n) 0 c.

(** A transport that answers 200, times out, answers 500, and so on, in
    the order of the iterations of each worker. *)
Definition mixed : environ :=
  mock (fun _ j =>
          if j mod 3 =? 0 then Resp 200
          else if j mod 3 =? 1 then Fail (UrlError true "timeout")
          else Resp 500)
       (fun w j => 5 + Z.of_nat w + j).

(** Every error is the sentinel [http.ErrHandlerTimeout] itself. *)
Definition sentinel_errors : environ :=
  mock (fun _ j => if Z.even j then Fail ErrHandlerTimeout else Resp 200)
       (fun _ _ => 5).

(** The schedule that lets the workers [0 .. c-1] take one step each, in
    turn, [rounds] times. *)
Fixpoint round_robin (rounds c : nat) : list nat :=
  match rounds with
  | O => []
  | S r => seq 0 c ++ round_robin r c
  end.

(** The latencies worker [w] measures in its first [n] iterations. *)
Definition latencies (E : environ) (w : nat) (n : nat) : list Z :=
  map (fun j => time_Since E w (Z.of_nat j)) (seq 0 n).

(** The statistics after [n] uninterrupted updates by worker [w]. *)
Definition extrema_after (E : environ) (w : nat) (s0 : stats) (n : nat)
    : stats :=
  fold_left (fun s d => update_extrema d s) (latencies E w n) s0.

(** [DelayMin] after lines 135-137 for a latency [d]. *)
Definition min_updated (d : Z) (s : stats) : Z :=
  if (DelayMin s =? 0) || (d <? DelayMin s) then d else DelayMin s.

(** What the only worker of a pool knows about the extrema at each program
    point, in terms of the latencies it has measured. *)
Definition extrema_trace (E : environ) (s0 s : stats) (k : worker) : Prop :=
  0 <= iter k
  /\ match pc k with
     | AtNewRequest =>
         iter k = 0 /\ DelayMin s = DelayMin s0 /\ DelayMax s = DelayMax s0
     | AtMinZero =>
         delay k = time_Since E 0 (iter k)
         /\ DelayMin s
            = DelayMin (extrema_after E 0 s0 (Z.to_nat (iter k)))
         /\ DelayMax s
            = DelayMax (extrema_after E 0 s0 (Z.to_nat (iter k)))
     | AtMinLess =>
         delay k = time_Since E 0 (iter k)
         /\ DelayMin s
            = DelayMin (extrema_after E 0 s0 (Z.to_nat (iter k)))
         /\ DelayMax s
            = DelayMax (extrema_after E 0 s0 (Z.to_nat (iter k)))
         /\ (DelayMin s =? 0) = false
     | AtMinStore =>
         delay k = time_Since E 0 (iter k)
         /\ DelayMin s
            = DelayMin (extrema_after E 0 s0 (Z.to_nat (iter k)))
         /\ DelayMax s
            = DelayMax (extrema_after E 0 s0 (Z.to_nat (iter k)))
         /\ (DelayMin s =? 0) || (delay k <? DelayMin s) = true
     | AtMaxTest =>
         delay k = time_Since E 0 (iter k)
         /\ DelayMin s
            = min_updated (delay k)
                (extrema_after E 0 s0 (Z.to_nat (iter k)))
         /\ DelayMax s
            = DelayMax (extrema_after E 0 s0 (Z.to_nat (iter k)))
     | AtMaxStore =>
         delay k = time_Since E 0 (iter k)
         /\ DelayMin s
            = min_updated (delay k)
                (extrema_after E 0 s0 (Z.to_nat (iter k)))
         /\ DelayMax s
            = DelayMax (extrema_after E 0 s0 (Z.to_nat (iter k)))
         /\ (DelayMax s <? delay k) = true
     | _ =>
         DelayMin s = DelayMin (extrema_after E 0 s0 (Z.to_nat (iter k)))
         /\ DelayMax s
            = DelayMax (extrema_after E 0 s0 (Z.to_nat (iter k)))
     end.

(** The single worker measures 4 ns, then 0 ns, then 9 ns. *)
Definition zero_latency : environ :=
  mock (fun _ _ => Resp 200)
       (fun _ j => if j =? 0 then 4 else if j =? 1 then 0 else 9).

(** Lines 135-140: the program points at which [delay] is being compared
    and stored. *)
Definition in_update (l : label) : bool :=
  match l with
  | AtMinZero | AtMinLess | AtMinStore | AtMaxTest | AtMaxStore => true
  | _ => false
  end.

(** Worker [k] has seen or made [DelayMin] non-zero. *)
Definition min_stored (k : worker) : bool :=
  (0 <? iter k)
  || match pc k with
     | AtMinLess | AtMaxTest | AtMaxStore => true
     | _ => false
     end.

(** [v] is a latency measured by one of [c] workers in one of its first
    [n] iterations. *)
Definition measured (E : environ) (c : nat) (n : Z) (v : Z) : Prop :=
  exists w j, (w < c)%nat /\ 0 <= j < n /\ v = time_Since E w j.

(** Invariant: each extremum is still 0, and then no worker has got past
    its first store, or it is a measured latency. *)
Definition extrema_measured (E : environ) (numRequest : Z) (t : task)
    (σ : state) : Prop :=
  (forall w k, pool σ !! w = Some k ->
     worker_ok (request_ok E (t_method t) (t_url t)) numRequest k
     /\ (in_update (pc k) = true -> delay k = time_Since E w (iter k)))
  /\ (DelayMin (shared σ) = 0
      \/ measured E (length (pool σ)) numRequest (DelayMin (shared σ)))
  /\ (DelayMin (shared σ) = 0 ->
      Forall (fun k => min_stored k = false) (pool σ))
  /\ (DelayMax (shared σ) = 0
      \/ measured E (length (pool σ)) numRequest (DelayMax (shared σ)))
  /\ (DelayMax (shared σ) = 0 ->
      Forall (fun k => (0 <? iter k) = false) (pool σ)).

(** ** Calls of client.Do that do not return (line 122)

    [client.Do] returns when the transport answers or fails and, failing
    that, when the deadline taken from [Client.Timeout] expires; a
    [Timeout] that is not positive sets no deadline (net/http: zero means
    no timeout), and a call that is never answered then never returns: its
    goroutine stays at line 122. [replies w j] tells whether the transport
    ever answers or fails call [j] of worker [w]. *)
Definition Do_returns (c : client) (replies : nat -> Z -> bool) (w : nat)
    (j : Z) : bool :=
  (0 <? Timeout c) || replies w j.

(** The scheduler lets worker [w] move, unless it is inside a call of
    [client.Do] that does not return. *)
Definition step_or_wait (c : client) (replies : nat -> Z -> bool)
    (E : environ) (numRequest : Z) (t : task) (w : nat) (σ : state)
    : state :=
  match pool σ !! w with
  | Some k =>
      if label_eqb (pc k) AtDo && negb (Do_returns c replies w (iter k))
      then σ
      else step E numRequest t w σ
  | None => σ
  end.

Fixpoint exec_or_wait (c : client) (replies : nat -> Z -> bool)
    (E : environ) (numRequest : Z) (t : task) (sched : list nat)
    (σ : state) : state :=
  match sched with
  | [] => σ
  | w :: sched' =>
      exec_or_wait c replies E numRequest t sched'
        (step_or_wait c replies E numRequest t w σ)
  end.

(** [Run] with the workers calling through [b.client]. *)
Definition Run_or_wait (replies : nat -> Z -> bool) (E : environ)
    (b : bench) (sched : list nat) : run_result :=
  if concurrency b =? 0 then Panic
  else
    let numRequests := requests b / concurrency b in
    let σ := exec_or_wait (bclient b) replies E numRequests (mk_task E b)
               sched (launch E b) in
    if all_done σ then Returned σ else Blocked σ.

(** A worker that has not got past its first call of [client.Do]. *)
Definition before_first_reply (k : worker) : Prop :=
  iter k = 0
  /\ (pc k = AtNewRequest \/ pc k = AtLoopTest \/ pc k = AtAddTotal
      \/ pc k = AtDo).

(** The typed values of the command line [-n 2 -c 2 -t 0 -h http://t]. *)
Definition no_deadline_flags : flags :=
  {| flag_n := 2; flag_c := 2; flag_t := 0;
     flag_h := "http://t"; flag_m := "GET"; flag_p := "" |}.

(** A server that never answers. *)
Definition silent : nat -> Z -> bool := fun _ _ => false.

(* ===================================================================== *)
(** * Properties *)
(* ===================================================================== *)

(** ** The machine: schedules, pool size, invariants *)

Section Machine.

Variable E : environ.
Variable numRequest : Z.
Variable t : task.

Lemma exec_app (s1 s2 : list nat) (σ : state) :
  exec E numRequest t (s1 ++ s2) σ
  = exec E numRequest t s2 (exec E numRequest t s1 σ).
Proof.
  revert σ. induction s1 as [|w s1 IH]; intros σ; simpl; [reflexivity|].
  apply IH.
Qed.

(** A property of states kept by every step is kept by every schedule. *)
Lemma exec_invariant (P : state -> Prop) :
  (forall w σ, P σ -> P (step E numRequest t w σ)) ->
  forall sched σ, P σ -> P (exec E numRequest t sched σ).
Proof.
  intros Hstep sched. induction sched as [|w sched IH]; intros σ Hσ; simpl.
  - exact Hσ.
  - apply IH, Hstep, Hσ.
Qed.

Lemma step_unfold (w : nat) (σ : state) (k : worker) :
  pool σ !! w = Some k ->
  step E numRequest t w σ
  = {| shared := (step_worker E numRequest t w (shared σ) (wire σ) k).1.1;
       pool := <[w := (step_worker E numRequest t w (shared σ) (wire σ) k).2]>
                 (pool σ);
       wire := (step_worker E numRequest t w (shared σ) (wire σ) k).1.2 |}.
Proof.
  intros Hk. unfold step. rewrite Hk.
  destruct (step_worker E numRequest t w (shared σ) (wire σ) k) as [[s q] k'].
  reflexivity.
Qed.

Lemma step_idle (w : nat) (σ : state) :
  pool σ !! w = None -> step E numRequest t w σ = σ.
Proof. intros Hk. unfold step. rewrite Hk. reflexivity. Qed.

Lemma step_length (w : nat) (σ : state) :
  length (pool (step E numRequest t w σ)) = length (pool σ).
Proof.
  destruct (pool σ !! w) as [k|] eqn:Hk.
  - rewrite (step_unfold w σ k Hk). simpl. apply length_insert.
  - rewrite step_idle by assumption. reflexivity.
Qed.

Lemma exec_length (sched : list nat) (σ : state) :
  length (pool (exec E numRequest t sched σ)) = length (pool σ).
Proof.
  revert σ. induction sched as [|w sched IH]; intros σ; simpl.
  - reflexivity.
  - rewrite IH. apply step_length.
Qed.

(** A property of single workers kept by [step_worker] holds for the whole
    pool after a step. *)
Lemma step_pool_Forall (Q : worker -> Prop) (w : nat) (σ : state) :
  (forall k, pool σ !! w = Some k -> Q k ->
     Q (step_worker E numRequest t w (shared σ) (wire σ) k).2) ->
  Forall Q (pool σ) -> Forall Q (pool (step E numRequest t w σ)).
Proof.
  intros Hk Hall.
  destruct (pool σ !! w) as [k|] eqn:Hw.
  - rewrite (step_unfold w σ k Hw). simpl.
    apply Forall_insert; [exact Hall|].
    apply Hk; [reflexivity|].
    eapply Forall_lookup_1; eassumption.
  - rewrite step_idle by assumption. exact Hall.
Qed.

End Machine.

(** ** Sums over the pool *)

Lemma sum_over_insert (f : worker -> Z) (l : list worker) (w : nat)
    (k k' : worker) :
  l !! w = Some k ->
  sum_over f (<[w := k']> l) = sum_over f l - f k + f k'.
Proof.
  revert w. induction l as [|x l IH]; intros w Hw.
  - discriminate.
  - destruct w as [|w]; simpl in *.
    + inversion Hw; subst. lia.
    + rewrite (IH w Hw). lia.
Qed.

Lemma sum_over_replicate (f : worker -> Z) (c : nat) (k : worker) :
  sum_over f (replicate c k) = Z.of_nat c * f k.
Proof.
  induction c as [|c IH].
  - reflexivity.
  - change (sum_over f (replicate (S c) k))
      with (f k + sum_over f (replicate c k)).
    rewrite IH. lia.
Qed.

Lemma sum_over_const (f : worker -> Z) (v : Z) (l : list worker) :
  Forall (fun k => f k = v) l -> sum_over f l = Z.of_nat (length l) * v.
Proof.
  induction 1 as [|k l Hk _ IH].
  - reflexivity.
  - change (sum_over f (k :: l)) with (f k + sum_over f l).
    rewrite IH, Hk. simpl length. lia.
Qed.

(** ** Accounting of the total counter *)

Section Accounting.

Variable E : environ.
Variable numRequest : Z.
Variable t : task.
Hypothesis numRequest_nonneg : 0 <= numRequest.

Let built : bool := request_ok E (t_method t) (t_url t).

Ltac worker_cases k :=
  destruct k as [p i r e d]; destruct p;
  unfold step_worker, http_NewRequest, goto, next_iter in *; simpl in *.

Lemma step_worker_ok (w : nat) (s : stats) (q : list request) (k : worker) :
  worker_ok built numRequest k ->
  worker_ok built numRequest (step_worker E numRequest t w s q k).2.
Proof using numRequest_nonneg.
  unfold worker_ok, built.
  worker_cases k; intros H;
    repeat (case_match; simpl in *; subst);
    repeat match goal with
           | H : _ /\ _ |- _ => destruct H
           | H : is_Some None |- _ => destruct H; discriminate
           | H : (_ <? _) = true |- _ => apply Z.ltb_lt in H
           | H : (_ <? _) = false |- _ => apply Z.ltb_ge in H
           end;
    try discriminate; try congruence;
    repeat split; eauto; try lia.
Qed.

Lemma step_worker_total (w : nat) (s : stats) (q : list request)
    (k : worker) :
  worker_ok built numRequest k ->
  let r := step_worker E numRequest t w s q k in
  (RequestsTotal r.1.1 = RequestsTotal s /\ attempted r.2 = attempted k)
  \/ (RequestsTotal r.1.1 = AddUint32 (RequestsTotal s) 1
      /\ attempted r.2 = attempted k + 1).
Proof.
  unfold attempted, worker_ok.
  worker_cases k; intros H;
    repeat (case_match; simpl in *; subst);
    repeat match goal with
           | H : _ /\ _ |- _ => destruct H
           | H : is_Some None |- _ => destruct H; discriminate
           end;
    first [ left; split; [reflexivity | lia]
          | right; split; [reflexivity | lia] ].
Qed.

Lemma total_accounted_step (T0 : Z) (w : nat) (σ : state) :
  total_accounted E numRequest t T0 σ ->
  total_accounted E numRequest t T0 (step E numRequest t w σ).
Proof using numRequest_nonneg.
  intros [Htot Hok]. split.
  - destruct (pool σ !! w) as [k|] eqn:Hw.
    + rewrite (step_unfold _ _ _ w σ k Hw). simpl.
      rewrite (sum_over_insert attempted _ w k _ Hw).
      assert (Hk : worker_ok built numRequest k)
        by (eapply Forall_lookup_1; eassumption).
      destruct (step_worker_total w (shared σ) (wire σ) k Hk)
        as [[H1 H2]|[H1 H2]]; rewrite H1, H2.
      * rewrite Htot. f_equal. lia.
      * rewrite Htot. unfold AddUint32, wrap32.
        rewrite Zplus_mod_idemp_l. f_equal. lia.
    + rewrite step_idle by assumption. exact Htot.
  - apply step_pool_Forall; [|exact Hok].
    intros k _ Hk. apply step_worker_ok, Hk.
Qed.

Lemma total_accounted_exec (T0 : Z) (sched : list nat) (σ : state) :
  total_accounted E numRequest t T0 σ ->
  total_accounted E numRequest t T0 (exec E numRequest t sched σ).
Proof using numRequest_nonneg.
  apply exec_invariant. intros w σ'. apply total_accounted_step.
Qed.

Lemma all_done_Forall (σ : state) :
  all_done σ = true <-> Forall (fun k => pc k = AtExit) (pool σ).
Proof.
  unfold all_done. rewrite forallb_forall, Forall_forall.
  split; intros H k Hk.
  - apply list_elem_of_In in Hk. specialize (H k Hk).
    destruct (pc k); simpl in H; congruence.
  - apply list_elem_of_In in Hk. rewrite (H k Hk). reflexivity.
Qed.

(** When every worker has returned, the counter holds the planned number of
    attempts modulo 2^32. *)
Lemma total_at_completion (T0 : Z) (σ : state) :
  total_accounted E numRequest t T0 σ -> all_done σ = true ->
  RequestsTotal (shared σ)
  = wrap32 (T0 + Z.of_nat (length (pool σ))
                 * (if built then numRequest else 0)).
Proof.
  intros [Htot Hok] Hdone. rewrite Htot. f_equal. f_equal.
  apply sum_over_const.
  apply all_done_Forall in Hdone.
  rewrite Forall_forall in *. intros k Hk.
  specialize (Hok k Hk). specialize (Hdone k Hk).
  unfold worker_ok in Hok. unfold attempted, built.
  rewrite Hdone in *. simpl. lia.
Qed.

End Accounting.

(** ** Every pool can be scheduled to completion *)

Section Completion.

Variable E : environ.
Variable numRequest : Z.
Variable t : task.

Lemma fuel_exit (k : worker) : fuel numRequest k = 0%nat <-> pc k = AtExit.
Proof.
  unfold fuel. destruct (pc k); split; intros H; try discriminate;
    try reflexivity; lia.
Qed.

Lemma step_worker_exit (w : nat) (s : stats) (q : list request)
    (k : worker) :
  pc k = AtExit -> step_worker E numRequest t w s q k = (s, q, k).
Proof. intros H. unfold step_worker. rewrite H. reflexivity. Qed.

Lemma step_worker_fuel (w : nat) (s : stats) (q : list request)
    (k : worker) :
  pc k <> AtExit ->
  (fuel numRequest (step_worker E numRequest t w s q k).2
   < fuel numRequest k)%nat.
Proof.
  destruct k as [p i r e d]. unfold fuel.
  destruct p; intros Hp; try (exfalso; apply Hp; reflexivity);
    unfold step_worker, http_NewRequest, goto, next_iter; simpl;
    repeat (case_match; simpl in *; subst);
    repeat match goal with
           | H : (_ <? _) = true |- _ => apply Z.ltb_lt in H
           | H : (_ <? _) = false |- _ => apply Z.ltb_ge in H
           end;
    try congruence; try lia.
Qed.

(** Letting worker [w] alone move for at least [fuel] steps brings it to its
    return and changes no other worker. *)
Lemma run_one (m : nat) : forall (σ : state) (w : nat) (k : worker),
  pool σ !! w = Some k -> (fuel numRequest k <= m)%nat ->
  exists k', pool (exec E numRequest t (repeat w m) σ) = <[w := k']> (pool σ)
             /\ pc k' = AtExit.
Proof.
  induction m as [|m IH]; intros σ w k Hw Hm.
  - exists k. simpl. split.
    + symmetry. apply list_insert_id, Hw.
    + apply fuel_exit. lia.
  - simpl.
    set (k1 := (step_worker E numRequest t w (shared σ) (wire σ) k).2).
    assert (Hlt : (w < length (pool σ))%nat)
      by (apply lookup_lt_is_Some; eauto).
    assert (Hw1 : pool (step E numRequest t w σ) !! w = Some k1).
    { rewrite (step_unfold _ _ _ w σ k Hw). simpl.
      apply list_lookup_insert_eq, Hlt. }
    assert (Hm1 : (fuel numRequest k1 <= m)%nat).
    { destruct (label_eqb (pc k) AtExit) eqn:Hpc.
      - assert (pc k = AtExit) by (destruct (pc k); simpl in Hpc; congruence).
        unfold k1. rewrite step_worker_exit by assumption. simpl.
        apply fuel_exit in H. lia.
      - assert (pc k <> AtExit) by (intros Heq; rewrite Heq in Hpc; discriminate).
        pose proof (step_worker_fuel w (shared σ) (wire σ) k H). fold k1 in H0.
        lia. }
    destruct (IH _ w k1 Hw1 Hm1) as (k' & Hpool & Hk').
    exists k'. split; [|exact Hk'].
    rewrite Hpool. rewrite (step_unfold _ _ _ w σ k Hw). simpl.
    apply list_insert_insert_eq.
Qed.

(** After [one_by_one m c] the first [c] workers have returned and the
    others have not moved. *)
Lemma one_by_one_spec (m : nat) (σ : state) :
  Forall (fun k => (fuel numRequest k <= m)%nat) (pool σ) ->
  forall c : nat, (c <= length (pool σ))%nat ->
  let σ' := exec E numRequest t (one_by_one m c) σ in
  (forall j, (j < c)%nat ->
     exists k, pool σ' !! j = Some k /\ pc k = AtExit)
  /\ (forall j, (c <= j)%nat -> pool σ' !! j = pool σ !! j).
Proof.
  intros Hfuel c. induction c as [|c IH]; intros Hc.
  - simpl. split; [intros j Hj; lia | reflexivity].
  - simpl. rewrite exec_app.
    destruct IH as [IHdone IHrest]; [lia|].
    set (σ1 := exec E numRequest t (one_by_one m c) σ) in *.
    assert (Hlen : length (pool σ1) = length (pool σ)) by apply exec_length.
    destruct (lookup_lt_is_Some_2 (pool σ) c) as [k Hk]; [lia|].
    assert (Hk1 : pool σ1 !! c = Some k) by (rewrite IHrest by lia; exact Hk).
    assert (Hm : (fuel numRequest k <= m)%nat)
      by (eapply (Forall_lookup_1 _ _ _ _ Hfuel); eassumption).
    destruct (run_one m σ1 c k Hk1 Hm) as (k' & Hpool & Hk').
    split.
    + intros j Hj. rewrite Hpool.
      destruct (decide (j = c)) as [->|Hne].
      * exists k'. split; [|exact Hk'].
        apply list_lookup_insert_eq. lia.
      * rewrite list_lookup_insert_ne by congruence. apply IHdone. lia.
    + intros j Hj. rewrite Hpool.
      rewrite list_lookup_insert_ne by lia. apply IHrest. lia.
Qed.

Lemma pool_completes (m : nat) (σ : state) :
  Forall (fun k => (fuel numRequest k <= m)%nat) (pool σ) ->
  all_done (exec E numRequest t (one_by_one m (length (pool σ))) σ) = true.
Proof.
  intros Hfuel.
  destruct (one_by_one_spec m σ Hfuel (length (pool σ))) as [Hdone _];
    [lia|].
  apply all_done_Forall. apply Forall_lookup. intros j k Hj.
  assert (Hlt : (j < length (pool σ))%nat).
  { rewrite <- (exec_length E numRequest t
                  (one_by_one m (length (pool σ))) σ).
    apply lookup_lt_is_Some. eauto. }
  destruct (Hdone j Hlt) as (k0 & Hk0 & Hpc). congruence.
Qed.

End Completion.

(** ** Run: what a completed run has counted *)

Section RunFacts.

Variable E : environ.
Variable b : bench.

Let numRequests : Z := requests b / concurrency b.
Let built : bool :=
  request_ok E (t_method (mk_task E b)) (t_url (mk_task E b)).

Lemma Run_unfold (sched : list nat) :
  concurrency b <> 0 ->
  Run E b sched
  = let σ := exec E numRequests (mk_task E b) sched (launch E b) in
    if all_done σ then Returned σ else Blocked σ.
Proof.
  intros Hc. unfold Run. apply Z.eqb_neq in Hc. rewrite Hc. reflexivity.
Qed.

Lemma launch_accounted :
  0 <= RequestsTotal (bstats b) < 2 ^ 32 ->
  total_accounted E numRequests (mk_task E b) (RequestsTotal (bstats b))
    (launch E b).
Proof.
  intros HT. split.
  - simpl. rewrite sum_over_replicate. unfold attempted. simpl.
    unfold wrap32. rewrite Z.mod_small; lia.
  - simpl. apply Forall_replicate. reflexivity.
Qed.

(** Whatever the interleaving, a run that returns has spawned [concurrency]
    workers, each of which has gone through its whole share (or through
    nothing, if the request could not be built), and the 32-bit counter has
    been incremented once per iteration. *)
Lemma Run_returned (sched : list nat) (σ : state) :
  0 <= requests b -> 0 < concurrency b ->
  0 <= RequestsTotal (bstats b) < 2 ^ 32 ->
  Run E b sched = Returned σ ->
  length (pool σ) = Z.to_nat (concurrency b)
  /\ Forall (fun k => iter k = if built then numRequests else 0) (pool σ)
  /\ RequestsTotal (shared σ)
     = wrap32 (RequestsTotal (bstats b)
               + concurrency b * (if built then numRequests else 0)).
Proof.
  intros Hn Hc HT HRun.
  rewrite Run_unfold in HRun by lia. simpl in HRun.
  destruct (all_done _) eqn:Hdone in HRun; [|discriminate].
  inversion HRun; subst σ; clear HRun.
  assert (Hnn : 0 <= numRequests) by (apply Z.div_pos; lia).
  pose proof (total_accounted_exec E numRequests (mk_task E b) Hnn
                _ sched _ (launch_accounted HT)) as Hacc.
  assert (Hlen : length (pool (exec E numRequests (mk_task E b) sched
                                 (launch E b)))
                 = Z.to_nat (concurrency b)).
  { rewrite exec_length. simpl. apply length_replicate. }
  split; [exact Hlen|]. split.
  - destruct Hacc as [_ Hok]. apply all_done_Forall in Hdone.
    rewrite Forall_forall in *. intros k Hk.
    specialize (Hok k Hk). specialize (Hdone k Hk).
    unfold worker_ok in Hok. rewrite Hdone in Hok. exact Hok.
  - rewrite (total_at_completion E numRequests (mk_task E b) _ _ Hacc Hdone).
    rewrite Hlen. rewrite Z2Nat.id by lia. reflexivity.
Qed.

(** [wg.Wait()] does return: the schedule that runs the goroutines one
    after the other completes the run. *)
Lemma Run_returns :
  concurrency b <> 0 ->
  exists σ,
    Run E b (one_by_one (12 * Z.to_nat numRequests + 2)
                        (Z.to_nat (concurrency b)))
    = Returned σ.
Proof.
  intros Hc. rewrite Run_unfold by assumption. simpl.
  pose proof (pool_completes E numRequests (mk_task E b)
                (12 * Z.to_nat numRequests + 2) (launch E b)) as H.
  simpl in H. rewrite length_replicate in H.
  rewrite H; [eauto|].
  apply Forall_replicate. unfold fuel. simpl. lia.
Qed.

End RunFacts.

(** ** What goes on the wire *)

Section Wire.

Variable E : environ.
Variable numRequest : Z.
Variable t : task.

Lemma step_worker_wire (w : nat) (s : stats) (q : list request)
    (k : worker) :
  Forall (fun r => r = built_request t) q ->
  req k = None \/ req k = Some (built_request t) ->
  Forall (fun r => r = built_request t)
    (step_worker E numRequest t w s q k).1.2
  /\ (req (step_worker E numRequest t w s q k).2 = None
      \/ req (step_worker E numRequest t w s q k).2
         = Some (built_request t)).
Proof.
  intros Hq Hk. destruct k as [p i r e d]; simpl in Hk.
  destruct p; unfold step_worker, goto, next_iter; simpl.
  - (* line 114 *)
    unfold http_NewRequest.
    destruct (request_ok E (t_method t) (t_url t)); simpl;
      (split; [assumption|]); [right; reflexivity | assumption].
  - destruct (i <? numRequest); simpl; split; assumption.
  - split; assumption.
  - (* line 122: the request sent is the one built at line 114 *)
    destruct Hk as [->| ->]; simpl; [split; [assumption | left; reflexivity]|].
    destruct (client_Do E w i (built_request t)); simpl;
      (split; [apply Forall_app; split; [assumption | repeat constructor]
              | right; reflexivity]).
  - split; [assumption|]. destruct e as [e|]; [|assumption].
    destruct (error_eqb e ErrHandlerTimeout); assumption.
  - split; assumption.
  - split; assumption.
  - split; assumption.
  - destruct (DelayMin s =? 0); split; assumption.
  - destruct (d <? DelayMin s); split; assumption.
  - split; assumption.
  - destruct (DelayMax s <? d); split; assumption.
  - split; assumption.
  - split; assumption.
Qed.

Lemma wire_uniform_step (w : nat) (σ : state) :
  wire_uniform t σ -> wire_uniform t (step E numRequest t w σ).
Proof.
  intros [Hq Hp].
  destruct (pool σ !! w) as [k|] eqn:Hw.
  - assert (Hk := Forall_lookup_1 _ _ _ _ Hp Hw). simpl in Hk.
    destruct (step_worker_wire w (shared σ) (wire σ) k Hq Hk) as [H1 H2].
    rewrite (step_unfold _ _ _ w σ k Hw). split; simpl.
    + exact H1.
    + apply Forall_insert; assumption.
  - rewrite step_idle by assumption. split; assumption.
Qed.

Lemma wire_uniform_exec (sched : list nat) (σ : state) :
  wire_uniform t σ -> wire_uniform t (exec E numRequest t sched σ).
Proof. apply exec_invariant. intros w σ'. apply wire_uniform_step. Qed.

End Wire.

(** ** The timeout counter *)

Section TimeoutCounter.

Variable E : environ.
Variable numRequest : Z.
Variable t : task.

(** The contract of [http.Client.Do]: every error it returns is a
    [*url.Error]. *)
Hypothesis Do_wraps :
  forall w k r e, client_Do E w k r = Fail e ->
                  exists tmo msg, e = UrlError tmo msg.

Lemma step_worker_timeout (w : nat) (s : stats) (q : list request)
    (k : worker) :
  (pc k <> AtAddTimeout
   /\ forall e, err k = Some e -> exists tmo msg, e = UrlError tmo msg) ->
  RequestsTimeout (step_worker E numRequest t w s q k).1.1
  = RequestsTimeout s
  /\ pc (step_worker E numRequest t w s q k).2 <> AtAddTimeout
  /\ forall e, err (step_worker E numRequest t w s q k).2 = Some e ->
               exists tmo msg, e = UrlError tmo msg.
Proof using Do_wraps.
  intros [Hpc Herr]. destruct k as [p i r e d]; simpl in *.
  destruct p; try (exfalso; apply Hpc; reflexivity);
    unfold step_worker, goto, next_iter; simpl.
  - unfold http_NewRequest.
    destruct (request_ok E (t_method t) (t_url t)); simpl;
      repeat split; try discriminate; assumption.
  - destruct (i <? numRequest); simpl; repeat split;
      try discriminate; assumption.
  - repeat split; try discriminate; assumption.
  - destruct r as [r|]; simpl;
      [|repeat split; try discriminate; assumption].
    destruct (client_Do E w i r) as [code|e'] eqn:HDo; simpl.
    + repeat split; try discriminate.
      destruct (code =? StatusOK); discriminate.
    + repeat split; try discriminate.
      intros e0 He0. inversion He0; subst. eapply Do_wraps, HDo.
  - (* line 127: the comparison with the sentinel is never true *)
    destruct e as [e|]; simpl;
      [|repeat split; try discriminate; assumption].
    destruct (Herr e eq_refl) as (tmo & msg & ->). simpl.
    repeat split; try discriminate. assumption.
  - repeat split; try discriminate; assumption.
  - repeat split; try discriminate; assumption.
  - destruct (DelayMin s =? 0); simpl; repeat split;
      try discriminate; assumption.
  - destruct (d <? DelayMin s); simpl; repeat split;
      try discriminate; assumption.
  - repeat split; try discriminate; assumption.
  - destruct (DelayMax s <? d); simpl; repeat split;
      try discriminate; assumption.
  - repeat split; try discriminate; assumption.
  - repeat split; try discriminate; assumption.
Qed.

Lemma timeout_untouched_step (T0 : Z) (w : nat) (σ : state) :
  timeout_untouched T0 σ -> timeout_untouched T0 (step E numRequest t w σ).
Proof using Do_wraps.
  intros [HT Hp].
  destruct (pool σ !! w) as [k|] eqn:Hw.
  - assert (Hk := Forall_lookup_1 _ _ _ _ Hp Hw). simpl in Hk.
    destruct (step_worker_timeout w (shared σ) (wire σ) k Hk) as (H1 & H2).
    rewrite (step_unfold _ _ _ w σ k Hw). split; simpl.
    + congruence.
    + apply Forall_insert; assumption.
  - rewrite step_idle by assumption. split; assumption.
Qed.

(** Under that contract line 128 is dead code: the timeout counter never
    moves, whatever the transport does and whatever the schedule. *)
Lemma timeout_never_counted (sched : list nat) (σ : state) :
  Forall (fun k => k = spawn) (pool σ) ->
  RequestsTimeout (shared (exec E numRequest t sched σ))
  = RequestsTimeout (shared σ).
Proof using Do_wraps.
  intros Hinit.
  assert (H0 : timeout_untouched (RequestsTimeout (shared σ)) σ).
  { split; [reflexivity|].
    eapply Forall_impl; [exact Hinit|]. simpl. intros k ->.
    split; [discriminate|]. intros e He. discriminate. }
  apply (exec_invariant E numRequest t _
           (timeout_untouched_step (RequestsTimeout (shared σ))) sched) in H0.
  apply H0.
Qed.

End TimeoutCounter.

(* ===================================================================== *)
(** * The claims *)
(* ===================================================================== *)

(** ** C5: partition of the work and the total counter *)

(** C5 (amended). For a request count [n >= 0] and a concurrency [c > 0],
    on a bench with fresh statistics whose request can be built, every run
    that returns, under every interleaving, has started [c] workers, each of
    which has performed exactly [n / c] iterations, and the 32-bit total
    counter holds [c * (n / c)] modulo 2^32, hence exactly [c * (n / c)]
    when that number is below 2^32; [c * (n / c)] is [n] minus the dropped
    remainder [n mod c]. *)
Theorem C5_total_is_planned_attempts_mod_2_32
    (E : environ) (b : bench) (sched : list nat) (σ : state) :
  0 <= requests b -> 0 < concurrency b ->
  bstats b = zero_stats ->
  request_ok E (t_method (mk_task E b)) (t_url (mk_task E b)) = true ->
  Run E b sched = Returned σ ->
  length (pool σ) = Z.to_nat (concurrency b)
  /\ Forall (fun k => iter k = requests b / concurrency b) (pool σ)
  /\ RequestsTotal (shared σ)
     = (concurrency b * (requests b / concurrency b)) mod 2 ^ 32
  /\ (concurrency b * (requests b / concurrency b) < 2 ^ 32 ->
      RequestsTotal (shared σ)
      = concurrency b * (requests b / concurrency b))
  /\ concurrency b * (requests b / concurrency b)
     = requests b - requests b mod concurrency b.
Proof.
  intros Hn Hc Hfresh Hbuilt HRun.
  assert (HT : 0 <= RequestsTotal (bstats b) < 2 ^ 32)
    by (rewrite Hfresh; simpl; lia).
  destruct (Run_returned E b sched σ Hn Hc HT HRun) as (Hlen & Hit & Htot).
  rewrite Hbuilt in Hit, Htot. rewrite Hfresh in Htot. simpl in Htot.
  assert (Hplan : 0 <= concurrency b * (requests b / concurrency b)).
  { apply Z.mul_nonneg_nonneg; [lia|]. apply Z.div_pos; lia. }
  repeat split.
  - exact Hlen.
  - exact Hit.
  - exact Htot.
  - intros Hsmall. rewrite Htot. unfold wrap32. apply Z.mod_small. lia.
  - pose proof (Z.div_mod (requests b) (concurrency b)). lia.
Qed.

(** The run [-n 10 -c 3] against a transport that always answers 200,
    goroutines scheduled one after the other: 9 attempts. *)
Lemma C5_witness_10_by_3 :
  exists σ,
    Run always_ok (bench_of 10 3 "GET") (one_by_one 38 3) = Returned σ
    /\ length (pool σ) = 3%nat
    /\ Forall (fun k => iter k = 3) (pool σ)
    /\ RequestsTotal (shared σ) = 9.
Proof.
  eexists. split; [vm_compute; reflexivity|].
  destruct (C5_total_is_planned_attempts_mod_2_32 always_ok
              (bench_of 10 3 "GET") (one_by_one 38 3) _
              ltac:(simpl; lia) ltac:(simpl; lia) eq_refl eq_refl
              ltac:(vm_compute; reflexivity))
    as (H1 & H2 & H3 & _).
  split; [exact H1|]. split; [exact H2|exact H3].
Defined.

(** C5, as stated, fails for [-n 4294967296 -c 1]: the run returns, one
    worker has made 2^32 attempts, and the [uint32] counter is back at 0. *)
Lemma C5_counterexample_counter_wraps :
  exists sched σ,
    Run always_ok (bench_of (2 ^ 32) 1 "GET") sched = Returned σ
    /\ RequestsTotal (shared σ) = 0
    /\ RequestsTotal (shared σ)
       <> concurrency (bench_of (2 ^ 32) 1 "GET")
          * (requests (bench_of (2 ^ 32) 1 "GET")
             / concurrency (bench_of (2 ^ 32) 1 "GET")).
Proof.
  destruct (Run_returns always_ok (bench_of (2 ^ 32) 1 "GET")) as [σ Hσ];
    [discriminate|].
  eexists _, σ. split; [exact Hσ|].
  assert (Htot : RequestsTotal (shared σ) = 0).
  { eapply Run_returned in Hσ.
    - destruct Hσ as (_ & _ & Htot). exact Htot.
    - discriminate.
    - reflexivity.
    - split; [discriminate|reflexivity]. }
  split; [exact Htot|]. rewrite Htot. discriminate.
Qed.

(** ** C10 and C6: ParseArgs *)

Lemma method_allowed_spec (m : string) :
  method_allowed m = true <-> m ∈ allow_list.
Proof.
  unfold method_allowed, allow_list.
  rewrite !orb_true_iff, !String.eqb_eq, !elem_of_cons, elem_of_nil.
  tauto.
Qed.

Lemma ParseArgs_error (E : environ) (f : flags) (b0 : bench) :
  is_Some (ParseArgs E f b0).2
  <-> method_allowed (flag_m f) = false
      \/ url_ParseRequestURI E (flag_h f) = None.
Proof.
  unfold ParseArgs.
  destruct (method_allowed (flag_m f)); simpl.
  - destruct (url_ParseRequestURI E (flag_h f)) as [u|]; simpl.
    + split; [intros [e He]; discriminate|].
      intros [H|H]; discriminate.
    + split; [right; reflexivity | eauto].
  - split; [left; reflexivity | eauto].
Qed.

Lemma Run_panics_iff (E : environ) (b : bench) (sched : list nat) :
  Run E b sched = Panic <-> concurrency b = 0.
Proof.
  unfold Run. destruct (concurrency b =? 0) eqn:Hc.
  - apply Z.eqb_eq in Hc. tauto.
  - apply Z.eqb_neq in Hc. split; [|tauto].
    destruct (all_done _); discriminate.
Qed.

(** C10. A command line with [-c 0], an allowed method and a host that
    parses is accepted by [ParseArgs], which stores the concurrency 0
    unchecked; [Run] then panics on [requests / concurrency] before any
    worker starts and the process crashes. The division panics exactly when
    the concurrency is 0: for an unsigned concurrency the panic is excluded
    exactly by [concurrency > 0]. *)
Theorem C10_zero_concurrency_is_accepted_and_Run_panics
    (E : environ) (f : flags) (sched : list nat) (now : Z) :
  flag_c f = 0 ->
  flag_m f ∈ allow_list ->
  is_Some (url_ParseRequestURI E (flag_h f)) ->
  (exists b, ParseArgs E f NewBench = (b, None)
             /\ concurrency b = 0
             /\ Run E b sched = Panic)
  /\ status (main E f sched now) = Crashed
  /\ sent (main E f sched now) = []
  /\ forall b' sched', 0 <= concurrency b' ->
       (Run E b' sched' <> Panic <-> 0 < concurrency b').
Proof.
  intros Hc Hm [u Hu]. apply method_allowed_spec in Hm.
  assert (HP : exists b, ParseArgs E f NewBench = (b, None)
                         /\ concurrency b = 0).
  { unfold ParseArgs. rewrite Hm, Hu. eexists. split; [reflexivity|].
    simpl. exact Hc. }
  destruct HP as (b & HP & Hb).
  assert (HR : forall s, Run E b s = Panic) by (intros s; apply Run_panics_iff, Hb).
  repeat split.
  - exists b. auto.
  - unfold main. rewrite HP, HR. reflexivity.
  - unfold main. rewrite HP, HR. reflexivity.
  - intros Hnp. destruct (Z.eq_dec (concurrency b') 0) as [H0|H0]; [|lia].
    exfalso. apply Hnp. apply Run_panics_iff, H0.
  - intros Hpos HPanic. apply Run_panics_iff in HPanic. lia.
Qed.

Lemma C10_witness_dash_c_0 :
  (exists b, ParseArgs always_ok zero_concurrency_flags NewBench = (b, None)
             /\ concurrency b = 0
             /\ Run always_ok b [0%nat] = Panic)
  /\ status (main always_ok zero_concurrency_flags [0%nat] 1) = Crashed.
Proof.
  destruct (C10_zero_concurrency_is_accepted_and_Run_panics always_ok
              zero_concurrency_flags [0%nat] 1 eq_refl
              ltac:(apply method_allowed_spec; reflexivity)
              ltac:(eexists; reflexivity))
    as (H1 & H2 & _).
  split; [exact H1|exact H2].
Defined.

(** What [ParseArgs] does with the typed flag values: it returns an error
    exactly when the method is outside the allow-list or
    [url.ParseRequestURI] rejects the host; a query string that
    [url.ParseQuery] rejects never makes it fail and leaves the parameters
    empty; and when it does fail, [main] exits through [log.Fatalln] with
    nothing sent and the statistics still zero. *)
Lemma ParseArgs_fails_iff (E : environ) (f : flags) :
  (is_Some (ParseArgs E f NewBench).2
   <-> flag_m f ∉ allow_list \/ url_ParseRequestURI E (flag_h f) = None)
  /\ ((ParseArgs E f NewBench).2 = None ->
      params (ParseArgs E f NewBench).1
      = match url_ParseQuery E (flag_p f) with
        | (p, None) => p
        | (_, Some _) => []
        end)
  /\ (is_Some (ParseArgs E f NewBench).2 ->
      forall sched now,
        (exists e, status (main E f sched now) = Fatal e)
        /\ sent (main E f sched now) = []
        /\ bstats (final (main E f sched now)) = zero_stats).
Proof.
  split; [|split].
  - rewrite ParseArgs_error, <- method_allowed_spec.
    destruct (method_allowed (flag_m f)); split; intros [H|H];
      try discriminate; try (right; exact H); try (left; congruence);
      try (exfalso; apply H; reflexivity).
  - unfold ParseArgs.
    destruct (method_allowed (flag_m f)); simpl; [|discriminate].
    destruct (url_ParseRequestURI E (flag_h f)); simpl; [|discriminate].
    intros _. destruct (url_ParseQuery E (flag_p f)) as [p [e|]]; reflexivity.
  - intros [e He] sched now. unfold main.
    destruct (ParseArgs E f NewBench) as [b o] eqn:HP. simpl in He. subst o.
    simpl. split; [eauto|]. split; [reflexivity|].
    unfold ParseArgs in HP.
    destruct (method_allowed (flag_m f)).
    + destruct (url_ParseRequestURI E (flag_h f)); inversion HP; reflexivity.
    + inversion HP; reflexivity.
Qed.

Lemma main_fatal_iff (E : environ) (f : flags) (sched : list nat) (now : Z) :
  (exists e, status (main E f sched now) = Fatal e)
  <-> is_Some (ParseArgs E f NewBench).2.
Proof.
  unfold main. destruct (ParseArgs E f NewBench) as [b [e|]]; simpl.
  - split; eauto.
  - split.
    + intros [e He]. destruct (Run E b sched) as [|σ|σ]; simpl in He;
        discriminate.
    + intros [e He]. discriminate.
Qed.

(** C6 (the claim at the failing inputs). The host [/foo] is no absolute
    URL, it has no scheme, and the method is the default [GET]; yet
    [ParseArgs] returns no error for the command line [-h /foo], since
    [url.ParseRequestURI] takes an absolute path as well, and [main] goes on
    to [Run]: failing exactly on a bad method or a host that is not an
    absolute URL does not describe it. And the command line
    [-n abc -h http://t], whose method and host are in order, ends the
    process inside [flag.Parse]. *)
Lemma C6_counterexample_path_host_accepted_and_bad_number_fatal :
  flag_Parse decimal_uint default_flags ["-h"; "/foo"]%string
  = FlagsParsed path_host_flags
  /\ spec_absolute_URL (flag_h path_host_flags) = false
  /\ flag_m path_host_flags ∈ allow_list
  /\ ParseArgs absolute_paths path_host_flags NewBench
     = ({| requests := 1000; concurrency := 1; timeout := 100;
           host := "/foo"; method := "GET"; params := []; data := None;
           bstats := zero_stats;
           bclient := {| Timeout := 100 * Millisecond |} |}, None)
  /\ ~ (is_Some (ParseArgs absolute_paths path_host_flags NewBench).2
        <-> flag_m path_host_flags ∉ allow_list
            \/ spec_absolute_URL (flag_h path_host_flags) = false)
  /\ ~ ended_in_argument_parsing
         (main_argv decimal_uint absolute_paths ["-h"; "/foo"]%string [] 0)
  /\ main_argv decimal_uint always_ok
       ["-n"; "abc"; "-h"; "http://t"]%string [] 0
     = EndedInFlagParse false.
Proof.
  split; [reflexivity|]. split; [reflexivity|].
  split; [apply method_allowed_spec; reflexivity|].
  split; [reflexivity|].
  split.
  { intros [_ H]. destruct H as [e He]; [right; reflexivity|].
    discriminate. }
  split.
  { intros [e He]. vm_compute in He. discriminate. }
  reflexivity.
Qed.

(** C6 (amended). Argument parsing ends the process exactly when
    [flag.Parse] rejects the command line or asks for the usage, or else
    the method it leaves is outside the allow-list or [url.ParseRequestURI]
    rejects the host it leaves; on the typed values, [ParseArgs] returns an
    error exactly in the last two cases, and a query string that
    [url.ParseQuery] rejects is not among them: the parameters are then
    empty. Whenever the process ends in argument parsing, no request has
    been sent. *)
Theorem C6_argument_parsing_fails_exactly_on_flags_method_or_rejected_host
    (ParseUint : string -> option Z) (E : environ) (args : list string)
    (sched : list nat) (now : Z) :
  (ended_in_argument_parsing (main_argv ParseUint E args sched now)
   <-> match flag_Parse ParseUint default_flags args with
       | FlagsParsed f =>
           flag_m f ∉ allow_list \/ url_ParseRequestURI E (flag_h f) = None
       | FlagHelp => True
       | FlagError => True
       end)
  /\ (forall f : flags,
        (is_Some (ParseArgs E f NewBench).2
         <-> flag_m f ∉ allow_list
             \/ url_ParseRequestURI E (flag_h f) = None)
        /\ ((ParseArgs E f NewBench).2 = None ->
            params (ParseArgs E f NewBench).1
            = match url_ParseQuery E (flag_p f) with
              | (p, None) => p
              | (_, Some _) => []
              end)
        /\ (is_Some (ParseArgs E f NewBench).2 ->
            (exists e, status (main E f sched now) = Fatal e)
            /\ sent (main E f sched now) = []
            /\ bstats (final (main E f sched now)) = zero_stats))
  /\ (ended_in_argument_parsing (main_argv ParseUint E args sched now) ->
      requests_sent (main_argv ParseUint E args sched now) = []).
Proof.
  split; [|split].
  - unfold main_argv.
    destruct (flag_Parse ParseUint default_flags args) as [f| |]; simpl;
      [|tauto|tauto].
    rewrite main_fatal_iff. apply (ParseArgs_fails_iff E f).
  - intros f. destruct (ParseArgs_fails_iff E f) as (H1 & H2 & H3).
    split; [exact H1|]. split; [exact H2|].
    intros H. apply (H3 H sched now).
  - unfold main_argv.
    destruct (flag_Parse ParseUint default_flags args) as [f| |]; simpl;
      [|reflexivity|reflexivity].
    intros H. apply main_fatal_iff in H.
    destruct (ParseArgs_fails_iff E f) as (_ & _ & H3).
    apply (H3 H sched now).
Qed.

(** ** C4: the reported average *)

Lemma PrintResult_DelayAvg (now : Z) (b : bench) :
  rep_DelayAvg (PrintResult now b).2
  = int64_div (int64_sub (DelayMax (bstats b)) (DelayMin (bstats b))) 2.
Proof. reflexivity. Qed.

(** C4 (the code at the failing input). With a minimum of 4 ns and a
    maximum of 10 ns, [PrintResult] stores and prints 3 ns as the average
    delay, half of the range, where the midpoint is 7 ns. *)
Theorem C4_DelayAvg_is_half_the_range_not_the_midpoint :
  rep_DelayAvg (PrintResult 0 (with_stats stats_4_10 NewBench)).2 = 3
  /\ DelayAvg (bstats (PrintResult 0 (with_stats stats_4_10 NewBench)).1) = 3
  /\ (DelayMin stats_4_10 + DelayMax stats_4_10) / 2 = 7.
Proof. repeat split. Qed.

(** ** C1: classification of the outcomes *)

Section OtherStatus.

Variable E : environ.
Variable numRequest : Z.
Variable t : task.

(** The transport never fails and never answers 200. *)
Hypothesis Do_other :
  forall w k r, exists code,
    client_Do E w k r = Resp code /\ code <> StatusOK.

Lemma step_worker_unclassified (w : nat) (s : stats) (q : list request)
    (k : worker) :
  outside_classification (pc k) = true ->
  RequestsSuccess (step_worker E numRequest t w s q k).1.1
  = RequestsSuccess s
  /\ RequestsFail (step_worker E numRequest t w s q k).1.1 = RequestsFail s
  /\ outside_classification (pc (step_worker E numRequest t w s q k).2)
     = true.
Proof using Do_other.
  destruct k as [p i r e d]. simpl.
  destruct p; intros Hp; try discriminate;
    unfold step_worker, goto, next_iter; simpl.
  - unfold http_NewRequest.
    destruct (request_ok E (t_method t) (t_url t)); repeat split.
  - destruct (i <? numRequest); repeat split.
  - repeat split.
  - (* line 122, then line 130 with a status other than 200 *)
    destruct r as [r|]; [|repeat split].
    destruct (Do_other w i r) as (code & -> & Hcode). simpl.
    apply Z.eqb_neq in Hcode. rewrite Hcode. repeat split.
  - repeat split.
  - destruct (DelayMin s =? 0); repeat split.
  - destruct (d <? DelayMin s); repeat split.
  - repeat split.
  - destruct (DelayMax s <? d); repeat split.
  - repeat split.
  - repeat split.
Qed.

Lemma unclassified_step (S0 F0 : Z) (w : nat) (σ : state) :
  unclassified S0 F0 σ -> unclassified S0 F0 (step E numRequest t w σ).
Proof using Do_other.
  intros (HS & HF & Hp).
  destruct (pool σ !! w) as [k|] eqn:Hw.
  - assert (Hk := Forall_lookup_1 _ _ _ _ Hp Hw). simpl in Hk.
    destruct (step_worker_unclassified w (shared σ) (wire σ) k Hk)
      as (H1 & H2 & H3).
    rewrite (step_unfold _ _ _ w σ k Hw). repeat split; simpl.
    + congruence.
    + congruence.
    + apply Forall_insert; assumption.
  - rewrite step_idle by assumption. repeat split; assumption.
Qed.

Lemma unclassified_exec (S0 F0 : Z) (sched : list nat) (σ : state) :
  unclassified S0 F0 σ -> unclassified S0 F0 (exec E numRequest t sched σ).
Proof using Do_other.
  apply exec_invariant. intros w σ'. apply unclassified_step.
Qed.

End OtherStatus.

(** Against a transport that answers every request with a status other
    than 200, a run counts neither successes nor failures, whatever its size
    and its schedule. *)
Lemma Run_other_status_is_never_classified (E : environ) (b : bench)
    (sched : list nat) (σ : state) :
  (forall w k r, exists code,
      client_Do E w k r = Resp code /\ code <> StatusOK) ->
  Run E b sched = Returned σ \/ Run E b sched = Blocked σ ->
  RequestsSuccess (shared σ) = RequestsSuccess (bstats b)
  /\ RequestsFail (shared σ) = RequestsFail (bstats b).
Proof.
  intros HDo HRun. unfold Run in HRun.
  destruct (concurrency b =? 0); [destruct HRun; discriminate|].
  assert (Hσ : σ = exec E (requests b / concurrency b) (mk_task E b) sched
                     (launch E b)).
  { destruct (all_done _); destruct HRun as [H|H]; congruence. }
  subst σ.
  destruct (unclassified_exec E (requests b / concurrency b) (mk_task E b)
              HDo (RequestsSuccess (bstats b)) (RequestsFail (bstats b))
              sched (launch E b)) as (HS & HF & _).
  - repeat split. simpl. apply Forall_replicate. reflexivity.
  - split; assumption.
Qed.

(** C1 (the code at the failing input). One request answered with status
    500 and no transport error: the run returns with one attempt counted
    and neither a success nor a failure. *)
Theorem C1_status_500_counts_as_neither_success_nor_failure :
  exists σ,
    Run always_500 (bench_of 1 1 "GET") (one_by_one 14 1) = Returned σ
    /\ RequestsTotal (shared σ) = 1
    /\ RequestsSuccess (shared σ) = 0
    /\ RequestsFail (shared σ) = 0.
Proof. eexists. split; [vm_compute; reflexivity|]. repeat split. Qed.

(** ** C2: timeouts *)

(** Under the contract of [http.Client.Do], no run ever moves the timeout
    counter. *)
Lemma Run_never_counts_a_timeout (E : environ) (b : bench)
    (sched : list nat) (σ : state) :
  (forall w k r e, client_Do E w k r = Fail e ->
                   exists tmo msg, e = UrlError tmo msg) ->
  Run E b sched = Returned σ \/ Run E b sched = Blocked σ ->
  RequestsTimeout (shared σ) = RequestsTimeout (bstats b).
Proof.
  intros HDo HRun. unfold Run in HRun.
  destruct (concurrency b =? 0); [destruct HRun; discriminate|].
  assert (Hσ : σ = exec E (requests b / concurrency b) (mk_task E b) sched
                     (launch E b)).
  { destruct (all_done _); destruct HRun as [H|H]; congruence. }
  subst σ. rewrite (timeout_never_counted E _ _ HDo).
  - reflexivity.
  - simpl. apply Forall_replicate. reflexivity.
Qed.

(** C2 (the code at the failing input). Two requests, each ended by the
    client timeout: both are counted as failures, the error of each reports
    a timeout, and the timeout counter stays at 0. *)
Theorem C2_client_timeouts_leave_the_timeout_counter_at_zero :
  exists σ,
    Run always_timeout (bench_of 2 1 "GET") (one_by_one 26 1) = Returned σ
    /\ RequestsTotal (shared σ) = 2
    /\ RequestsFail (shared σ) = 2
    /\ RequestsSuccess (shared σ) = 0
    /\ RequestsTimeout (shared σ) = 0
    /\ Forall (fun k => exists e, err k = Some e
                                  /\ indicates_timeout e = true) (pool σ).
Proof.
  eexists. split; [vm_compute; reflexivity|].
  repeat split. repeat constructor. eexists. split; reflexivity.
Qed.

(** ** C3: the requests that are sent *)

(** Whatever the bench, the schedule and the collaborators, every request
    put on the wire is a bodyless GET for the task URL. *)
Lemma wire_ignores_method_and_body (E : environ) (b : bench)
    (sched : list nat) :
  t_method (mk_task E b) = ""%string
  /\ Forall (fun r => req_method r = "GET"%string
                      /\ req_body r = None
                      /\ req_url r = t_url (mk_task E b))
       (wire (exec E (requests b / concurrency b) (mk_task E b) sched
                (launch E b))).
Proof.
  split; [reflexivity|].
  assert (H : wire_uniform (mk_task E b) (launch E b)).
  { split; simpl; [constructor|].
    apply Forall_replicate. left. reflexivity. }
  apply (wire_uniform_exec E (requests b / concurrency b) _ sched) in H.
  destruct H as [H _]. eapply Forall_impl; [exact H|].
  simpl. intros r ->. repeat split.
Qed.

(** C3 (the code at the failing input). A bench configured for POST with
    a JSON body: the task carries the marshalled body but an empty method,
    and the two requests sent are GET requests without a body. *)
Theorem C3_configured_POST_with_body_is_sent_as_bodyless_GET :
  method post_with_body = "POST"%string
  /\ t_method (mk_task always_ok post_with_body) = ""%string
  /\ t_data (mk_task always_ok post_with_body) = Some "{}"%string
  /\ exists σ,
       Run always_ok post_with_body (one_by_one 26 1) = Returned σ
       /\ wire σ
          = [ {| req_method := "GET"; req_url := "http://t?";
                 req_body := None |};
              {| req_method := "GET"; req_url := "http://t?";
                 req_body := None |} ].
Proof.
  repeat split. eexists. split; vm_compute; reflexivity.
Qed.

(** ** C7 and C9: the extrema *)

(** Lines 135-140 executed by one worker without interruption amount to
    [update_extrema]. *)
Lemma alone_step (E : environ) (numRequest : Z) (t : task) (w : nat)
    (m : nat) (s : stats) (q : list request) (k : worker) :
  alone E numRequest t w (S m) (s, q, k)
  = alone E numRequest t w m (step_worker E numRequest t w s q k).
Proof. reflexivity. Qed.

Lemma extrema_alone (E : environ) (numRequest : Z) (t : task) (w : nat)
    (s : stats) (q : list request) (k : worker) :
  pc k = AtMinZero ->
  exists m, (m <= 5)%nat
    /\ (alone E numRequest t w m (s, q, k)).1.1
       = update_extrema (delay k) s
    /\ pc (alone E numRequest t w m (s, q, k)).2 = AtLoopTest
    /\ iter (alone E numRequest t w m (s, q, k)).2 = iter k + 1.
Proof.
  destruct k as [p i r e d]. simpl. intros ->.
  unfold update_extrema.
  destruct (DelayMin s =? 0) eqn:H0;
    [|destruct (d <? DelayMin s) eqn:H1];
    destruct (DelayMax s <? d) eqn:H2; cbn [orb];
    [exists 4%nat | exists 3%nat | exists 5%nat
    | exists 4%nat | exists 4%nat | exists 3%nat];
    (split; [lia|]);
    repeat (rewrite alone_step; unfold step_worker at 1;
            cbn -[alone Z.ltb Z.eqb];
            rewrite ?H0, ?H1, ?H2; cbn -[alone Z.ltb Z.eqb]);
    cbn; rewrite ?H2; repeat split.
Qed.

(** Executed without interruption, the update keeps [DelayMin <= DelayMax]
    and, from fresh statistics, sets both to the first latency. *)
Lemma update_extrema_ordered (d : Z) (s : stats) :
  DelayMin s <= DelayMax s ->
  DelayMin (update_extrema d s) <= DelayMax (update_extrema d s).
Proof.
  unfold update_extrema. intros H.
  destruct (DelayMin s =? 0) eqn:H0; simpl;
    [|destruct (d <? DelayMin s) eqn:H1; simpl];
    destruct (DelayMax s <? d) eqn:H2; simpl;
    repeat match goal with
           | H : (_ <? _) = true |- _ => apply Z.ltb_lt in H
           | H : (_ <? _) = false |- _ => apply Z.ltb_ge in H
           | H : (_ =? _) = true |- _ => apply Z.eqb_eq in H
           end; lia.
Qed.

(** With a single worker nothing interleaves, and the extrema stay
    ordered. *)
Lemma step_worker_extrema (E : environ) (numRequest : Z) (t : task)
    (w : nat) (s : stats) (q : list request) (k : worker) :
  extrema_ok s k ->
  extrema_ok (step_worker E numRequest t w s q k).1.1
             (step_worker E numRequest t w s q k).2.
Proof.
  destruct k as [p i r e d]. unfold extrema_ok.
  destruct p; simpl; intros H;
    unfold step_worker, goto, next_iter; simpl.
  - unfold http_NewRequest.
    destruct (request_ok E (t_method t) (t_url t)); exact H.
  - destruct (i <? numRequest); exact H.
  - exact H.
  - destruct r as [r|]; [|exact H].
    destruct (client_Do E w i r) as [code|e']; simpl; [|exact H].
    destruct (code =? StatusOK); exact H.
  - destruct e as [e|]; [|exact H].
    destruct (error_eqb e ErrHandlerTimeout); exact H.
  - exact H.
  - exact H.
  - exact H.
  - destruct (DelayMin s =? 0); exact H.
  - (* line 135, second operand *)
    destruct (d <? DelayMin s); simpl; [exact H | left; exact H].
  - (* line 136 *)
    right. reflexivity.
  - (* line 138 *)
    destruct (DelayMax s <? d) eqn:Hlt; simpl.
    + apply Z.ltb_lt in Hlt. split; assumption.
    + apply Z.ltb_ge in Hlt. lia.
  - (* line 139 *)
    lia.
  - exact H.
Qed.

Lemma single_worker_step (E : environ) (numRequest : Z) (t : task)
    (w : nat) (σ : state) :
  (exists k, pool σ = [k] /\ extrema_ok (shared σ) k) ->
  exists k, pool (step E numRequest t w σ) = [k]
            /\ extrema_ok (shared (step E numRequest t w σ)) k.
Proof.
  intros (k & Hpool & Hk).
  destruct w as [|w].
  - rewrite (step_unfold E numRequest t 0 σ k) by (rewrite Hpool; reflexivity).
    simpl. rewrite Hpool. eexists. split; [reflexivity|].
    apply step_worker_extrema, Hk.
  - rewrite step_idle by (rewrite Hpool; reflexivity).
    exists k. split; assumption.
Qed.

Lemma single_worker_extrema_ordered (E : environ) (b : bench)
    (sched : list nat) (σ : state) :
  concurrency b = 1 ->
  DelayMin (bstats b) <= DelayMax (bstats b) ->
  Run E b sched = Returned σ ->
  DelayMin (shared σ) <= DelayMax (shared σ).
Proof.
  intros Hc Hinit HRun. unfold Run in HRun. rewrite Hc in HRun.
  simpl in HRun.
  destruct (all_done _) eqn:Hdone in HRun; [|discriminate].
  inversion HRun; subst σ; clear HRun.
  assert (H0 : exists k, pool (launch E b) = [k]
                         /\ extrema_ok (shared (launch E b)) k).
  { exists spawn. unfold launch. rewrite Hc. split; [reflexivity|].
    exact Hinit. }
  apply (exec_invariant E (requests b / 1) (mk_task E b) _
           (fun w σ' => single_worker_step E _ _ w σ') sched) in H0.
  destruct H0 as (k & Hpool & Hk).
  apply all_done_Forall in Hdone. rewrite Hpool in Hdone.
  inversion Hdone as [|? ? Hpc _]; subst.
  unfold extrema_ok in Hk. rewrite Hpc in Hk. exact Hk.
Qed.

(** C7 (the code at the failing input). Two workers, one request each,
    latencies 5 ns and 3 ns, the loads and stores of lines 135-139
    interleaved: the run returns with both requests completed and
    [DelayMin = 5 > 3 = DelayMax]. *)
Theorem C7_interleaved_updates_end_with_min_above_max :
  exists σ,
    Run two_latencies (bench_of 2 2 "GET") racy_schedule = Returned σ
    /\ RequestsTotal (shared σ) = 2
    /\ RequestsSuccess (shared σ) = 2
    /\ DelayMin (shared σ) = 5
    /\ DelayMax (shared σ) = 3
    /\ ~ DelayMin (shared σ) <= DelayMax (shared σ).
Proof.
  eexists. split; [vm_compute; reflexivity|]. repeat split.
  simpl. lia.
Qed.

(** C9 (the code at the failing input). Two workers, one request each,
    latencies 5 ns (worker 0) and 3 ns (worker 1): both test
    [DelayMin == 0] before either stores, worker 0 stores last, and the run
    returns with [DelayMin = 5]: the smaller latency written by worker 1 is
    lost. The counters, updated by [atomic.AddUint32], are exact. *)
Theorem C9_unsynchronised_minimum_update_is_lost :
  exists σ,
    Run two_latencies (bench_of 2 2 "GET") lost_min_schedule = Returned σ
    /\ time_Since two_latencies 0 0 = 5
    /\ time_Since two_latencies 1 0 = 3
    /\ DelayMin (shared σ) = 5
    /\ DelayMax (shared σ) = 5
    /\ RequestsTotal (shared σ) = 2
    /\ RequestsSuccess (shared σ) = 2.
Proof. eexists. split; [vm_compute; reflexivity|]. repeat split. Qed.

(** ** C8: requests per second *)

Lemma digits2_pos_lower (p : positive) :
  2 ^ (Zpos (digits2_pos p) - 1) <= Zpos p.
Proof.
  induction p as [p IH|p IH|]; simpl digits2_pos.
  - rewrite Pos2Z.inj_succ.
    replace (Z.succ (Z.pos (digits2_pos p)) - 1)
      with (Z.succ (Z.pos (digits2_pos p) - 1)) by lia.
    rewrite Z.pow_succ_r by lia. lia.
  - rewrite Pos2Z.inj_succ.
    replace (Z.succ (Z.pos (digits2_pos p)) - 1)
      with (Z.succ (Z.pos (digits2_pos p) - 1)) by lia.
    rewrite Z.pow_succ_r by lia. lia.
  - simpl. lia.
Qed.

Lemma digits2_pos_uint32 (p : positive) :
  Zpos p < 2 ^ 32 -> Zpos (digits2_pos p) <= 32.
Proof.
  intros Hp. pose proof (digits2_pos_lower p) as H.
  destruct (Z_le_gt_dec (Zpos (digits2_pos p)) 32) as [Hle|Hgt];
    [exact Hle|].
  exfalso.
  assert (2 ^ 32 <= 2 ^ (Zpos (digits2_pos p) - 1))
    by (apply Z.pow_le_mono_r; lia).
  lia.
Qed.

Lemma digits2_pos_shift (p k : positive) :
  digits2_pos (Pos.iter xO p k) = (digits2_pos p + k)%positive.
Proof.
  induction k as [|k IH] using Pos.peano_ind.
  - simpl. lia.
  - rewrite Pos.iter_succ. simpl. rewrite IH. lia.
Qed.

Lemma fexp_binary64 (e : Z) : -1000 <= e -> fexp prec emax e = e - 53.
Proof. intros H. unfold fexp, emin, prec, emax. lia. Qed.

(** A positive integer below 2^32 converts to a finite, non-zero,
    positive binary64 number. *)
Lemma binary_round_uint32 (p : positive) :
  Zpos p < 2 ^ 32 ->
  exists m e, binary_round prec emax false p 0 = S754_finite false m e.
Proof.
  intros Hp. apply digits2_pos_uint32 in Hp.
  unfold binary_round, shl_align.
  rewrite fexp_binary64 by lia.
  destruct (Z.pos (digits2_pos p) + 0 - 53 - 0) as [|k|k] eqn:Hk; try lia.
  unfold binary_round_aux, shr_fexp.
  cbn [Zdigits2 shr_record_of_loc].
  rewrite digits2_pos_shift.
  rewrite fexp_binary64 by lia.
  replace (Z.pos (digits2_pos p + k) + (Z.pos (digits2_pos p) + 0 - 53) - 53
           - (Z.pos (digits2_pos p) + 0 - 53)) with 0 by lia.
  cbn [shr shr_m loc_of_shr_record shr_r shr_s round_nearest_even
       Zdigits2 shr_record_of_loc].
  rewrite digits2_pos_shift.
  rewrite fexp_binary64 by lia.
  replace (Z.pos (digits2_pos p + k) + (Z.pos (digits2_pos p) + 0 - 53) - 53
           - (Z.pos (digits2_pos p) + 0 - 53)) with 0 by lia.
  cbn [shr shr_m].
  destruct (Z.pos (digits2_pos p) + 0 - 53 <=? emax - prec) eqn:Hle.
  - eauto.
  - apply Z.leb_gt in Hle. unfold emax, prec in Hle. lia.
Qed.

Lemma Seconds_zero : Seconds 0 = PrimFloat.zero.
Proof. vm_compute. reflexivity. Qed.

(** With no time elapsed the quotient is [+Inf] for every non-zero
    counter value. *)
Lemma requests_per_second_zero_elapsed (total : Z) :
  0 < total < 2 ^ 32 ->
  requests_per_second total 0 = PrimFloat.infinity.
Proof.
  intros Hn. unfold requests_per_second, float64_of_Z.
  rewrite Seconds_zero.
  destruct (total <? 0) eqn:Hneg; [apply Z.ltb_lt in Hneg; lia|].
  apply Prim2SF_inj.
  rewrite FloatAxioms.div_spec, FloatAxioms.of_uint63_spec.
  rewrite Uint63.of_Z_spec.
  assert (HwB : wB = 2 ^ 63) by reflexivity.
  rewrite Z.mod_small by (rewrite HwB; lia).
  destruct total as [|p|p]; try lia.
  unfold binary_normalize.
  destruct (binary_round_uint32 p) as (m & e & ->); [lia|].
  reflexivity.
Qed.

Lemma requests_per_second_zero_by_zero :
  requests_per_second 0 0 = PrimFloat.nan.
Proof. vm_compute. reflexivity. Qed.

(** C8 (amended). [PrintResult] computes requests-per-second as the
    binary64 quotient of the total counter by the seconds of the runtime it
    has just measured, with no guard: when no time has elapsed the quotient
    is reported as it is, NaN for a counter at 0 and [+Inf] for every other
    counter value. *)
Theorem C8_rps_is_the_unguarded_quotient (now : Z) (b : bench) :
  0 <= RequestsTotal (bstats b) < 2 ^ 32 ->
  rep_rps (PrintResult now b).2
  = PrimFloat.div (float64_of_Z (RequestsTotal (bstats b)))
      (Seconds (int64_sub now (LaunchTime (bstats b))))
  /\ (int64_sub now (LaunchTime (bstats b)) = 0 ->
      rep_rps (PrintResult now b).2
      = if RequestsTotal (bstats b) =? 0 then PrimFloat.nan
        else PrimFloat.infinity).
Proof.
  intros HT. split; [reflexivity|]. intros Hzero.
  unfold PrintResult. simpl. rewrite Hzero.
  destruct (RequestsTotal (bstats b) =? 0) eqn:H0.
  - apply Z.eqb_eq in H0. rewrite H0.
    apply requests_per_second_zero_by_zero.
  - apply Z.eqb_neq in H0. apply requests_per_second_zero_elapsed. lia.
Qed.

Lemma C8_witness_five_requests_in_no_time :
  rep_rps (PrintResult 0 (with_stats (set_RequestsTotal 5 zero_stats)
                            NewBench)).2
  = PrimFloat.infinity.
Proof.
  apply (proj2 (C8_rps_is_the_unguarded_quotient 0
                  (with_stats (set_RequestsTotal 5 zero_stats) NewBench)
                  ltac:(simpl; lia))).
  reflexivity.
Defined.

(** C8, as stated, fails: with no time elapsed the report carries [+Inf]
    for a counter at 5 and NaN for a counter at 0, the raw results of the
    division, and no single fallback value stands for both. *)
Lemma C8_counterexample_no_fallback_at_zero_elapsed :
  rep_rps (PrintResult 0 (with_stats (set_RequestsTotal 5 zero_stats)
                            NewBench)).2
  = PrimFloat.div (float64_of_Z 5) PrimFloat.zero
  /\ PrimFloat.is_infinity
       (rep_rps (PrintResult 0 (with_stats (set_RequestsTotal 5 zero_stats)
                                  NewBench)).2) = true
  /\ PrimFloat.is_nan
       (rep_rps (PrintResult 0 (with_stats zero_stats NewBench)).2) = true
  /\ ~ exists fallback : float,
         forall total, 0 <= total < 2 ^ 32 ->
           rep_rps (PrintResult 0 (with_stats
                                     (set_RequestsTotal total zero_stats)
                                     NewBench)).2
           = fallback.
Proof.
  split; [vm_compute; reflexivity|].
  split; [vm_compute; reflexivity|].
  split; [vm_compute; reflexivity|].
  intros [fb Hfb].
  pose proof (Hfb 0 ltac:(lia)) as H0.
  pose proof (Hfb 5 ltac:(lia)) as H5.
  assert (Hnan : PrimFloat.is_nan fb = true)
    by (rewrite <- H0; vm_compute; reflexivity).
  assert (Hinf : PrimFloat.is_nan fb = false)
    by (rewrite <- H5; vm_compute; reflexivity).
  congruence.
Qed.

(* ===================================================================== *)
(** * Further properties of bench.go and main.go *)
(* ===================================================================== *)

(** ** Run: when wg.Wait lets it return *)

Lemma fuel_bounded (numRequest : Z) (l : list worker) :
  exists m, Forall (fun k => (fuel numRequest k <= m)%nat) l.
Proof.
  induction l as [|k l [m IH]].
  - exists 0%nat. constructor.
  - exists (Nat.max (fuel numRequest k) m). constructor; [lia|].
    eapply Forall_impl; [exact IH|]. simpl. intros k' Hk'. lia.
Qed.

(** Where every call of [client.Do] returns, no worker ever waits. *)
Lemma exec_or_wait_exec (c : client) (replies : nat -> Z -> bool)
    (E : environ) (numRequest : Z) (t : task) :
  (forall w j, Do_returns c replies w j = true) ->
  forall sched σ,
    exec_or_wait c replies E numRequest t sched σ
    = exec E numRequest t sched σ.
Proof.
  intros Hret sched. induction sched as [|w sched IH]; intros σ; simpl.
  - reflexivity.
  - rewrite IH. f_equal. unfold step_or_wait.
    destruct (pool σ !! w) as [k|] eqn:Hk.
    + rewrite Hret, andb_false_r. reflexivity.
    + symmetry. apply step_idle, Hk.
Qed.

(** A worker whose first call is never answered, and has no deadline,
    stays where it is or before. *)
Lemma first_call_hangs (c : client) (replies : nat -> Z -> bool)
    (E : environ) (numRequest : Z) (t : task) (w : nat) :
  Timeout c <= 0 -> replies w 0 = false ->
  0 < numRequest -> request_ok E (t_method t) (t_url t) = true ->
  forall sched σ,
    (exists k, pool σ !! w = Some k /\ before_first_reply k) ->
    exists k, pool (exec_or_wait c replies E numRequest t sched σ) !! w
              = Some k
              /\ before_first_reply k.
Proof.
  intros Hc Hr Hn Hb sched.
  induction sched as [|w' sched IH]; intros σ Hσ; simpl; [exact Hσ|].
  apply IH. pose proof Hσ as (k & Hk & Hi & Hpc).
  unfold step_or_wait.
  destruct (pool σ !! w') as [k'|] eqn:Hk'; [|exact Hσ].
  destruct (label_eqb (pc k') AtDo
            && negb (Do_returns c replies w' (iter k'))) eqn:Hwait;
    [exact Hσ|].
  rewrite (step_unfold E numRequest t w' σ k' Hk'). simpl.
  destruct (decide (w' = w)) as [->|Hne].
  - assert (k' = k) by congruence. subst k'.
    rewrite list_lookup_insert_eq by (apply lookup_lt_is_Some; eauto).
    eexists. split; [reflexivity|].
    assert (Hnot : Do_returns c replies w (iter k) = false).
    { unfold Do_returns. rewrite Hi, Hr.
      destruct (0 <? Timeout c) eqn:Ht; [apply Z.ltb_lt in Ht; lia|].
      reflexivity. }
    rewrite Hnot, andb_true_r in Hwait.
    unfold before_first_reply, step_worker, http_NewRequest, goto.
    destruct Hpc as [Hpc|[Hpc|[Hpc|Hpc]]]; rewrite Hpc in *.
    + rewrite Hb. simpl. auto.
    + rewrite Hi. destruct (0 <? numRequest) eqn:H0;
        [|apply Z.ltb_ge in H0; lia].
      simpl. auto.
    + simpl. auto.
    + discriminate.
  - rewrite list_lookup_insert_ne by exact Hne. exact Hσ.
Qed.



(** ** LaunchTask: the runs without a single iteration *)

Section NoIteration.

Variable E : environ.
Variable numRequest : Z.
Variable t : task.

(** Either line 114 fails, or the share of each worker is empty. *)
Hypothesis no_work :
  request_ok E (t_method t) (t_url t) = false \/ numRequest <= 0.

Lemma step_worker_idle (w : nat) (s : stats) (q : list request)
    (k : worker) :
  idle_ok (request_ok E (t_method t) (t_url t)) k ->
  (step_worker E numRequest t w s q k).1 = (s, q)
  /\ idle_ok (request_ok E (t_method t) (t_url t))
       (step_worker E numRequest t w s q k).2.
Proof using no_work.
  destruct k as [p i r e d]. unfold idle_ok. simpl.
  destruct p; intros H; try contradiction;
    unfold step_worker, goto, next_iter; simpl.
  - (* line 114 *)
    unfold http_NewRequest.
    destruct (request_ok E (t_method t) (t_url t)); simpl; auto.
  - (* line 119: the test fails at once *)
    destruct H as [Hb ->]. rewrite Hb in no_work.
    destruct no_work as [Hno|Hno]; [discriminate|].
    destruct (0 <? numRequest) eqn:Hlt; [apply Z.ltb_lt in Hlt; lia|].
    simpl. auto.
  - auto.
Qed.

Lemma nothing_done_step (s0 : stats) (w : nat) (σ : state) :
  nothing_done E t s0 σ -> nothing_done E t s0 (step E numRequest t w σ).
Proof using no_work.
  intros (Hs & Hq & Hp).
  destruct (pool σ !! w) as [k|] eqn:Hw.
  - assert (Hk := Forall_lookup_1 _ _ _ _ Hp Hw). simpl in Hk.
    destruct (step_worker_idle w (shared σ) (wire σ) k Hk) as [H1 H2].
    rewrite (step_unfold _ _ _ w σ k Hw). rewrite H1. simpl.
    repeat split; try assumption.
    apply Forall_insert; assumption.
  - rewrite step_idle by assumption. repeat split; assumption.
Qed.

Lemma nothing_done_exec (s0 : stats) (sched : list nat) (σ : state) :
  nothing_done E t s0 σ -> nothing_done E t s0 (exec E numRequest t sched σ).
Proof using no_work.
  apply exec_invariant. intros w σ'. apply nothing_done_step.
Qed.

End NoIteration.

Lemma Run_state (E : environ) (b : bench) (sched : list nat) (σ : state) :
  Run E b sched = Returned σ \/ Run E b sched = Blocked σ ->
  concurrency b <> 0
  /\ σ = exec E (requests b / concurrency b) (mk_task E b) sched (launch E b).
Proof.
  unfold Run. destruct (concurrency b =? 0) eqn:Hc.
  - intros [H|H]; discriminate.
  - apply Z.eqb_neq in Hc. split; [exact Hc|].
    destruct (all_done _); destruct H as [H|H]; congruence.
Qed.

Lemma launch_nothing_done (E : environ) (b : bench) :
  nothing_done E (mk_task E b) (set_LaunchTime (time_Now E) (bstats b))
    (launch E b).
Proof.
  repeat split. simpl. apply Forall_replicate. exact I.
Qed.

(** X2. When [http.NewRequest] rejects the task, every worker returns at
    line 117 without a trace: at every moment of every run the statistics
    are those [Run] started with (only the launch time set) and nothing has
    been sent; the run still returns normally. *)
Theorem X2_unbuildable_request_leaves_no_trace
    (E : environ) (b : bench) (sched : list nat) (σ : state) :
  request_ok E (t_method (mk_task E b)) (t_url (mk_task E b)) = false ->
  Run E b sched = Returned σ \/ Run E b sched = Blocked σ ->
  shared σ = set_LaunchTime (time_Now E) (bstats b) /\ wire σ = [].
Proof.
  intros Hno HRun. apply Run_state in HRun. destruct HRun as [_ ->].
  destruct (nothing_done_exec E (requests b / concurrency b) (mk_task E b)
              (or_introl Hno) _ sched _ (launch_nothing_done E b))
    as (Hs & Hq & _).
  split; assumption.
Qed.

Lemma X2_witness_three_workers :
  exists σ,
    Run unbuildable (bench_of 9 3 "GET") (one_by_one 2 3) = Returned σ
    /\ shared σ = zero_stats /\ wire σ = [].
Proof.
  eexists. split; [vm_compute; reflexivity|].
  apply (X2_unbuildable_request_leaves_no_trace unbuildable
           (bench_of 9 3 "GET") (one_by_one 2 3) _ eq_refl).
  left. vm_compute. reflexivity.
Defined.

(** X3. With fewer requests than workers the share of every worker is
    [requests / concurrency = 0]: the run sends nothing and counts
    nothing, whatever the transport and the schedule. *)
Theorem X3_fewer_requests_than_workers_sends_nothing
    (E : environ) (b : bench) (sched : list nat) (σ : state) :
  0 <= requests b < concurrency b ->
  Run E b sched = Returned σ \/ Run E b sched = Blocked σ ->
  shared σ = set_LaunchTime (time_Now E) (bstats b) /\ wire σ = [].
Proof.
  intros Hn HRun. apply Run_state in HRun. destruct HRun as [_ ->].
  assert (Hz : requests b / concurrency b <= 0)
    by (rewrite Z.div_small by exact Hn; lia).
  destruct (nothing_done_exec E (requests b / concurrency b) (mk_task E b)
              (or_intror Hz) _ sched _ (launch_nothing_done E b))
    as (Hs & Hq & _).
  split; assumption.
Qed.

Lemma X3_witness_5_requests_10_workers :
  exists σ,
    Run always_ok (bench_of 5 10 "GET") (one_by_one 2 10) = Returned σ
    /\ shared σ = zero_stats /\ wire σ = [].
Proof.
  eexists. split; [vm_compute; reflexivity|].
  apply (X3_fewer_requests_than_workers_sends_nothing always_ok
           (bench_of 5 10 "GET") (one_by_one 2 10) _
           ltac:(simpl; lia)).
  left. vm_compute. reflexivity.
Defined.

(** ** LaunchTask: the wire and the total counter *)

Section WireCount.

Variable E : environ.
Variable numRequest : Z.
Variable t : task.
Hypothesis numRequest_nonneg : 0 <= numRequest.

Let built : bool := request_ok E (t_method t) (t_url t).

Lemma step_worker_sent (w : nat) (s : stats) (q : list request)
    (k : worker) :
  worker_ok built numRequest k ->
  ((step_worker E numRequest t w s q k).1.2 = q
   /\ sent_by (step_worker E numRequest t w s q k).2 = sent_by k)
  \/ (length (step_worker E numRequest t w s q k).1.2 = S (length q)
      /\ sent_by (step_worker E numRequest t w s q k).2 = sent_by k + 1).
Proof.
  destruct k as [p i r e d]. unfold worker_ok, sent_by. simpl.
  destruct p; intros H; unfold step_worker, goto, next_iter; simpl.
  - unfold http_NewRequest. subst i.
    destruct (request_ok E (t_method t) (t_url t)); simpl; left; auto.
  - destruct (i <? numRequest); simpl; left; auto.
  - left; auto.
  - (* line 122 *)
    destruct H as (_ & _ & [r0 ->]).
    destruct (client_Do E w i r0) as [code|e']; simpl.
    + right. rewrite length_app. simpl. split; [lia|].
      destruct (code =? StatusOK); simpl; lia.
    + right. rewrite length_app. simpl. split; [lia|lia].
  - left. split; [reflexivity|].
    destruct e as [e|]; [|reflexivity].
    destruct (error_eqb e ErrHandlerTimeout); reflexivity.
  - left; auto.
  - left; auto.
  - left; auto.
  - destruct (DelayMin s =? 0); simpl; left; auto.
  - destruct (d <? DelayMin s); simpl; left; auto.
  - left; auto.
  - destruct (DelayMax s <? d); simpl; left; split; auto; lia.
  - left. split; [reflexivity|lia].
  - left; auto.
Qed.

Lemma wire_counted_step (w : nat) (σ : state) :
  wire_counted E numRequest t σ ->
  wire_counted E numRequest t (step E numRequest t w σ).
Proof using numRequest_nonneg.
  intros [Hlen Hok]. split.
  - destruct (pool σ !! w) as [k|] eqn:Hw.
    + rewrite (step_unfold _ _ _ w σ k Hw). simpl.
      rewrite (sum_over_insert sent_by _ w k _ Hw).
      assert (Hk : worker_ok built numRequest k)
        by (eapply Forall_lookup_1; eassumption).
      destruct (step_worker_sent w (shared σ) (wire σ) k Hk)
        as [[H1 H2]|[H1 H2]]; rewrite H1, H2; lia.
    + rewrite step_idle by assumption. exact Hlen.
  - apply step_pool_Forall; [|exact Hok].
    intros k _ Hk. apply step_worker_ok; assumption.
Qed.

Lemma wire_counted_exec (sched : list nat) (σ : state) :
  wire_counted E numRequest t σ ->
  wire_counted E numRequest t (exec E numRequest t sched σ).
Proof using numRequest_nonneg.
  apply exec_invariant. intros w σ'. apply wire_counted_step.
Qed.

(** Line 121 runs before line 122 in every iteration: a worker has counted
    the request it is about to send, never more than that one. *)
Lemma sent_vs_attempted (l : list worker) :
  Forall (worker_ok built numRequest) l ->
  sum_over sent_by l <= sum_over attempted l
  /\ sum_over attempted l <= sum_over sent_by l + Z.of_nat (length l)
  /\ 0 <= sum_over attempted l <= Z.of_nat (length l) * numRequest
  /\ (Forall (fun k => pc k = AtExit) l ->
      sum_over sent_by l = sum_over attempted l).
Proof using numRequest_nonneg.
  induction 1 as [|k l Hk _ IH].
  - simpl. repeat split; try lia.
  - change (sum_over sent_by (k :: l))
      with (sent_by k + sum_over sent_by l).
    change (sum_over attempted (k :: l))
      with (attempted k + sum_over attempted l).
    simpl length.
    assert (Hloc : sent_by k <= attempted k <= sent_by k + 1
                   /\ 0 <= attempted k <= numRequest
                   /\ (pc k = AtExit -> sent_by k = attempted k)).
    { unfold worker_ok in Hk. unfold sent_by, attempted.
      destruct k as [p i r e d]. simpl in *.
      destruct p; simpl in *;
        repeat match goal with H : _ /\ _ |- _ => destruct H end;
        repeat split; try lia; try discriminate.
      all: unfold built in *;
        destruct (request_ok E (t_method t) (t_url t)); lia. }
    destruct IH as (I1 & I2 & I3 & I4).
    destruct Hloc as (L1 & L2 & L3).
    repeat split; try nia.
    intros Hall. inversion Hall; subst. rewrite L3, I4 by assumption.
    reflexivity.
Qed.

End WireCount.

(** X4. On a fresh bench whose plan [c * (n / c)] fits the 32-bit
    counter, at every moment of every run the total counter is between the
    number of requests handed to the transport and that number plus the
    number of workers (each worker counts a request just before sending
    it); once all workers have returned the two are equal. *)
Theorem X4_total_counter_brackets_the_requests_sent
    (E : environ) (b : bench) (sched : list nat) (σ : state) :
  0 <= requests b -> 0 < concurrency b ->
  bstats b = zero_stats ->
  concurrency b * (requests b / concurrency b) < 2 ^ 32 ->
  Run E b sched = Returned σ \/ Run E b sched = Blocked σ ->
  Z.of_nat (length (wire σ)) <= RequestsTotal (shared σ)
  /\ RequestsTotal (shared σ) <= Z.of_nat (length (wire σ)) + concurrency b
  /\ (all_done σ = true ->
      Z.of_nat (length (wire σ)) = RequestsTotal (shared σ)).
Proof.
  intros Hn Hc Hfresh Hfit HRun.
  apply Run_state in HRun. destruct HRun as [_ ->].
  set (n := requests b / concurrency b) in *.
  assert (Hnn : 0 <= n) by (apply Z.div_pos; lia).
  assert (HT : 0 <= RequestsTotal (bstats b) < 2 ^ 32)
    by (rewrite Hfresh; simpl; lia).
  pose proof (total_accounted_exec E n (mk_task E b) Hnn _ sched _
                (launch_accounted E b HT)) as [Htot Hok].
  assert (Hw0 : wire_counted E n (mk_task E b) (launch E b)).
  { split.
    - simpl. rewrite sum_over_replicate. unfold sent_by. simpl. lia.
    - simpl. apply Forall_replicate. reflexivity. }
  pose proof (wire_counted_exec E n (mk_task E b) Hnn sched _ Hw0)
    as [Hlen _].
  set (σ1 := exec E n (mk_task E b) sched (launch E b)) in *.
  destruct (sent_vs_attempted E n (mk_task E b) Hnn (pool σ1) Hok)
    as (S1 & S2 & S3 & S4).
  assert (Hsize : Z.of_nat (length (pool σ1)) = concurrency b).
  { unfold σ1. rewrite exec_length. simpl. rewrite length_replicate. lia. }
  rewrite Hsize in S2, S3.
  assert (Hexact : RequestsTotal (shared σ1) = sum_over attempted (pool σ1)).
  { rewrite Htot, Hfresh. simpl. unfold wrap32. apply Z.mod_small. lia. }
  rewrite Hexact, Hlen. repeat split; try lia.
  intros Hdone. apply all_done_Forall in Hdone. apply S4, Hdone.
Qed.

(** Two workers that have both counted their first request and sent
    nothing yet: the upper bound is reached. *)
Lemma X4_witness_mid_run :
  exists σ,
    Run always_ok (bench_of 4 2 "GET") [0; 0; 0; 1; 1; 1]%nat = Blocked σ
    /\ Z.of_nat (length (wire σ)) <= RequestsTotal (shared σ)
    /\ RequestsTotal (shared σ) <= Z.of_nat (length (wire σ)) + 2
    /\ RequestsTotal (shared σ) = 2.
Proof.
  eexists. split; [vm_compute; reflexivity|].
  destruct (X4_total_counter_brackets_the_requests_sent always_ok
              (bench_of 4 2 "GET") [0; 0; 0; 1; 1; 1]%nat _
              ltac:(simpl; lia) ltac:(simpl; lia) eq_refl
              ltac:(vm_compute; reflexivity)
              ltac:(right; vm_compute; reflexivity)) as (H1 & H2 & _).
  split; [exact H1|]. split; [exact H2|reflexivity].
Defined.

(** ** The fields no worker writes *)

Lemma step_worker_report_fields (E : environ) (numRequest : Z) (t : task)
    (w : nat) (s : stats) (q : list request) (k : worker) :
  report_fields (step_worker E numRequest t w s q k).1.1 = report_fields s.
Proof.
  destruct k as [p i r e d].
  destruct p; unfold step_worker, http_NewRequest, goto, next_iter; simpl;
    repeat case_match; reflexivity.
Qed.

Lemma exec_report_fields (E : environ) (numRequest : Z) (t : task)
    (sched : list nat) (σ : state) :
  report_fields (shared (exec E numRequest t sched σ))
  = report_fields (shared σ).
Proof.
  apply (exec_invariant E numRequest t
           (fun σ' => report_fields (shared σ') = report_fields (shared σ)));
    [|reflexivity].
  intros w σ' Hσ'.
  destruct (pool σ' !! w) as [k|] eqn:Hw.
  - rewrite (step_unfold _ _ _ w σ' k Hw). simpl.
    rewrite step_worker_report_fields. exact Hσ'.
  - rewrite step_idle by assumption. exact Hσ'.
Qed.

Lemma exec_RequestsPerSecond (E : environ) (numRequest : Z) (t : task)
    (sched : list nat) (σ : state) :
  RequestsPerSecond (shared (exec E numRequest t sched σ))
  = RequestsPerSecond (shared σ).
Proof.
  exact (f_equal (fun x => x.1.2)
           (exec_report_fields E numRequest t sched σ)).
Qed.

Lemma ParseArgs_bstats (E : environ) (f : flags) (b0 : bench) :
  bstats (ParseArgs E f b0).1 = bstats b0.
Proof.
  unfold ParseArgs.
  destruct (method_allowed (flag_m f)); [|reflexivity].
  destruct (url_ParseRequestURI E (flag_h f)); reflexivity.
Qed.

(** X5. The workers write the four counters and the two extrema only:
    during a run the launch time, the runtime, the average and
    [RequestsPerSecond] keep the values [Run] started with. The field
    [RequestsPerSecond] is written by no function at all: [PrintResult]
    prints a local quotient, and however [main] ends the field is 0. *)
Theorem X5_RequestsPerSecond_is_never_stored
    (E : environ) (f : flags) (b : bench) (sched : list nat) (now : Z) :
  RequestsPerSecond (bstats (final (main E f sched now))) = 0
  /\ RequestsPerSecond (bstats (PrintResult now b).1)
     = RequestsPerSecond (bstats b)
  /\ report_fields
       (shared (exec E (requests b / concurrency b) (mk_task E b) sched
                  (launch E b)))
     = (time_Now E, Runtime (bstats b), RequestsPerSecond (bstats b),
        DelayAvg (bstats b)).
Proof.
  split; [|split].
  - unfold main.
    pose proof (ParseArgs_bstats E f NewBench) as Hst.
    destruct (ParseArgs E f NewBench) as [b1 [e|]]; simpl in Hst.
    + simpl. rewrite Hst. reflexivity.
    + destruct (Run E b1 sched) as [|σ|σ] eqn:HRun.
      * simpl. rewrite Hst. reflexivity.
      * simpl.
        destruct (Run_state E b1 sched σ (or_intror HRun)) as [_ ->].
        rewrite exec_RequestsPerSecond. simpl. rewrite Hst. reflexivity.
      * simpl.
        destruct (Run_state E b1 sched σ (or_introl HRun)) as [_ ->].
        rewrite exec_RequestsPerSecond. simpl. rewrite Hst. reflexivity.
  - reflexivity.
  - rewrite exec_report_fields. reflexivity.
Qed.

(** ** LaunchTask: what the classification counters hold *)

Lemma count_below_next (p : Z -> bool) (i : Z) :
  0 <= i ->
  count_below p (Z.to_nat (i + 1))
  = count_below p (Z.to_nat i) + (if p i then 1 else 0).
Proof.
  intros Hi. replace (Z.to_nat (i + 1)) with (S (Z.to_nat i)) by lia.
  simpl. rewrite Z2Nat.id by lia. reflexivity.
Qed.

Lemma count_below_bounds (p : Z -> bool) (n : nat) :
  0 <= count_below p n <= Z.of_nat n.
Proof.
  induction n as [|n IH]; simpl count_below; [lia|].
  destruct (p (Z.of_nat n)); lia.
Qed.

Lemma count_below_le (p q : Z -> bool) (n : nat) :
  (forall j, p j = true -> q j = true) ->
  count_below p n <= count_below q n.
Proof.
  intros Hpq. induction n as [|n IH]; simpl; [lia|].
  destruct (p (Z.of_nat n)) eqn:Hp.
  - rewrite (Hpq _ Hp). lia.
  - destruct (q (Z.of_nat n)); lia.
Qed.

Lemma count_below_disjoint (p q : Z -> bool) (n : nat) :
  (forall j, p j = true -> q j = false) ->
  count_below p n + count_below q n <= Z.of_nat n.
Proof.
  intros Hpq. induction n as [|n IH]; simpl count_below; [lia|].
  destruct (p (Z.of_nat n)) eqn:Hp.
  - rewrite (Hpq _ Hp). lia.
  - destruct (q (Z.of_nat n)); lia.
Qed.

Lemma count_below_partition (p q : Z -> bool) (n : nat) :
  (forall j, p j = negb (q j)) ->
  count_below p n + count_below q n = Z.of_nat n.
Proof.
  intros Hpq. induction n as [|n IH]; simpl count_below; [lia|].
  rewrite (Hpq (Z.of_nat n)). destruct (q (Z.of_nat n)); simpl; lia.
Qed.

Lemma count_below_all (p : Z -> bool) (n : nat) :
  (forall j, p j = true) -> count_below p n = Z.of_nat n.
Proof.
  intros Hp. induction n as [|n IH]; simpl count_below; [lia|].
  rewrite Hp. lia.
Qed.

Lemma count_below_none (p : Z -> bool) (n : nat) :
  (forall j, p j = false) -> count_below p n = 0.
Proof.
  intros Hp. induction n as [|n IH]; simpl count_below; [lia|].
  rewrite Hp. lia.
Qed.

Lemma isum_insert (f : nat -> worker -> Z) (l : list worker) :
  forall (base w : nat) (k k' : worker),
  l !! w = Some k ->
  isum f base (<[w := k']> l)
  = isum f base l - f (base + w)%nat k + f (base + w)%nat k'.
Proof.
  induction l as [|x l IH]; intros base w k k' Hw.
  - discriminate.
  - destruct w as [|w]; simpl in *.
    + inversion Hw; subst. rewrite Nat.add_0_r. lia.
    + rewrite (IH (S base) w k k' Hw).
      replace (S base + w)%nat with (base + S w)%nat by lia. lia.
Qed.

Lemma isum_le (f g : nat -> worker -> Z) (l : list worker) :
  forall base : nat,
  (forall w k, l !! w = Some k ->
     f (base + w)%nat k <= g (base + w)%nat k) ->
  isum f base l <= isum g base l.
Proof.
  induction l as [|x l IH]; intros base H; simpl; [lia|].
  pose proof (H 0%nat x eq_refl) as H0. rewrite Nat.add_0_r in H0.
  assert (isum f (S base) l <= isum g (S base) l).
  { apply IH. intros w k Hw.
    replace (S base + w)%nat with (base + S w)%nat by lia.
    apply H. exact Hw. }
  lia.
Qed.

Lemma isum_nonneg (f : nat -> worker -> Z) (l : list worker) :
  forall base : nat,
  (forall w k, l !! w = Some k -> 0 <= f (base + w)%nat k) ->
  0 <= isum f base l.
Proof.
  induction l as [|x l IH]; intros base H; simpl; [lia|].
  pose proof (H 0%nat x eq_refl) as H0. rewrite Nat.add_0_r in H0.
  assert (0 <= isum f (S base) l).
  { apply IH. intros w k Hw.
    replace (S base + w)%nat with (base + S w)%nat by lia.
    apply H. exact Hw. }
  lia.
Qed.

Lemma isum_add (f g : nat -> worker -> Z) (l : list worker) :
  forall base : nat,
  isum (fun w k => f w k + g w k) base l = isum f base l + isum g base l.
Proof.
  induction l as [|x l IH]; intros base; simpl; [lia|].
  rewrite IH. lia.
Qed.

Lemma isum_sum_over (f : worker -> Z) (l : list worker) (base : nat) :
  isum (fun _ k => f k) base l = sum_over f l.
Proof.
  revert base. induction l as [|x l IH]; intros base; simpl; [lia|].
  rewrite IH. reflexivity.
Qed.

Lemma isum_sum_from (f : nat -> worker -> Z) (g : nat -> Z)
    (l : list worker) :
  forall base : nat,
  (forall w k, l !! w = Some k -> f (base + w)%nat k = g (base + w)%nat) ->
  isum f base l = sum_from g base (length l).
Proof.
  induction l as [|x l IH]; intros base H; simpl; [reflexivity|].
  pose proof (H 0%nat x eq_refl) as H0. rewrite Nat.add_0_r in H0.
  rewrite H0. f_equal. apply IH. intros w k Hw.
  replace (S base + w)%nat with (base + S w)%nat by lia.
  apply H. exact Hw.
Qed.

Section Classification.

Variable E : environ.
Variable numRequest : Z.
Variable t : task.
Hypothesis numRequest_nonneg : 0 <= numRequest.

Let built : bool := request_ok E (t_method t) (t_url t).

Lemma is_ok_not_fail (o : outcome) : is_ok o = true -> is_fail o = false.
Proof. destruct o; simpl; congruence. Qed.

Lemma is_ok_not_sentinel (o : outcome) :
  is_ok o = true -> is_sentinel o = false.
Proof. destruct o; simpl; congruence. Qed.

Lemma is_sentinel_fail (o : outcome) :
  is_sentinel o = true -> is_fail o = true.
Proof. destruct o; simpl; congruence. Qed.

Lemma is_sentinel_not_ok (o : outcome) :
  is_sentinel o = true -> is_ok o = false.
Proof. destruct o; simpl; congruence. Qed.

Ltac same_count :=
  left; split; [reflexivity|]; unfold counted; simpl; try reflexivity.

Ltac one_more :=
  right; split; [reflexivity|]; unfold counted; simpl.

(** One step of a worker moves each classification counter together with
    its bookkeeping, and keeps the locals in line with the transport. *)
Lemma step_worker_counters (w : nat) (s : stats) (q : list request)
    (k : worker) :
  worker_ok built numRequest k ->
  worker_sound E t w k ->
  worker_sound E t w (step_worker E numRequest t w s q k).2
  /\ bump RequestsSuccess (counted is_ok past_class E t w) s
       (step_worker E numRequest t w s q k).1.1 k
       (step_worker E numRequest t w s q k).2
  /\ bump RequestsFail (counted is_fail past_fail E t w) s
       (step_worker E numRequest t w s q k).1.1 k
       (step_worker E numRequest t w s q k).2
  /\ bump RequestsTimeout (counted is_sentinel past_class E t w) s
       (step_worker E numRequest t w s q k).1.1 k
       (step_worker E numRequest t w s q k).2.
Proof.
  destruct k as [p i r e d]. unfold worker_ok, worker_sound, bump. simpl.
  destruct p; intros Hok Hs; unfold step_worker, goto, next_iter; simpl.
  - (* 114 *)
    subst i. unfold http_NewRequest.
    destruct (request_ok E (t_method t) (t_url t)); simpl;
      (split; [try reflexivity; exact I|]); repeat split; same_count.
  - (* 119 *)
    destruct (i <? numRequest); simpl;
      (split; [try assumption; exact I|]); repeat split; same_count.
  - (* 121 *)
    split; [assumption|]. repeat split; same_count.
  - (* 122 *)
    subst r. fold (outcome_of E t w i).
    destruct (outcome_of E t w i) as [code|e'] eqn:HDo; simpl.
    + destruct (code =? StatusOK) eqn:Hcode; simpl.
      * split; [split; [reflexivity|]; rewrite HDo; exact Hcode|].
        repeat split; same_count.
      * split; [reflexivity|].
        repeat split; same_count; rewrite HDo; simpl; rewrite ?Hcode;
          reflexivity.
    + split; [split; [reflexivity|]; eauto|].
      repeat split; same_count.
  - (* 125, 127 *)
    destruct Hs as (Hr & e0 & -> & HDo).
    destruct (error_eqb e0 ErrHandlerTimeout) eqn:He; simpl.
    + split; [split; [assumption|]; rewrite HDo; exact He|].
      split; [same_count|]. split; [|same_count].
      one_more. rewrite HDo. simpl. lia.
    + split; [assumption|].
      split; [same_count; rewrite HDo; reflexivity|].
      split; [|same_count; rewrite HDo; simpl; rewrite He; reflexivity].
      one_more. rewrite HDo. simpl. lia.
  - (* 128 *)
    destruct Hs as [Hr Hsen]. split; [assumption|].
    split; [same_count; rewrite (is_sentinel_not_ok _ Hsen); reflexivity|].
    split; [same_count|].
    one_more. rewrite Hsen. simpl. lia.
  - (* 131 *)
    destruct Hs as [Hr Hsuc]. split; [assumption|].
    split; [one_more; rewrite Hsuc; simpl; lia|].
    split; [same_count; rewrite (is_ok_not_fail _ Hsuc); reflexivity|].
    same_count. rewrite (is_ok_not_sentinel _ Hsuc). reflexivity.
  - (* 133 *)
    split; [assumption|]. repeat split; same_count.
  - (* 135 *)
    destruct (DelayMin s =? 0); simpl; (split; [assumption|]);
      repeat split; same_count.
  - destruct (d <? DelayMin s); simpl; (split; [assumption|]);
      repeat split; same_count.
  - (* 136 *)
    split; [assumption|]. repeat split; same_count.
  - (* 138 and the end of the loop body *)
    destruct Hok as (_ & [Hi _] & _).
    destruct (DelayMax s <? d); simpl; (split; [assumption|]).
    + repeat split; same_count.
    + repeat split; same_count; rewrite count_below_next by exact Hi; lia.
  - (* 139 and the end of the loop body *)
    destruct Hok as (_ & [Hi _] & _).
    split; [assumption|].
    repeat split; same_count; rewrite count_below_next by exact Hi; lia.
  - (* returned *)
    split; [exact I|]. repeat split; same_count.
Qed.

Lemma bump_wrap (get : stats -> Z) (cnt : nat -> worker -> Z) (C0 : Z)
    (l : list worker) (w : nat) (s s' : stats) (k k' : worker) :
  l !! w = Some k ->
  get s = wrap32 (C0 + isum cnt 0 l) ->
  bump get (cnt w) s s' k k' ->
  get s' = wrap32 (C0 + isum cnt 0 (<[w := k']> l)).
Proof.
  intros Hw Hget Hb. rewrite (isum_insert cnt l 0 w k k' Hw). simpl.
  destruct Hb as [[H1 H2]|[H1 H2]]; rewrite H1, H2, Hget.
  - f_equal. lia.
  - unfold AddUint32, wrap32. rewrite Zplus_mod_idemp_l. f_equal. lia.
Qed.

Lemma counters_accounted_step (S0 F0 T0 : Z) (w : nat) (σ : state) :
  counters_accounted E numRequest t S0 F0 T0 σ ->
  counters_accounted E numRequest t S0 F0 T0 (step E numRequest t w σ).
Proof using numRequest_nonneg.
  intros (HS & HF & HT & Hp).
  destruct (pool σ !! w) as [k|] eqn:Hw.
  - destruct (Hp w k Hw) as [Hok Hsound].
    destruct (step_worker_counters w (shared σ) (wire σ) k Hok Hsound)
      as (Hsound' & BS & BF & BT).
    rewrite (step_unfold _ _ _ w σ k Hw). simpl.
    split; [eapply bump_wrap; eassumption|].
    split; [eapply bump_wrap; eassumption|].
    split; [eapply bump_wrap; eassumption|].
    intros j x Hj. simpl in Hj.
    destruct (decide (w = j)) as [<-|Hne].
    + rewrite list_lookup_insert_eq in Hj
        by (apply lookup_lt_is_Some; eauto).
      inversion Hj; subst x. split; [|exact Hsound'].
      apply step_worker_ok; assumption.
    + rewrite list_lookup_insert_ne in Hj by exact Hne. apply Hp, Hj.
  - rewrite step_idle by assumption.
    exact (conj HS (conj HF (conj HT Hp))).
Qed.

Lemma counters_accounted_exec (S0 F0 T0 : Z) (sched : list nat)
    (σ : state) :
  counters_accounted E numRequest t S0 F0 T0 σ ->
  counters_accounted E numRequest t S0 F0 T0 (exec E numRequest t sched σ).
Proof using numRequest_nonneg.
  apply exec_invariant. intros w σ'. apply counters_accounted_step.
Qed.

(** Once a worker has returned, its bookkeeping is the number of its
    iterations with the outcome in question. *)
Lemma counted_at_exit (p : outcome -> bool) (past : label -> bool)
    (w : nat) (k : worker) :
  past AtExit = false ->
  worker_ok built numRequest k -> pc k = AtExit ->
  counted p past E t w k
  = count_below (fun j => p (outcome_of E t w j))
      (Z.to_nat (if built then numRequest else 0)).
Proof.
  unfold worker_ok, counted. intros Hpast Hok Hpc. rewrite Hpc in *.
  rewrite Hok, Hpast. simpl. lia.
Qed.

Lemma counters_at_completion (S0 F0 T0 : Z) (σ : state) :
  counters_accounted E numRequest t S0 F0 T0 σ ->
  all_done σ = true ->
  RequestsSuccess (shared σ)
  = wrap32 (S0 + answered is_ok E t (length (pool σ))
                   (Z.to_nat (if built then numRequest else 0)))
  /\ RequestsFail (shared σ)
     = wrap32 (F0 + answered is_fail E t (length (pool σ))
                      (Z.to_nat (if built then numRequest else 0)))
  /\ RequestsTimeout (shared σ)
     = wrap32 (T0 + answered is_sentinel E t (length (pool σ))
                      (Z.to_nat (if built then numRequest else 0))).
Proof.
  intros (HS & HF & HT & Hp) Hdone.
  apply all_done_Forall in Hdone.
  assert (Hexit : forall w k, pool σ !! w = Some k -> pc k = AtExit)
    by (intros w k Hw; eapply (Forall_lookup_1 _ _ _ _ Hdone); eassumption).
  assert (Hcnt : forall (p : outcome -> bool) (past : label -> bool),
             past AtExit = false ->
             isum (counted p past E t) 0 (pool σ)
             = answered p E t (length (pool σ))
                 (Z.to_nat (if built then numRequest else 0))).
  { intros p past Hpast. unfold answered. apply isum_sum_from.
    intros w k Hw. simpl. apply counted_at_exit.
    - exact Hpast.
    - apply (Hp w k Hw).
    - apply (Hexit w k Hw). }
  rewrite HS, HF, HT, !Hcnt by reflexivity.
  repeat split.
Qed.

End Classification.

Lemma launch_counters_accounted (E : environ) (b : bench) :
  bstats b = zero_stats ->
  counters_accounted E (requests b / concurrency b) (mk_task E b) 0 0 0
    (launch E b).
Proof.
  intros Hfresh.
  assert (Hz : forall (p : outcome -> bool) (past : label -> bool),
             past AtNewRequest = false ->
             forall (c base : nat),
             isum (counted p past E (mk_task E b)) base (replicate c spawn)
             = 0).
  { intros p past Hpast c. induction c as [|c IH]; intros base;
      [reflexivity|].
    change (replicate (S c) spawn) with (spawn :: replicate c spawn).
    simpl isum. rewrite IH. unfold counted. simpl. rewrite Hpast.
    reflexivity. }
  unfold counters_accounted. simpl. rewrite !Hz, Hfresh by reflexivity.
  split; [reflexivity|]. split; [reflexivity|]. split; [reflexivity|].
  intros w k Hw. apply lookup_replicate in Hw as [-> _].
  split; [reflexivity|exact I].
Qed.

Lemma sum_from_add (g h : nat -> Z) (m : nat) :
  forall base : nat,
  sum_from (fun w => g w + h w) base m
  = sum_from g base m + sum_from h base m.
Proof.
  induction m as [|m IH]; intros base; simpl; [reflexivity|].
  rewrite IH. lia.
Qed.

Lemma sum_from_const (g : nat -> Z) (v : Z) (m : nat) :
  (forall w, g w = v) ->
  forall base : nat, sum_from g base m = Z.of_nat m * v.
Proof.
  intros Hg. induction m as [|m IH]; intros base; simpl sum_from; [lia|].
  rewrite IH, Hg. lia.
Qed.

Lemma sum_from_nonneg (g : nat -> Z) (m : nat) :
  (forall w, 0 <= g w) -> forall base : nat, 0 <= sum_from g base m.
Proof.
  intros Hg. induction m as [|m IH]; intros base; simpl; [lia|].
  specialize (IH (S base)). specialize (Hg base). lia.
Qed.

Lemma answered_nonneg (p : outcome -> bool) (E : environ) (t : task)
    (c n : nat) :
  0 <= answered p E t c n.
Proof.
  unfold answered. apply sum_from_nonneg. intros w.
  apply count_below_bounds.
Qed.

(** The counters of a run that has returned, whatever the schedule was. *)
Lemma Run_counters (E : environ) (b : bench) (sched : list nat)
    (σ : state) :
  0 <= requests b -> 0 < concurrency b ->
  bstats b = zero_stats ->
  Run E b sched = Returned σ ->
  RequestsSuccess (shared σ)
  = wrap32 (answered is_ok E (mk_task E b) (Z.to_nat (concurrency b))
              (Z.to_nat
                 (if request_ok E (t_method (mk_task E b))
                       (t_url (mk_task E b))
                  then requests b / concurrency b else 0)))
  /\ RequestsFail (shared σ)
     = wrap32 (answered is_fail E (mk_task E b) (Z.to_nat (concurrency b))
                 (Z.to_nat
                    (if request_ok E (t_method (mk_task E b))
                          (t_url (mk_task E b))
                     then requests b / concurrency b else 0)))
  /\ RequestsTimeout (shared σ)
     = wrap32 (answered is_sentinel E (mk_task E b)
                 (Z.to_nat (concurrency b))
                 (Z.to_nat
                    (if request_ok E (t_method (mk_task E b))
                          (t_url (mk_task E b))
                     then requests b / concurrency b else 0))).
Proof.
  intros Hn Hc Hfresh HRun.
  rewrite Run_unfold in HRun by lia. simpl in HRun.
  destruct (all_done _) eqn:Hdone in HRun; [|discriminate].
  inversion HRun; subst σ; clear HRun.
  assert (Hnn : 0 <= requests b / concurrency b) by (apply Z.div_pos; lia).
  pose proof (counters_accounted_exec E _ (mk_task E b) Hnn 0 0 0 sched _
                (launch_counters_accounted E b Hfresh)) as Hacc.
  pose proof (counters_at_completion E _ (mk_task E b) 0 0 0 _ Hacc Hdone)
    as H.
  rewrite exec_length in H. simpl in H. rewrite length_replicate in H.
  exact H.
Qed.

(** X6. When the request can be built, a run that returns leaves in
    [RequestsSuccess] the number of planned requests that were answered
    200, in [RequestsFail] the number that ended in a transport error and
    in [RequestsTimeout] the number whose error is the very value
    [http.ErrHandlerTimeout], each modulo 2^32 and whatever the
    interleaving of the workers. *)
Theorem X6_classification_counters_count_the_outcomes
    (E : environ) (b : bench) (sched : list nat) (σ : state) :
  0 <= requests b -> 0 < concurrency b ->
  bstats b = zero_stats ->
  request_ok E (t_method (mk_task E b)) (t_url (mk_task E b)) = true ->
  Run E b sched = Returned σ ->
  RequestsSuccess (shared σ)
  = answered is_ok E (mk_task E b) (Z.to_nat (concurrency b))
      (Z.to_nat (requests b / concurrency b)) mod 2 ^ 32
  /\ RequestsFail (shared σ)
     = answered is_fail E (mk_task E b) (Z.to_nat (concurrency b))
         (Z.to_nat (requests b / concurrency b)) mod 2 ^ 32
  /\ RequestsTimeout (shared σ)
     = answered is_sentinel E (mk_task E b) (Z.to_nat (concurrency b))
         (Z.to_nat (requests b / concurrency b)) mod 2 ^ 32.
Proof.
  intros Hn Hc Hfresh Hbuilt HRun.
  pose proof (Run_counters E b sched σ Hn Hc Hfresh HRun) as H.
  rewrite Hbuilt in H. exact H.
Qed.

(** X7. The four counters of a completed run do not depend on the
    interleaving: two schedules under which the same bench returns, against
    the same transport, end with the same total, success, failure and
    timeout counts. *)
Theorem X7_counters_do_not_depend_on_the_schedule
    (E : environ) (b : bench) (sched1 sched2 : list nat) (σ1 σ2 : state) :
  0 <= requests b -> 0 < concurrency b ->
  bstats b = zero_stats ->
  Run E b sched1 = Returned σ1 ->
  Run E b sched2 = Returned σ2 ->
  RequestsTotal (shared σ1) = RequestsTotal (shared σ2)
  /\ RequestsSuccess (shared σ1) = RequestsSuccess (shared σ2)
  /\ RequestsFail (shared σ1) = RequestsFail (shared σ2)
  /\ RequestsTimeout (shared σ1) = RequestsTimeout (shared σ2).
Proof.
  intros Hn Hc Hfresh H1 H2.
  assert (HT : 0 <= RequestsTotal (bstats b) < 2 ^ 32)
    by (rewrite Hfresh; simpl; lia).
  destruct (Run_returned E b sched1 σ1 Hn Hc HT H1) as (_ & _ & T1).
  destruct (Run_returned E b sched2 σ2 Hn Hc HT H2) as (_ & _ & T2).
  destruct (Run_counters E b sched1 σ1 Hn Hc Hfresh H1) as (S1 & F1 & O1).
  destruct (Run_counters E b sched2 σ2 Hn Hc Hfresh H2) as (S2 & F2 & O2).
  repeat split; congruence.
Qed.

Lemma X6_witness_mixed_outcomes :
  exists σ,
    Run mixed (bench_of 6 2 "GET") (round_robin 40 2) = Returned σ
    /\ RequestsSuccess (shared σ) = 2
    /\ RequestsFail (shared σ) = 2
    /\ RequestsTimeout (shared σ) = 0.
Proof.
  eexists. split; [vm_compute; reflexivity|].
  destruct (X6_classification_counters_count_the_outcomes mixed
              (bench_of 6 2 "GET") (round_robin 40 2) _
              ltac:(simpl; lia) ltac:(simpl; lia) eq_refl eq_refl
              ltac:(vm_compute; reflexivity)) as (H1 & H2 & H3).
  split; [exact H1|]. split; [exact H2|exact H3].
Defined.

Lemma X7_witness_two_schedules :
  exists σ1 σ2,
    Run mixed (bench_of 6 2 "GET") (one_by_one 38 2) = Returned σ1
    /\ Run mixed (bench_of 6 2 "GET") (round_robin 40 2) = Returned σ2
    /\ RequestsTotal (shared σ1) = RequestsTotal (shared σ2)
    /\ RequestsSuccess (shared σ1) = RequestsSuccess (shared σ2)
    /\ RequestsFail (shared σ1) = RequestsFail (shared σ2)
    /\ RequestsTimeout (shared σ1) = RequestsTimeout (shared σ2).
Proof.
  eexists. eexists.
  split; [vm_compute; reflexivity|]. split; [vm_compute; reflexivity|].
  apply (X7_counters_do_not_depend_on_the_schedule mixed
           (bench_of 6 2 "GET") (one_by_one 38 2) (round_robin 40 2) _ _
           ltac:(simpl; lia) ltac:(simpl; lia) eq_refl);
    vm_compute; reflexivity.
Defined.

(** The increments of one worker, compared: a timeout is counted after the
    failure it belongs to, and a request is classified after it has been
    counted in the total. *)
Lemma worker_counts_ordered (E : environ) (numRequest : Z) (t : task)
    (w : nat) (k : worker) :
  0 <= numRequest ->
  worker_ok (request_ok E (t_method t) (t_url t)) numRequest k ->
  0 <= counted is_ok past_class E t w k
  /\ 0 <= counted is_sentinel past_class E t w k
  /\ counted is_sentinel past_class E t w k
     <= counted is_fail past_fail E t w k
  /\ counted is_ok past_class E t w k + counted is_fail past_fail E t w k
     <= attempted k.
Proof.
  intros Hn Hok. unfold counted, attempted.
  assert (Hi : 0 <= iter k).
  { unfold worker_ok in Hok. destruct (pc k); try lia.
    destruct (request_ok E (t_method t) (t_url t)); lia. }
  pose proof (count_below_bounds
                (fun j => is_ok (outcome_of E t w j)) (Z.to_nat (iter k))).
  pose proof (count_below_bounds
                (fun j => is_sentinel (outcome_of E t w j))
                (Z.to_nat (iter k))).
  pose proof (count_below_le
                (fun j => is_sentinel (outcome_of E t w j))
                (fun j => is_fail (outcome_of E t w j))
                (Z.to_nat (iter k))
                (fun j => is_sentinel_fail _)).
  pose proof (count_below_disjoint
                (fun j => is_ok (outcome_of E t w j))
                (fun j => is_fail (outcome_of E t w j))
                (Z.to_nat (iter k))
                (fun j => is_ok_not_fail _)).
  rewrite Z2Nat.id in * by exact Hi.
  destruct (outcome_of E t w (iter k)) as [code|e]; simpl;
    [destruct (code =? StatusOK)|destruct (error_eqb e ErrHandlerTimeout)];
    destruct (pc k); simpl; lia.
Qed.

(** X8. On a fresh bench whose plan fits the 32-bit counters, in every
    state that a run reaches, under every interleaving, the timeouts
    counted do not exceed the failures counted, the successes and failures
    together do not exceed the total, and the total does not exceed the
    plan. This orders the four counters as they stand together at one
    moment; the loads of [PrintResult] are not part of it. *)
Theorem X8_timeout_le_fail_and_classified_le_total
    (E : environ) (b : bench) (sched : list nat) (σ : state) :
  0 <= requests b -> 0 < concurrency b ->
  bstats b = zero_stats ->
  concurrency b * (requests b / concurrency b) < 2 ^ 32 ->
  Run E b sched = Returned σ \/ Run E b sched = Blocked σ ->
  0 <= RequestsTimeout (shared σ) <= RequestsFail (shared σ)
  /\ 0 <= RequestsSuccess (shared σ)
  /\ RequestsSuccess (shared σ) + RequestsFail (shared σ)
     <= RequestsTotal (shared σ)
  /\ RequestsTotal (shared σ)
     <= concurrency b * (requests b / concurrency b).
Proof.
  intros Hn Hc Hfresh Hfit HRun.
  apply Run_state in HRun. destruct HRun as [_ ->].
  set (n := requests b / concurrency b) in *.
  set (t := mk_task E b).
  assert (Hnn : 0 <= n) by (apply Z.div_pos; lia).
  assert (HT : 0 <= RequestsTotal (bstats b) < 2 ^ 32)
    by (rewrite Hfresh; simpl; lia).
  pose proof (total_accounted_exec E n t Hnn _ sched _
                (launch_accounted E b HT)) as [Htot Hok].
  pose proof (counters_accounted_exec E n t Hnn 0 0 0 sched _
                (launch_counters_accounted E b Hfresh))
    as (HS & HF & HO & Hp).
  set (σ1 := exec E n t sched (launch E b)) in *.
  destruct (sent_vs_attempted E n t Hnn (pool σ1) Hok) as (_ & _ & A3 & _).
  assert (Hsize : Z.of_nat (length (pool σ1)) = concurrency b).
  { unfold σ1. rewrite exec_length. simpl. rewrite length_replicate. lia. }
  rewrite Hsize in A3.
  assert (Hloc : forall w k, pool σ1 !! w = Some k ->
            0 <= counted is_ok past_class E t w k
            /\ 0 <= counted is_sentinel past_class E t w k
            /\ counted is_sentinel past_class E t w k
               <= counted is_fail past_fail E t w k
            /\ counted is_ok past_class E t w k
               + counted is_fail past_fail E t w k <= attempted k).
  { intros w k Hw. apply worker_counts_ordered with (numRequest := n);
      [exact Hnn|]. apply (Hp w k Hw). }
  assert (B1 : 0 <= isum (counted is_ok past_class E t) 0 (pool σ1))
    by (apply isum_nonneg; intros w k Hw; apply (Hloc w k Hw)).
  assert (B2 : 0 <= isum (counted is_sentinel past_class E t) 0 (pool σ1))
    by (apply isum_nonneg; intros w k Hw; apply (Hloc w k Hw)).
  assert (B3 : isum (counted is_sentinel past_class E t) 0 (pool σ1)
               <= isum (counted is_fail past_fail E t) 0 (pool σ1))
    by (apply isum_le; intros w k Hw; apply (Hloc w k Hw)).
  assert (B4 : isum (counted is_ok past_class E t) 0 (pool σ1)
               + isum (counted is_fail past_fail E t) 0 (pool σ1)
               <= sum_over attempted (pool σ1)).
  { rewrite <- isum_add, <- (isum_sum_over attempted (pool σ1) 0).
    apply isum_le. intros w k Hw. apply (Hloc w k Hw). }
  rewrite Htot, HS, HF, HO, Hfresh. simpl. unfold wrap32.
  rewrite !Z.mod_small by lia. lia.
Qed.

(** A state in the middle of the run against the mixed transport. *)
Lemma X8_witness_mid_run :
  exists σ,
    Run mixed (bench_of 6 2 "GET") (round_robin 17 2) = Blocked σ
    /\ RequestsTimeout (shared σ) <= RequestsFail (shared σ)
    /\ RequestsSuccess (shared σ) + RequestsFail (shared σ)
       <= RequestsTotal (shared σ).
Proof.
  eexists. split; [vm_compute; reflexivity|].
  destruct (X8_timeout_le_fail_and_classified_le_total mixed
              (bench_of 6 2 "GET") (round_robin 17 2) _
              ltac:(simpl; lia) ltac:(simpl; lia) eq_refl
              ltac:(vm_compute; reflexivity)
              ltac:(right; vm_compute; reflexivity))
    as ([_ H1] & _ & H2 & _).
  split; [exact H1|exact H2].
Defined.

Lemma answered_partition (E : environ) (t : task) (c n : nat) :
  (forall w j r code, client_Do E w j r = Resp code -> code = StatusOK) ->
  answered is_ok E t c n + answered is_fail E t c n
  = Z.of_nat c * Z.of_nat n.
Proof.
  intros Hok. unfold answered. rewrite <- sum_from_add.
  apply sum_from_const. intros w. apply count_below_partition.
  intros j. unfold outcome_of.
  destruct (client_Do E w j (built_request t)) as [code|e] eqn:HDo; simpl.
  - rewrite (Hok _ _ _ _ HDo). reflexivity.
  - reflexivity.
Qed.

(** X9. Against a transport that answers 200 or fails, and never answers
    another status, a run whose plan fits the 32-bit counters returns with
    [total = success + fail], under every interleaving. *)
Theorem X9_total_is_success_plus_fail_without_other_statuses
    (E : environ) (b : bench) (sched : list nat) (σ : state) :
  0 <= requests b -> 0 < concurrency b ->
  bstats b = zero_stats ->
  concurrency b * (requests b / concurrency b) < 2 ^ 32 ->
  (forall w j r code, client_Do E w j r = Resp code -> code = StatusOK) ->
  Run E b sched = Returned σ ->
  RequestsTotal (shared σ)
  = RequestsSuccess (shared σ) + RequestsFail (shared σ).
Proof.
  intros Hn Hc Hfresh Hfit Hok HRun.
  assert (HT : 0 <= RequestsTotal (bstats b) < 2 ^ 32)
    by (rewrite Hfresh; simpl; lia).
  destruct (Run_returned E b sched σ Hn Hc HT HRun) as (_ & _ & Htot).
  destruct (Run_counters E b sched σ Hn Hc Hfresh HRun) as (HS & HF & _).
  assert (Hnn : 0 <= requests b / concurrency b) by (apply Z.div_pos; lia).
  set (m := if request_ok E (t_method (mk_task E b)) (t_url (mk_task E b))
            then requests b / concurrency b else 0) in *.
  assert (Hm : 0 <= m <= requests b / concurrency b)
    by (unfold m; destruct (request_ok _ _ _); lia).
  pose proof (answered_partition E (mk_task E b)
                (Z.to_nat (concurrency b)) (Z.to_nat m) Hok) as Hsum.
  pose proof (answered_nonneg is_ok E (mk_task E b)
                (Z.to_nat (concurrency b)) (Z.to_nat m)).
  pose proof (answered_nonneg is_fail E (mk_task E b)
                (Z.to_nat (concurrency b)) (Z.to_nat m)).
  rewrite !Z2Nat.id in Hsum by lia.
  assert (concurrency b * m <= concurrency b * (requests b / concurrency b))
    by (apply Z.mul_le_mono_nonneg_l; lia).
  rewrite Htot, HS, HF, Hfresh. simpl. unfold wrap32.
  rewrite !Z.mod_small by lia. lia.
Qed.

Lemma X9_witness_sentinel_errors :
  exists σ,
    Run sentinel_errors (bench_of 6 2 "GET") (round_robin 40 2) = Returned σ
    /\ RequestsTotal (shared σ)
       = RequestsSuccess (shared σ) + RequestsFail (shared σ)
    /\ RequestsTotal (shared σ) = 6
    /\ RequestsFail (shared σ) = 4.
Proof.
  eexists. split; [vm_compute; reflexivity|].
  split; [|split; reflexivity].
  apply (X9_total_is_success_plus_fail_without_other_statuses
           sentinel_errors (bench_of 6 2 "GET") (round_robin 40 2) _
           ltac:(simpl; lia) ltac:(simpl; lia) eq_refl
           ltac:(vm_compute; reflexivity)).
  - intros w j r code. simpl.
    destruct (Z.even j); intros H; inversion H; reflexivity.
  - vm_compute; reflexivity.
Defined.

(** ** main: ParseArgs, Run and PrintResult together *)

Lemma ParseArgs_success (E : environ) (f : flags) (b0 : bench) (u : string) :
  method_allowed (flag_m f) = true ->
  url_ParseRequestURI E (flag_h f) = Some u ->
  exists b,
    ParseArgs E f b0 = (b, None)
    /\ requests b = flag_n f /\ concurrency b = flag_c f
    /\ timeout b = flag_t f /\ method b = flag_m f /\ host b = u
    /\ params b = match url_ParseQuery E (flag_p f) with
                  | (p, None) => p
                  | (_, Some _) => params b0
                  end
    /\ data b = data b0 /\ bstats b = bstats b0.
Proof.
  intros Hm Hu. unfold ParseArgs. rewrite Hm, Hu.
  eexists. split; [reflexivity|]. simpl. repeat split.
Qed.

(** X10. End to end: for a command line that [ParseArgs] accepts, with a
    positive concurrency and a plan that fits the 32-bit counters, against
    a transport that answers every request with 200, whenever [main] gets
    to print its report, under whatever interleaving, the report shows
    [c * (n / c)] requests in total, all of them successes, no failure, no
    timeout, the configured concurrency and the time since the launch. *)
Theorem X10_report_of_main_against_a_transport_that_always_answers_200
    (E : environ) (f : flags) (u : string) (sched : list nat) (now : Z)
    (r : report) :
  flag_m f ∈ allow_list ->
  url_ParseRequestURI E (flag_h f) = Some u ->
  0 <= flag_n f -> 0 < flag_c f ->
  flag_c f * (flag_n f / flag_c f) < 2 ^ 32 ->
  (forall m url, request_ok E m url = true) ->
  (forall w j q, client_Do E w j q = Resp StatusOK) ->
  status (main E f sched now) = Finished r ->
  rep_Total r = flag_c f * (flag_n f / flag_c f)
  /\ rep_Success r = flag_c f * (flag_n f / flag_c f)
  /\ rep_Fail r = 0
  /\ rep_Timeout r = 0
  /\ rep_Concurrency r = flag_c f
  /\ rep_Runtime r = int64_sub now (time_Now E).
Proof.
  intros Hm Hu Hn Hc Hfit Hbuild HDo Hstatus.
  apply method_allowed_spec in Hm.
  destruct (ParseArgs_success E f NewBench u Hm Hu)
    as (b & HP & Hreq & Hcon & _ & _ & _ & _ & _ & Hst).
  unfold main in Hstatus. rewrite HP in Hstatus.
  destruct (Run E b sched) as [|σ|σ] eqn:HRun; try discriminate.
  simpl in Hstatus. inversion Hstatus; subst r; clear Hstatus. simpl.
  rewrite <- Hreq, <- Hcon in *. simpl in Hst.
  assert (HT : 0 <= RequestsTotal (bstats b) < 2 ^ 32)
    by (rewrite Hst; simpl; lia).
  destruct (Run_returned E b sched σ Hn Hc HT HRun) as (_ & _ & Htot).
  destruct (Run_counters E b sched σ Hn Hc Hst HRun) as (HS & HF & HO).
  destruct (Run_state E b sched σ (or_introl HRun)) as [_ Hσ].
  assert (HL : LaunchTime (shared σ) = time_Now E).
  { rewrite Hσ.
    exact (f_equal (fun x => x.1.1.1)
             (exec_report_fields E _ (mk_task E b) sched (launch E b))). }
  rewrite Hbuild in Htot, HS, HF, HO.
  assert (Hnn : 0 <= requests b / concurrency b) by (apply Z.div_pos; lia).
  assert (Hall : answered is_ok E (mk_task E b) (Z.to_nat (concurrency b))
                   (Z.to_nat (requests b / concurrency b))
                 = concurrency b * (requests b / concurrency b)).
  { unfold answered.
    rewrite (sum_from_const _ (requests b / concurrency b)).
    - lia.
    - intros w. rewrite count_below_all; [lia|].
      intros j. unfold outcome_of. rewrite HDo. reflexivity. }
  assert (Hnone : forall p : outcome -> bool, p (Resp StatusOK) = false ->
            answered p E (mk_task E b) (Z.to_nat (concurrency b))
              (Z.to_nat (requests b / concurrency b)) = 0).
  { intros p Hp. unfold answered. rewrite (sum_from_const _ 0).
    - lia.
    - intros w. apply count_below_none.
      intros j. unfold outcome_of. rewrite HDo. exact Hp. }
  rewrite Hall in HS. rewrite Hnone in HF, HO by reflexivity.
  rewrite Htot, HS, HF, HO, HL, Hst. simpl. unfold wrap32.
  rewrite !Z.mod_small by lia. repeat split.
Qed.

Lemma X10_witness_100_by_10 :
  exists r,
    status (main always_ok
              {| flag_n := 100; flag_c := 10; flag_t := 100;
                 flag_h := "http://t"; flag_m := "GET"; flag_p := "" |}
              (round_robin 130 10) 7)
    = Finished r
    /\ rep_Total r = 100 /\ rep_Success r = 100
    /\ rep_Fail r = 0 /\ rep_Timeout r = 0.
Proof.
  eexists. split; [vm_compute; reflexivity|].
  destruct (X10_report_of_main_against_a_transport_that_always_answers_200
              always_ok
              {| flag_n := 100; flag_c := 10; flag_t := 100;
                 flag_h := "http://t"; flag_m := "GET"; flag_p := "" |}
              "http://t" (round_robin 130 10) 7 _
              ltac:(apply method_allowed_spec; reflexivity)
              eq_refl ltac:(simpl; lia) ltac:(simpl; lia)
              ltac:(vm_compute; reflexivity)
              ltac:(reflexivity) ltac:(reflexivity)
              ltac:(vm_compute; reflexivity))
    as (H1 & H2 & H3 & H4 & _).
  repeat split; assumption.
Defined.

(** ** LaunchTask: the extrema recorded by a single worker *)

Lemma update_extrema_min (d : Z) (s : stats) :
  DelayMin (update_extrema d s) = min_updated d s.
Proof.
  unfold update_extrema, min_updated.
  destruct ((DelayMin s =? 0) || (d <? DelayMin s)); simpl;
    destruct (_ <? d); reflexivity.
Qed.

Lemma update_extrema_max (d : Z) (s : stats) :
  DelayMax (update_extrema d s) = if DelayMax s <? d then d else DelayMax s.
Proof.
  unfold update_extrema.
  destruct ((DelayMin s =? 0) || (d <? DelayMin s)); simpl;
    destruct (DelayMax s <? d); reflexivity.
Qed.

Lemma extrema_after_S (E : environ) (w : nat) (s0 : stats) (n : nat) :
  extrema_after E w s0 (S n)
  = update_extrema (time_Since E w (Z.of_nat n)) (extrema_after E w s0 n).
Proof.
  unfold extrema_after, latencies.
  rewrite seq_S, map_app, fold_left_app. reflexivity.
Qed.

Lemma extrema_after_next (E : environ) (w : nat) (s0 : stats) (i : Z) :
  0 <= i ->
  extrema_after E w s0 (Z.to_nat (i + 1))
  = update_extrema (time_Since E w i) (extrema_after E w s0 (Z.to_nat i)).
Proof.
  intros Hi. replace (Z.to_nat (i + 1)) with (S (Z.to_nat i)) by lia.
  rewrite extrema_after_S, Z2Nat.id by lia. reflexivity.
Qed.

Lemma step_worker_extrema_trace (E : environ) (numRequest : Z) (t : task)
    (s0 s : stats) (q : list request) (k : worker) :
  extrema_trace E s0 s k ->
  extrema_trace E s0 (step_worker E numRequest t 0 s q k).1.1
                     (step_worker E numRequest t 0 s q k).2.
Proof.
  destruct k as [p i r e d]. unfold extrema_trace. simpl.
  destruct p; intros [Hi H]; unfold step_worker, goto, next_iter; simpl.
  - (* 114 *)
    destruct H as (-> & Hmin & Hmax). unfold http_NewRequest.
    destruct (request_ok E (t_method t) (t_url t)); simpl;
      (split; [lia|]); split; assumption.
  - destruct (i <? numRequest); simpl; (split; [lia|]); assumption.
  - split; [lia|]. assumption.
  - destruct r as [r|]; simpl; [|split; [lia|assumption]].
    destruct (client_Do E 0 i r) as [code|e']; simpl.
    + destruct (code =? StatusOK); simpl; (split; [lia|]); assumption.
    + split; [lia|]. assumption.
  - destruct e as [e|]; [|split; [simpl; lia|assumption]].
    destruct (error_eqb e ErrHandlerTimeout); simpl;
      (split; [lia|]); assumption.
  - split; [lia|]. assumption.
  - split; [lia|]. assumption.
  - (* 133 *)
    split; [lia|]. split; [reflexivity|]. assumption.
  - (* 135, first operand *)
    destruct H as (Hd & Hmin & Hmax).
    destruct (DelayMin s =? 0) eqn:H0; simpl; (split; [lia|]);
      repeat split; try assumption; rewrite H0; reflexivity.
  - (* 135, second operand *)
    destruct H as (Hd & Hmin & Hmax & H0).
    destruct (d <? DelayMin s) eqn:H1; simpl; (split; [lia|]).
    + repeat split; try assumption. rewrite H0, H1. reflexivity.
    + repeat split; try assumption.
      unfold min_updated. rewrite <- Hmin, H0, H1. reflexivity.
  - (* 136 *)
    destruct H as (Hd & Hmin & Hmax & Hc).
    split; [lia|]. repeat split; try assumption.
    unfold min_updated. rewrite <- Hmin, Hc. reflexivity.
  - (* 138 *)
    destruct H as (Hd & Hmin & Hmax).
    destruct (DelayMax s <? d) eqn:H2; simpl; (split; [lia|]).
    + repeat split; assumption.
    + rewrite extrema_after_next by lia.
      rewrite update_extrema_min, update_extrema_max.
      rewrite <- Hd, <- Hmax, H2. split; [assumption|reflexivity].
  - (* 139 *)
    destruct H as (Hd & Hmin & Hmax & H2).
    split; [lia|].
    rewrite extrema_after_next by lia.
    rewrite update_extrema_min, update_extrema_max.
    rewrite <- Hd, <- Hmax, H2. split; [assumption|reflexivity].
  - split; [lia|]. assumption.
Qed.

Lemma single_worker_trace_step (E : environ) (numRequest : Z) (t : task)
    (s0 : stats) (w : nat) (σ : state) :
  (exists k, pool σ = [k] /\ extrema_trace E s0 (shared σ) k) ->
  exists k, pool (step E numRequest t w σ) = [k]
            /\ extrema_trace E s0 (shared (step E numRequest t w σ)) k.
Proof.
  intros (k & Hpool & Hk).
  destruct w as [|w].
  - rewrite (step_unfold E numRequest t 0 σ k) by (rewrite Hpool; reflexivity).
    simpl. rewrite Hpool. eexists. split; [reflexivity|].
    apply step_worker_extrema_trace, Hk.
  - rewrite step_idle by (rewrite Hpool; reflexivity).
    exists k. split; assumption.
Qed.

(** With one worker the recorded extrema are those of the uninterrupted
    updates, one per iteration. *)
Lemma single_worker_extrema (E : environ) (b : bench) (sched : list nat)
    (σ : state) :
  concurrency b = 1 -> 0 <= requests b ->
  request_ok E (t_method (mk_task E b)) (t_url (mk_task E b)) = true ->
  Run E b sched = Returned σ ->
  DelayMin (shared σ)
  = DelayMin (extrema_after E 0 (bstats b) (Z.to_nat (requests b)))
  /\ DelayMax (shared σ)
     = DelayMax (extrema_after E 0 (bstats b) (Z.to_nat (requests b))).
Proof.
  intros Hc Hn Hbuilt HRun.
  assert (Hiter : Forall (fun k => iter k = requests b) (pool σ)).
  { assert (HR := HRun). unfold Run in HR. rewrite Hc in HR. simpl in HR.
    destruct (all_done _) eqn:Hdone in HR; [|discriminate].
    inversion HR; subst σ; clear HR.
    assert (Hnn : 0 <= requests b / 1) by (rewrite Z.div_1_r; exact Hn).
    assert (Hok : Forall (worker_ok
                            (request_ok E (t_method (mk_task E b))
                               (t_url (mk_task E b)))
                            (requests b / 1))
                    (pool (exec E (requests b / 1) (mk_task E b) sched
                             (launch E b)))).
    { apply (exec_invariant E (requests b / 1) (mk_task E b)
               (fun σ' => Forall (worker_ok _ (requests b / 1)) (pool σ'))).
      - intros w σ' Hσ'. apply step_pool_Forall; [|exact Hσ'].
        intros k _ Hk. apply step_worker_ok; assumption.
      - simpl. apply Forall_replicate. reflexivity. }
    apply all_done_Forall in Hdone.
    rewrite Forall_forall in *. intros k Hk.
    specialize (Hok k Hk). specialize (Hdone k Hk).
    unfold worker_ok in Hok. rewrite Hdone, Hbuilt, Z.div_1_r in Hok.
    exact Hok. }
  destruct (Run_state E b sched σ (or_introl HRun)) as [_ Hσ].
  rewrite Hc in Hσ.
  assert (H0 : exists k, pool (launch E b) = [k]
                 /\ extrema_trace E (bstats b) (shared (launch E b)) k).
  { exists spawn. unfold launch. rewrite Hc.
    split; [reflexivity|]. unfold extrema_trace. simpl. repeat split; lia. }
  apply (exec_invariant E (requests b / 1) (mk_task E b) _
           (fun w σ' => single_worker_trace_step E _ _ (bstats b) w σ')
           sched) in H0.
  rewrite <- Hσ in H0. destruct H0 as (k & Hpool & Hi & Hk).
  assert (Hdone : all_done σ = true).
  { unfold Run in HRun. destruct (concurrency b =? 0); [discriminate|].
    destruct (all_done _) eqn:Hd in HRun; [|discriminate].
    inversion HRun; subst. exact Hd. }
  apply all_done_Forall in Hdone. rewrite Hpool in Hdone, Hiter.
  inversion Hdone as [|? ? Hpc _]; subst.
  inversion Hiter as [|? ? Hit _]; subst.
  rewrite Hpc in Hk. rewrite Hit in Hk. exact Hk.
Qed.

(** From fresh statistics, uninterrupted updates with positive latencies
    keep the least and the greatest latency seen. *)
Lemma extrema_after_positive (E : environ) (s0 : stats) (N : nat) :
  DelayMin s0 = 0 -> DelayMax s0 = 0 ->
  (forall j, (j < N)%nat -> 0 < time_Since E 0 (Z.of_nat j)) ->
  forall n, (n < N)%nat ->
    0 < DelayMin (extrema_after E 0 s0 (S n))
    /\ (exists j, (j <= n)%nat
          /\ DelayMin (extrema_after E 0 s0 (S n))
             = time_Since E 0 (Z.of_nat j))
    /\ (exists j, (j <= n)%nat
          /\ DelayMax (extrema_after E 0 s0 (S n))
             = time_Since E 0 (Z.of_nat j))
    /\ forall j, (j <= n)%nat ->
         DelayMin (extrema_after E 0 s0 (S n))
         <= time_Since E 0 (Z.of_nat j)
         <= DelayMax (extrema_after E 0 s0 (S n)).
Proof.
  intros Hmin0 Hmax0 Hpos n. induction n as [|n IH]; intros Hn.
  - rewrite extrema_after_S, update_extrema_min, update_extrema_max.
    unfold min_updated. change (extrema_after E 0 s0 0) with s0.
    rewrite Hmin0, Hmax0. simpl orb.
    pose proof (Hpos 0%nat Hn) as H0.
    destruct (0 <? time_Since E 0 (Z.of_nat 0)) eqn:Hlt;
      [|apply Z.ltb_ge in Hlt; lia].
    split; [exact H0|].
    split; [exists 0%nat; split; [lia|reflexivity]|].
    split; [exists 0%nat; split; [lia|reflexivity]|].
    intros j Hj. replace j with 0%nat by lia. lia.
  - destruct IH as (Hp & (jm & Hjm & Hm) & (jM & HjM & HM) & Hall); [lia|].
    rewrite extrema_after_S, update_extrema_min, update_extrema_max.
    unfold min_updated.
    set (X := extrema_after E 0 s0 (S n)) in *.
    set (d := time_Since E 0 (Z.of_nat (S n))).
    pose proof (Hpos (S n) Hn) as Hd. fold d in Hd.
    destruct (DelayMin X =? 0) eqn:H0; [apply Z.eqb_eq in H0; lia|].
    simpl orb.
    assert (Hord : DelayMin X <= DelayMax X).
    { specialize (Hall 0%nat ltac:(lia)). lia. }
    destruct (d <? DelayMin X) eqn:H1; destruct (DelayMax X <? d) eqn:H2;
      repeat match goal with
             | H : (_ <? _) = true |- _ => apply Z.ltb_lt in H
             | H : (_ <? _) = false |- _ => apply Z.ltb_ge in H
             end; try lia.
    + split; [lia|].
      split; [exists (S n); split; [lia|reflexivity]|].
      split; [exists jM; split; [lia|exact HM]|].
      intros j Hj. destruct (decide (j = S n)) as [->|Hne]; [fold d; lia|].
      specialize (Hall j ltac:(lia)). lia.
    + split; [lia|].
      split; [exists jm; split; [lia|exact Hm]|].
      split; [exists (S n); split; [lia|reflexivity]|].
      intros j Hj. destruct (decide (j = S n)) as [->|Hne]; [fold d; lia|].
      specialize (Hall j ltac:(lia)). lia.
    + split; [lia|].
      split; [exists jm; split; [lia|exact Hm]|].
      split; [exists jM; split; [lia|exact HM]|].
      intros j Hj. destruct (decide (j = S n)) as [->|Hne]; [fold d; lia|].
      specialize (Hall j ltac:(lia)). lia.
Qed.

(** X11. With a single worker, fresh statistics and latencies that are
    all positive, a run of at least one request returns with [DelayMin] the
    least and [DelayMax] the greatest of the latencies measured: each is
    one of them, and every latency lies between the two. *)
Theorem X11_single_worker_records_least_and_greatest_latency
    (E : environ) (b : bench) (sched : list nat) (σ : state) :
  concurrency b = 1 -> 0 < requests b ->
  bstats b = zero_stats ->
  request_ok E (t_method (mk_task E b)) (t_url (mk_task E b)) = true ->
  (forall j, 0 <= j < requests b -> 0 < time_Since E 0 j) ->
  Run E b sched = Returned σ ->
  (exists j, 0 <= j < requests b /\ DelayMin (shared σ) = time_Since E 0 j)
  /\ (exists j, 0 <= j < requests b
                /\ DelayMax (shared σ) = time_Since E 0 j)
  /\ forall j, 0 <= j < requests b ->
       DelayMin (shared σ) <= time_Since E 0 j <= DelayMax (shared σ).
Proof.
  intros Hc Hn Hfresh Hbuilt Hpos HRun.
  destruct (single_worker_extrema E b sched σ Hc ltac:(lia) Hbuilt HRun)
    as [Hmin Hmax].
  rewrite Hmin, Hmax.
  assert (HN : Z.to_nat (requests b) = S (Z.to_nat (requests b - 1)))
    by lia.
  rewrite HN.
  destruct (extrema_after_positive E (bstats b) (Z.to_nat (requests b)))
    with (n := Z.to_nat (requests b - 1))
    as (_ & (jm & Hjm & Hm) & (jM & HjM & HM) & Hall).
  - rewrite Hfresh. reflexivity.
  - rewrite Hfresh. reflexivity.
  - intros j Hj. apply Hpos. lia.
  - lia.
  - split; [exists (Z.of_nat jm); split; [lia|exact Hm]|].
    split; [exists (Z.of_nat jM); split; [lia|exact HM]|].
    intros j Hj. specialize (Hall (Z.to_nat j) ltac:(lia)).
    rewrite Z2Nat.id in Hall by lia. exact Hall.
Qed.

Lemma X11_witness_three_requests :
  exists σ,
    Run mixed (bench_of 3 1 "GET") (one_by_one 38 1) = Returned σ
    /\ DelayMin (shared σ) = 5 /\ DelayMax (shared σ) = 7
    /\ forall j, 0 <= j < 3 ->
         DelayMin (shared σ) <= time_Since mixed 0 j <= DelayMax (shared σ).
Proof.
  eexists. split; [vm_compute; reflexivity|].
  split; [reflexivity|]. split; [reflexivity|].
  apply (X11_single_worker_records_least_and_greatest_latency mixed
           (bench_of 3 1 "GET") (one_by_one 38 1) _ eq_refl
           ltac:(simpl; lia) eq_refl eq_refl).
  - intros j Hj. simpl. lia.
  - vm_compute; reflexivity.
Defined.

Lemma extrema_after_min_nonneg (E : environ) (s0 : stats) (N : nat) :
  DelayMin s0 = 0 ->
  (forall j, (j < N)%nat -> 0 <= time_Since E 0 (Z.of_nat j)) ->
  forall n, (n <= N)%nat -> 0 <= DelayMin (extrema_after E 0 s0 n).
Proof.
  intros Hmin0 Hpos n. induction n as [|n IH]; intros Hn.
  - change (extrema_after E 0 s0 0) with s0. lia.
  - rewrite extrema_after_S, update_extrema_min. unfold min_updated.
    specialize (IH ltac:(lia)). specialize (Hpos n ltac:(lia)).
    destruct (_ || _); lia.
Qed.

(** X12. Zero is both a possible latency and the mark of an unset
    minimum (line 135): with a single worker and fresh statistics, if the
    last request but one is measured at 0 ns, the minimum recorded at the
    end is the latency of the last request, whatever was measured
    before. *)
Theorem X12_a_zero_latency_is_forgotten_by_the_minimum
    (E : environ) (b : bench) (sched : list nat) (σ : state) :
  concurrency b = 1 -> 2 <= requests b ->
  bstats b = zero_stats ->
  request_ok E (t_method (mk_task E b)) (t_url (mk_task E b)) = true ->
  (forall j, 0 <= j < requests b -> 0 <= time_Since E 0 j) ->
  time_Since E 0 (requests b - 2) = 0 ->
  Run E b sched = Returned σ ->
  DelayMin (shared σ) = time_Since E 0 (requests b - 1).
Proof.
  intros Hc Hn Hfresh Hbuilt Hpos Hzero HRun.
  destruct (single_worker_extrema E b sched σ Hc ltac:(lia) Hbuilt HRun)
    as [Hmin _].
  rewrite Hmin.
  replace (requests b) with ((requests b - 2) + 1 + 1) at 1 by lia.
  rewrite !extrema_after_next by lia.
  rewrite !update_extrema_min.
  replace (requests b - 2 + 1) with (requests b - 1) by lia.
  rewrite Hzero.
  pose proof (extrema_after_min_nonneg E (bstats b)
                (Z.to_nat (requests b))
                ltac:(rewrite Hfresh; reflexivity)
                ltac:(intros j Hj; apply Hpos; lia)
                (Z.to_nat (requests b - 2)) ltac:(lia)) as Hnn.
  set (X := extrema_after E 0 (bstats b) (Z.to_nat (requests b - 2))) in *.
  assert (H0 : min_updated 0 X = 0).
  { unfold min_updated.
    destruct (DelayMin X =? 0) eqn:Hz; simpl; [reflexivity|].
    destruct (0 <? DelayMin X) eqn:Hl; [reflexivity|].
    apply Z.eqb_neq in Hz. apply Z.ltb_ge in Hl. lia. }
  unfold min_updated at 1. rewrite update_extrema_min, H0. reflexivity.
Qed.

Lemma X12_witness_4_0_9 :
  exists σ,
    Run zero_latency (bench_of 3 1 "GET") (one_by_one 38 1) = Returned σ
    /\ DelayMin (shared σ) = 9.
Proof.
  eexists. split; [vm_compute; reflexivity|].
  apply (X12_a_zero_latency_is_forgotten_by_the_minimum zero_latency
           (bench_of 3 1 "GET") (one_by_one 38 1) _ eq_refl
           ltac:(simpl; lia) eq_refl eq_refl).
  - intros j Hj. simpl. destruct (j =? 0); [lia|]. destruct (j =? 1); lia.
  - reflexivity.
  - vm_compute; reflexivity.
Defined.

(** X13. Every request [main] sends goes to the URL made of the host as
    [url.ParseRequestURI] prints it, a question mark, and the encoded
    query parameters, those of [-p] when [url.ParseQuery] accepts it and
    none otherwise; the same URL for every worker and every iteration. *)
Theorem X13_every_request_of_main_goes_to_the_parsed_host_and_query
    (E : environ) (f : flags) (sched : list nat) (now : Z) :
  Forall
    (fun r =>
       exists u,
         url_ParseRequestURI E (flag_h f) = Some u
         /\ req_url r
            = (u ++ "?"
                 ++ Values_Encode E
                      match url_ParseQuery E (flag_p f) with
                      | (p, None) => p
                      | (_, Some _) => []
                      end)%string)
    (sent (main E f sched now)).
Proof.
  unfold main.
  destruct (method_allowed (flag_m f)) eqn:Hm.
  - destruct (url_ParseRequestURI E (flag_h f)) as [u|] eqn:Hu.
    + destruct (ParseArgs_success E f NewBench u Hm Hu)
        as (b & HP & _ & _ & _ & _ & Hhost & Hparams & _).
      rewrite HP.
      assert (Hwire : forall σ,
                Run E b sched = Returned σ \/ Run E b sched = Blocked σ ->
                Forall (fun r => exists u0, Some u = Some u0
                          /\ req_url r
                             = (u0 ++ "?"
                                  ++ Values_Encode E
                                       match url_ParseQuery E (flag_p f) with
                                       | (p, None) => p
                                       | (_, Some _) => []
                                       end)%string) (wire σ)).
      { intros σ Hσ. destruct (Run_state E b sched σ Hσ) as [_ ->].
        destruct (wire_ignores_method_and_body E b sched) as [_ Hall].
        eapply Forall_impl; [exact Hall|]. simpl.
        intros r (_ & _ & Hurl). exists u. split; [reflexivity|].
        rewrite Hurl, Hhost, Hparams. reflexivity. }
      destruct (Run E b sched) as [|σ|σ] eqn:HRun; simpl.
      * constructor.
      * apply Hwire. right. reflexivity.
      * apply Hwire. left. reflexivity.
    + unfold ParseArgs. rewrite Hm, Hu. simpl. constructor.
  - unfold ParseArgs. rewrite Hm. simpl. constructor.
Qed.

(** ** ParseArgs: the client timeout *)

Lemma wrap_int64_range (x : Z) : - 2 ^ 63 <= wrap_int64 x < 2 ^ 63.
Proof.
  unfold wrap_int64.
  pose proof (Z.mod_pos_bound (x + 2 ^ 63) (2 ^ 64) ltac:(lia)). lia.
Qed.

Lemma wrap_int64_small (x : Z) :
  - 2 ^ 63 <= x < 2 ^ 63 -> wrap_int64 x = x.
Proof.
  intros Hx. unfold wrap_int64. rewrite Z.mod_small by lia. lia.
Qed.

(** X14. When [ParseArgs] succeeds, the timeout it gives the HTTP client,
    [time.Millisecond * time.Duration(b.timeout)], is the requested number
    of milliseconds exactly when [-t] is at most 9223372036854; for every
    larger value the 64-bit product has wrapped around. *)
Theorem X14_client_timeout_is_exact_up_to_9223372036854_ms
    (E : environ) (f : flags) (b0 b : bench) :
  ParseArgs E f b0 = (b, None) ->
  0 <= flag_t f < 2 ^ 64 ->
  - 2 ^ 63 <= Timeout (bclient b) < 2 ^ 63
  /\ (Timeout (bclient b) = flag_t f * Millisecond
      <-> flag_t f <= 9223372036854).
Proof.
  intros HP Ht. unfold ParseArgs in HP.
  destruct (method_allowed (flag_m f)); [|discriminate].
  destruct (url_ParseRequestURI E (flag_h f)); [|discriminate].
  inversion HP; subst b; clear HP. simpl.
  unfold int64_mul, Millisecond.
  split; [apply wrap_int64_range|]. split.
  - intros Heq.
    pose proof (wrap_int64_range (1000000 * wrap_int64 (flag_t f))). lia.
  - intros Hle. rewrite (wrap_int64_small (flag_t f)) by lia.
    rewrite wrap_int64_small by lia. lia.
Qed.

Lemma X14_witness_default_timeout :
  exists b,
    ParseArgs always_ok
      {| flag_n := 1000; flag_c := 1; flag_t := 100;
         flag_h := "http://t"; flag_m := "GET"; flag_p := "" |} NewBench
    = (b, None)
    /\ Timeout (bclient b) = 100 * Millisecond.
Proof.
  eexists. split; [reflexivity|].
  apply (X14_client_timeout_is_exact_up_to_9223372036854_ms always_ok
           {| flag_n := 1000; flag_c := 1; flag_t := 100;
              flag_h := "http://t"; flag_m := "GET"; flag_p := "" |}
           NewBench _ eq_refl ltac:(simpl; lia)).
  simpl. lia.
Defined.

(** ** PrintResult: where the reported average lies *)

(** X15. For extrema in order, [0 <= DelayMin <= DelayMax], the average
    [PrintResult] stores and prints is [(DelayMax - DelayMin) / 2]; it is
    below the minimum it is printed next to exactly when
    [DelayMax < 3 * DelayMin], and it is 0 when the two extrema differ by
    at most 1 ns, as after a single request. *)
Theorem X15_reported_average_is_below_the_minimum_iff_max_lt_3_min
    (now : Z) (b : bench) :
  0 <= DelayMin (bstats b) ->
  DelayMin (bstats b) <= DelayMax (bstats b) ->
  DelayMax (bstats b) < 2 ^ 63 ->
  rep_DelayAvg (PrintResult now b).2
  = (DelayMax (bstats b) - DelayMin (bstats b)) / 2
  /\ DelayAvg (bstats (PrintResult now b).1)
     = rep_DelayAvg (PrintResult now b).2
  /\ (rep_DelayAvg (PrintResult now b).2 < rep_DelayMin (PrintResult now b).2
      <-> DelayMax (bstats b) < 3 * DelayMin (bstats b))
  /\ (rep_DelayAvg (PrintResult now b).2 = 0
      <-> DelayMax (bstats b) - DelayMin (bstats b) <= 1).
Proof.
  intros Hmin Hord Hmax. simpl.
  unfold int64_div, int64_sub.
  rewrite (wrap_int64_small (DelayMax (bstats b) - DelayMin (bstats b)))
    by lia.
  rewrite Z.quot_div_nonneg by lia.
  pose proof (Z.div_pos (DelayMax (bstats b) - DelayMin (bstats b)) 2
                ltac:(lia) ltac:(lia)).
  pose proof (Z.div_le_upper_bound
                (DelayMax (bstats b) - DelayMin (bstats b)) 2
                (DelayMax (bstats b)) ltac:(lia) ltac:(lia)).
  rewrite wrap_int64_small by lia.
  pose proof (Z.div_mod (DelayMax (bstats b) - DelayMin (bstats b)) 2
                ltac:(lia)).
  pose proof (Z.mod_pos_bound (DelayMax (bstats b) - DelayMin (bstats b)) 2
                ltac:(lia)).
  repeat split; lia.
Qed.

Lemma X15_witness_single_request :
  rep_DelayAvg
    (PrintResult 9
       (with_stats (set_DelayMax 5 (set_DelayMin 5 zero_stats)) NewBench)).2
  = 0.
Proof.
  apply (X15_reported_average_is_below_the_minimum_iff_max_lt_3_min 9
           (with_stats (set_DelayMax 5 (set_DelayMin 5 zero_stats)) NewBench)
           ltac:(simpl; lia) ltac:(simpl; lia) ltac:(simpl; lia)).
  simpl. lia.
Defined.

(** ** LaunchTask: the extrema under every interleaving *)

Section Measured.

Variable E : environ.
Variable numRequest : Z.
Variable t : task.
Hypothesis numRequest_nonneg : 0 <= numRequest.
Hypothesis latency_positive : forall w j, 0 < time_Since E w j.

Let built : bool := request_ok E (t_method t) (t_url t).

(** What one step does to the extrema and to what the worker knows. *)
Lemma step_worker_measured (w : nat) (s : stats) (q : list request)
    (k : worker) :
  worker_ok built numRequest k ->
  (in_update (pc k) = true -> delay k = time_Since E w (iter k)) ->
  (in_update (pc (step_worker E numRequest t w s q k).2) = true ->
   delay (step_worker E numRequest t w s q k).2
   = time_Since E w (iter (step_worker E numRequest t w s q k).2))
  /\ (DelayMin (step_worker E numRequest t w s q k).1.1 = DelayMin s
      \/ (DelayMin (step_worker E numRequest t w s q k).1.1
          = time_Since E w (iter k) /\ 0 <= iter k < numRequest))
  /\ (DelayMax (step_worker E numRequest t w s q k).1.1 = DelayMax s
      \/ (DelayMax (step_worker E numRequest t w s q k).1.1
          = time_Since E w (iter k) /\ 0 <= iter k < numRequest))
  /\ (min_stored (step_worker E numRequest t w s q k).2 = true ->
      min_stored k = true
      \/ DelayMin (step_worker E numRequest t w s q k).1.1 <> 0)
  /\ ((0 <? iter (step_worker E numRequest t w s q k).2) = true ->
      (0 <? iter k) = true
      \/ DelayMax (step_worker E numRequest t w s q k).1.1 <> 0).
Proof using latency_positive.
  destruct k as [p i r e d]. unfold worker_ok, min_stored. simpl.
  pose proof (latency_positive w i) as Hpos.
  destruct p; intros Hok Hd;
    unfold step_worker, http_NewRequest, goto, next_iter; simpl;
    try (specialize (Hd eq_refl); subst d);
    repeat case_match; simpl in *; subst;
    repeat match goal with
           | H : (_ <? _) = true |- _ => apply Z.ltb_lt in H
           | H : (_ <? _) = false |- _ => apply Z.ltb_ge in H
           | H : (_ =? _) = true |- _ => apply Z.eqb_eq in H
           | H : (_ =? _) = false |- _ => apply Z.eqb_neq in H
           end;
    repeat split; auto; try discriminate; try lia;
    try (rewrite ?orb_false_r; auto; fail);
    try (intros _; left; rewrite ?orb_true_r; auto; fail);
    try (intros _; right; lia);
    try (right; split; [reflexivity|lia]).
Qed.

Lemma measured_positive (c : nat) (v : Z) :
  measured E c numRequest v -> 0 < v.
Proof using latency_positive.
  intros (w & j & _ & _ & ->). apply latency_positive.
Qed.

Lemma extrema_measured_step (w : nat) (σ : state) :
  extrema_measured E numRequest t σ ->
  extrema_measured E numRequest t (step E numRequest t w σ).
Proof using numRequest_nonneg latency_positive.
  intros (Hp & Hmin & Hmin0 & Hmax & Hmax0).
  destruct (pool σ !! w) as [k|] eqn:Hw;
    [|rewrite step_idle by assumption;
      exact (conj Hp (conj Hmin (conj Hmin0 (conj Hmax Hmax0))))].
  destruct (Hp w k Hw) as [Hok Hd].
  destruct (step_worker_measured w (shared σ) (wire σ) k Hok Hd)
    as (Hd' & Cmin & Cmax & Smin & Smax).
  assert (Hlt : (w < length (pool σ))%nat)
    by (apply lookup_lt_is_Some; eauto).
  rewrite (step_unfold _ _ _ w σ k Hw). unfold extrema_measured. simpl.
  rewrite length_insert.
  set (r := step_worker E numRequest t w (shared σ) (wire σ) k) in *.
  split; [|split; [|split; [|split]]].
  - intros j x Hj.
    destruct (decide (w = j)) as [<-|Hne].
    + rewrite list_lookup_insert_eq in Hj by exact Hlt.
      inversion Hj; subst x. split; [|exact Hd'].
      apply step_worker_ok; assumption.
    + rewrite list_lookup_insert_ne in Hj by exact Hne. apply Hp, Hj.
  - destruct Cmin as [->|[-> Hi]]; [exact Hmin|].
    right. exists w, (iter k). auto.
  - intros Hz. apply Forall_insert.
    + apply Hmin0. destruct Cmin as [<-|[Hv _]]; [exact Hz|].
      pose proof (latency_positive w (iter k)). lia.
    + destruct (min_stored r.2) eqn:Hst; [|reflexivity].
      destruct (Smin eq_refl) as [Hold|Hne]; [|contradiction].
      assert (Hz0 : DelayMin (shared σ) = 0).
      { destruct Cmin as [<-|[Hv _]]; [exact Hz|].
        pose proof (latency_positive w (iter k)). lia. }
      pose proof (Forall_lookup_1 _ _ _ _ (Hmin0 Hz0) Hw) as Hk.
      simpl in Hk. congruence.
  - destruct Cmax as [->|[-> Hi]]; [exact Hmax|].
    right. exists w, (iter k). auto.
  - intros Hz. apply Forall_insert.
    + apply Hmax0. destruct Cmax as [<-|[Hv _]]; [exact Hz|].
      pose proof (latency_positive w (iter k)). lia.
    + destruct (0 <? iter r.2) eqn:Hst; [|reflexivity].
      destruct (Smax eq_refl) as [Hold|Hne]; [|contradiction].
      assert (Hz0 : DelayMax (shared σ) = 0).
      { destruct Cmax as [<-|[Hv _]]; [exact Hz|].
        pose proof (latency_positive w (iter k)). lia. }
      pose proof (Forall_lookup_1 _ _ _ _ (Hmax0 Hz0) Hw) as Hk.
      simpl in Hk. congruence.
Qed.

Lemma extrema_measured_exec (sched : list nat) (σ : state) :
  extrema_measured E numRequest t σ ->
  extrema_measured E numRequest t (exec E numRequest t sched σ).
Proof using numRequest_nonneg latency_positive.
  apply exec_invariant. intros w σ'. apply extrema_measured_step.
Qed.

End Measured.

(** X16. Under every interleaving of the unsynchronised updates, the
    extrema never hold a value out of thin air: with fresh statistics and
    positive latencies, at every moment of every run each of [DelayMin] and
    [DelayMax] is either still 0 or a latency that one of the workers has
    measured; and once a run of at least one request per worker has
    returned, neither is 0 any more. *)
Theorem X16_extrema_are_always_measured_latencies
    (E : environ) (b : bench) (sched : list nat) (σ : state) :
  0 <= requests b -> 0 < concurrency b ->
  bstats b = zero_stats ->
  (forall w j, 0 < time_Since E w j) ->
  Run E b sched = Returned σ \/ Run E b sched = Blocked σ ->
  (DelayMin (shared σ) = 0
   \/ measured E (Z.to_nat (concurrency b)) (requests b / concurrency b)
        (DelayMin (shared σ)))
  /\ (DelayMax (shared σ) = 0
      \/ measured E (Z.to_nat (concurrency b)) (requests b / concurrency b)
           (DelayMax (shared σ)))
  /\ (all_done σ = true ->
      concurrency b <= requests b ->
      request_ok E (t_method (mk_task E b)) (t_url (mk_task E b)) = true ->
      measured E (Z.to_nat (concurrency b)) (requests b / concurrency b)
        (DelayMin (shared σ))
      /\ measured E (Z.to_nat (concurrency b)) (requests b / concurrency b)
           (DelayMax (shared σ))).
Proof.
  intros Hn Hc Hfresh Hpos HRun.
  apply Run_state in HRun. destruct HRun as [_ ->].
  set (n := requests b / concurrency b) in *.
  assert (Hnn : 0 <= n) by (apply Z.div_pos; lia).
  assert (H0 : extrema_measured E n (mk_task E b) (launch E b)).
  { unfold extrema_measured. simpl. rewrite Hfresh. simpl.
    split; [|split; [|split; [|split]]].
    - intros w k Hw. apply lookup_replicate in Hw as [-> _].
      split; [reflexivity|discriminate].
    - left; reflexivity.
    - intros _. apply Forall_replicate. reflexivity.
    - left; reflexivity.
    - intros _. apply Forall_replicate. reflexivity. }
  apply (extrema_measured_exec E n (mk_task E b) Hnn Hpos sched) in H0.
  destruct H0 as (Hp & Hmin & Hmin0 & Hmax & Hmax0).
  set (σ1 := exec E n (mk_task E b) sched (launch E b)) in *.
  assert (Hsize : length (pool σ1) = Z.to_nat (concurrency b)).
  { unfold σ1. rewrite exec_length. simpl. apply length_replicate. }
  rewrite Hsize in Hmin, Hmax.
  split; [exact Hmin|]. split; [exact Hmax|].
  intros Hdone Hle Hbuilt.
  assert (Hn1 : 1 <= n).
  { unfold n. apply Z.div_le_lower_bound; lia. }
  destruct (lookup_lt_is_Some_2 (pool σ1) 0) as [k Hk]; [lia|].
  apply all_done_Forall in Hdone.
  pose proof (Forall_lookup_1 _ _ _ _ Hdone Hk) as Hpc. simpl in Hpc.
  destruct (Hp 0%nat k Hk) as [Hok _].
  unfold worker_ok in Hok. rewrite Hpc, Hbuilt in Hok.
  assert (Hit : (0 <? iter k) = true) by (apply Z.ltb_lt; lia).
  split.
  - destruct Hmin as [Hz|Hm]; [|exact Hm].
    pose proof (Forall_lookup_1 _ _ _ _ (Hmin0 Hz) Hk) as Hst.
    simpl in Hst. unfold min_stored in Hst. rewrite Hit in Hst.
    discriminate.
  - destruct Hmax as [Hz|Hm]; [|exact Hm].
    pose proof (Forall_lookup_1 _ _ _ _ (Hmax0 Hz) Hk) as Hst.
    simpl in Hst. congruence.
Qed.

(** On the racy schedule the extrema end out of order, yet each is a
    latency that was measured (5 ns by worker 0, 3 ns by worker 1). *)
Lemma X16_witness_racy_run :
  exists σ,
    Run two_latencies (bench_of 2 2 "GET") racy_schedule = Returned σ
    /\ measured two_latencies 2 1 (DelayMin (shared σ))
    /\ measured two_latencies 2 1 (DelayMax (shared σ)).
Proof.
  eexists. split; [vm_compute; reflexivity|].
  match goal with
  | |- measured _ _ _ (DelayMin (shared ?s)) /\ _ =>
      destruct (X16_extrema_are_always_measured_latencies two_latencies
                  (bench_of 2 2 "GET") racy_schedule s
                  ltac:(simpl; lia) ltac:(simpl; lia) eq_refl
                  ltac:(intros w j; simpl; destruct (Nat.eqb w 0); lia)
                  ltac:(left; vm_compute; reflexivity)) as (_ & _ & H)
  end.
  apply H; [vm_compute; reflexivity|simpl; lia|reflexivity].
Defined.
